(** * Cold-room telemetry: ingestion, liveness, statistics, export, error log

    A shallow embedding of the ingestion and aggregation engine of the
    cold-room monitor (app.py, database.py).

    Modelling conventions.
    - The SQLite file is a record of tables; a table is the list of its rows
      in rowid order, and an INSERT appends at the end.
    - A timestamp is a number of seconds since the epoch (UTC); the column is
      nullable, hence [option Z].  The text form 'YYYY-MM-DD HH:MM:SS' orders
      and truncates the same way, and is not modelled.
    - The clock counts milliseconds, as SQLite's does: an [instant] is a
      second and the milliseconds into it.  CURRENT_TIMESTAMP and
      datetime('now', ...) drop the milliseconds, julianday('now') keeps them.
      An integer used as an instant is that second, on the second.
    - A double is the rational number it stands for.  [fl] rounds a rational
      to the nearest double (53 significant bits, ties to even, gradual
      underflow), and every floating-point operation of the code is the exact
      operation followed by [fl]: the age of a sample that SQLite computes
      with julianday(), the sums and quotients that Python computes on
      temperatures (sum() adds from left to right, as CPython does before
      3.12).  Overflow to infinity is not modelled: no result of the code
      comes near 2^1024 unless a stored temperature does.  The aggregates of
      the export (SQL's AVG) are taken exactly: what is stated of them is
      which samples they are taken over, not their last bit.
    - The store is always reachable: no call fails for want of a connection.
    - A decoded JSON body is a [pyval].  An integer bound to a TEXT column or
      compared with one is its decimal text, an integer bound to the REAL
      column the nearest double, and an integer outside 64 bits cannot be
      bound at all.  Where the outcome rests on how SQLite renders a float as
      text, or on a temperature that is a string or an infinity, the model
      answers [Unmodelled] rather than guessing. *)

From Stdlib Require Import ZArith QArith Qround Qabs Qpower Lqa List String Ascii Bool Lia.
From Stdlib Require Import Permutation Sorted DecimalString.
Import ListNotations.

Set Warnings "-register-all".

Local Open Scope string_scope.
Local Open Scope list_scope.
Local Open Scope Z_scope.

(** ** Python values, as request.get_json() returns them *)

(** A JSON number written without fraction or exponent is a Python int, any
    other a float; json.loads also reads the literals NaN, Infinity and
    -Infinity. *)
Inductive pyval : Type :=
  | PNone
  | PBool (b : bool)
  | PInt (z : Z)
  | PNum (q : Q)
  | PNaN
  | PInf (negative : bool)
  | PStr (s : string)
  | PList (l : list pyval)
  | PDict (d : list (string * pyval)).

(** [bool(v)] *)
Definition truthy (v : pyval) : bool :=
  match v with
  | PNone => false
  | PBool b => b
  | PInt z => negb (z =? 0)%Z
  | PNum q => negb (Qeq_bool q 0)
  | PNaN | PInf _ => true
  | PStr s => negb (String.eqb s "")
  | PList l => match l with [] => false | _ :: _ => true end
  | PDict d => match d with [] => false | _ :: _ => true end
  end.

Definition is_none (v : pyval) : bool :=
  match v with PNone => true | _ => false end.

(** A dict is the list of its items; the keys of a dict are distinct. *)
Fixpoint assoc (key : string) (d : list (string * pyval)) : option pyval :=
  match d with
  | [] => None
  | (k, v) :: rest => if String.eqb k key then Some v else assoc key rest
  end.

(** What a database call can do: return, let an exception escape, or leave
    the model. *)
Inductive outcome (A : Type) : Type :=
  | Returns (a : A)
  | Raises
  | Unmodelled.
Arguments Returns {A} a.
Arguments Raises {A}.
Arguments Unmodelled {A}.

(** [v.get(key)]: the value, Python's None when the key is missing; [None]
    stands for the AttributeError raised when [v] is not a dict. *)
Definition py_get (v : pyval) (key : string) : option pyval :=
  match v with
  | PDict d => Some (match assoc key d with Some x => x | None => PNone end)
  | _ => None
  end.

Fixpoint chars (s : string) : list pyval :=
  match s with
  | EmptyString => []
  | String c rest => PStr (String c EmptyString) :: chars rest
  end.

(** [for x in v]: the elements of a list, the keys of a dict, the characters
    of a string; [None] stands for the TypeError raised otherwise. *)
Definition py_iter (v : pyval) : option (list pyval) :=
  match v with
  | PList l => Some l
  | PDict d => Some (map (fun kv => PStr (fst kv)) d)
  | PStr s => Some (chars s)
  | _ => None
  end.

(** [a or b] *)
Definition py_or (a b : pyval) : pyval := if truthy a then a else b.

(** ** The clock *)

Record instant : Type := {
  clock_seconds : Z;
  clock_millis : Z
}.

Definition on_the_second (s : Z) : instant :=
  {| clock_seconds := s; clock_millis := 0 |}.

Coercion on_the_second : Z >-> instant.
Bind Scope Z_scope with instant.

(** The instant in milliseconds since the epoch. *)
Definition unix_ms (now : instant) : Z := 1000 * clock_seconds now + clock_millis now.

(** ** Double-precision arithmetic *)

Local Open Scope Q_scope.

(** The integer nearest to [s], a tie going to the even one. *)
Definition round_half_even (s : Q) : Z :=
  let f := Qfloor s in
  match Qcompare (s - inject_Z f) (1 # 2) with
  | Lt => f
  | Gt => (f + 1)%Z
  | Eq => if Z.even f then f else (f + 1)%Z
  end.

Definition pow2 (e : Z) : Q := 2 ^ e.

(** The binade of a positive rational: the k with 2^k <= x < 2^(k+1). *)
Definition ilog2 (x : Q) : Z :=
  let k := (Z.log2 (Qnum x) - Z.log2 (Zpos (Qden x)))%Z in
  if Qle_bool (pow2 k) x then k else (k - 1)%Z.

(** The exponent of the last bit of the double nearest to a positive
    rational: 53 significant bits, and never below 2^-1074. *)
Definition quantum (x : Q) : Z := Z.max (ilog2 x - 52) (-1074).

Definition fl_pos (x : Q) : Q :=
  inject_Z (round_half_even (x / pow2 (quantum x))) * pow2 (quantum x).

(** The double nearest to [x], ties to the even significand. *)
Definition fl (x : Q) : Q :=
  match Qcompare x 0 with
  | Eq => 0
  | Gt => fl_pos x
  | Lt => - fl_pos (- x)
  end.

(** julianday(): days since noon of 24 November 4714 BC, the count of
    milliseconds divided by 86400000.0. *)
Definition julian_epoch_ms : Z := 210866760000000.

Definition julianday (ms : Z) : Q :=
  fl (inject_Z (ms + julian_epoch_ms) / 86400000).

(** (julianday('now') - julianday(timestamp)) * 86400, for a timestamp of
    whole seconds *)
Definition age_seconds (now_ms : Z) (t : Z) : Q :=
  fl (fl (julianday now_ms - julianday (1000 * t)) * 86400).

Local Close Scope Q_scope.

(** ** The tables *)

Record location : Type := {
  loc_id : Z;
  loc_name : string
}.

Record cold_room : Type := {
  room_id : Z;
  room_name : string;
  room_location_id : Z;
  room_sensor_id : option string
}.

Record temperature_row : Type := {
  td_cold_room_id : Z;
  td_temperature : Q;
  td_timestamp : option Z
}.

Inductive error_type : Type :=
  | UNREGISTERED_SENSOR
  | MALFORMED_DATA.

(** The two message templates of the handler, with their arguments. *)
Inductive error_message : Type :=
  | Unregistered_sensor_id (sensor_id : pyval)
  | Malformed_reading (sensor_id temperature : pyval).

Record esp32_error : Type := {
  err_id : Z;
  err_esp32_mac : string;
  err_sensor_id : option string;
  err_type : error_type;
  err_message : error_message;
  err_timestamp : option Z;
  err_resolved : bool
}.

Record database : Type := {
  locations : list location;
  cold_rooms : list cold_room;
  temperature_data : list temperature_row;
  esp32_errors : list esp32_error;
  next_error_id : Z
}.

Definition option_string_eqb (a : option string) (s : string) : bool :=
  match a with
  | Some x => String.eqb x s
  | None => false
  end.

(** ** database.py: registry, sample append, error log *)

(** SELECT * FROM cold_rooms WHERE sensor_id = ? ... fetchone() *)
Definition find_room_by_sensor (db : database) (s : string) : option cold_room :=
  find (fun c => option_string_eqb (room_sensor_id c) s) (cold_rooms db).

(** A signed 64-bit integer: what sqlite3 can bind of a Python int. *)
Definition int64 (z : Z) : bool := (- 2 ^ 63 <=? z) && (z <? 2 ^ 63).

Definition str_of_Z (z : Z) : string := NilZero.string_of_int (Z.to_int z).

(** A parameter bound where a TEXT column is written or compared: the text,
    or NULL.  An int is its decimal text (True is 1), NaN is bound as NULL, an
    int outside 64 bits raises OverflowError, a list or dict cannot be bound;
    how a float is rendered is left out. *)
Definition sqlite_text (v : pyval) : outcome (option string) :=
  match v with
  | PStr s => Returns (Some s)
  | PNone | PNaN => Returns None
  | PInt z => if int64 z then Returns (Some (str_of_Z z)) else Raises
  | PBool b => Returns (Some (if b then "1" else "0"))
  | PNum _ | PInf _ => Unmodelled
  | PList _ | PDict _ => Raises
  end.

Definition get_cold_room_by_sensor (db : database) (sensor_id : pyval)
  : outcome (option cold_room) :=
  match sqlite_text sensor_id with
  | Returns (Some s) => Returns (find_room_by_sensor db s)
  | Returns None => Returns None
  | Raises => Raises
  | Unmodelled => Unmodelled
  end.

Definition append_sample (db : database) (r : temperature_row) : database :=
  {| locations := locations db;
     cold_rooms := cold_rooms db;
     temperature_data := temperature_data db ++ [r];
     esp32_errors := esp32_errors db;
     next_error_id := next_error_id db |}.

(** A parameter bound to the REAL NOT NULL column: the double stored, or NULL.
    A float is stored as it is and an int (True is 1) as the nearest double;
    NaN is bound as NULL; an int outside 64 bits raises OverflowError and a
    list or dict cannot be bound.  A string (kept as text unless it reads as
    a number) and an infinity are left out. *)
Definition stored_temperature (temperature : pyval) : outcome (option Q) :=
  match temperature with
  | PNum t => Returns (Some t)
  | PInt z => if int64 z then Returns (Some (fl (inject_Z z))) else Raises
  | PBool b => Returns (Some (if b then 1%Q else 0%Q))
  | PNone | PNaN => Returns None
  | PInf _ | PStr _ => Unmodelled
  | PList _ | PDict _ => Raises
  end.

(** INSERT INTO temperature_data (cold_room_id, temperature) VALUES (?, ?);
    the timestamp column takes CURRENT_TIMESTAMP.  A NULL temperature breaks
    NOT NULL: the IntegrityError is caught and nothing is written.  Any other
    error (OverflowError, a value that cannot be bound) escapes. *)
Definition insert_temperature_data (db : database) (now : instant) (cold_room_id : Z)
    (temperature : pyval) : outcome database :=
  match stored_temperature temperature with
  | Returns (Some t) =>
      Returns (append_sample db
                 {| td_cold_room_id := cold_room_id;
                    td_temperature := t;
                    td_timestamp := Some (clock_seconds now) |})
  | Returns None => Returns db
  | Raises => Raises
  | Unmodelled => Unmodelled
  end.

Definition append_error (db : database) (now : instant) (mac : string)
    (sensor : option string) (ty : error_type) (msg : error_message) : database :=
  {| locations := locations db;
     cold_rooms := cold_rooms db;
     temperature_data := temperature_data db;
     esp32_errors :=
       esp32_errors db ++
       [ {| err_id := next_error_id db;
            err_esp32_mac := mac;
            err_sensor_id := sensor;
            err_type := ty;
            err_message := msg;
            err_timestamp := Some (clock_seconds now);
            err_resolved := false |} ];
     next_error_id := next_error_id db + 1 |}.

Definition unbindable (v : pyval) : bool :=
  match sqlite_text v with
  | Raises => true
  | _ => false
  end.

(** INSERT INTO esp32_errors (...).  Every exception is swallowed: a value
    that cannot be bound, or a NULL esp32_mac, leaves the table as it was. *)
Definition log_esp32_error (db : database) (now : instant) (esp32_mac sensor_id : pyval)
    (ty : error_type) (msg : error_message) : outcome database :=
  if unbindable esp32_mac || unbindable sensor_id then Returns db
  else
    match sqlite_text esp32_mac, sqlite_text sensor_id with
    | Returns None, Returns _ => Returns db
    | Returns (Some m), Returns s => Returns (append_error db now m s ty msg)
    | _, _ => Unmodelled
    end.

(** ** app.py: POST /api/data *)

Record response : Type := {
  code : Z;
  status : string;
  message : string
}.

Record loop_state : Type := {
  ls_db : database;
  processed_count : nat;
  error_count : nat
}.

Definition str_of_nat (n : nat) : string := NilZero.string_of_uint (Nat.to_uint n).

(** The body of the [for reading in readings] loop. *)
Definition process_reading (esp32_mac : pyval) (now : instant) (st : loop_state)
    (reading : pyval) : outcome loop_state :=
  match py_get reading "sensor_id", py_get reading "temperature" with
  | Some sensor_id, Some temperature =>
      if truthy sensor_id && negb (is_none temperature) then
        match get_cold_room_by_sensor (ls_db st) sensor_id with
        | Returns (Some cold_room) =>
            match insert_temperature_data (ls_db st) now (room_id cold_room) temperature with
            | Returns db' =>
                Returns {| ls_db := db';
                           processed_count := S (processed_count st);
                           error_count := error_count st |}
            | Raises => Raises
            | Unmodelled => Unmodelled
            end
        | Returns None =>
            match log_esp32_error (ls_db st) now esp32_mac sensor_id
                    UNREGISTERED_SENSOR (Unregistered_sensor_id sensor_id) with
            | Returns db' =>
                Returns {| ls_db := db';
                           processed_count := processed_count st;
                           error_count := S (error_count st) |}
            | Raises => Raises
            | Unmodelled => Unmodelled
            end
        | Raises => Raises
        | Unmodelled => Unmodelled
        end
      else
        match log_esp32_error (ls_db st) now esp32_mac (py_or sensor_id (PStr "UNKNOWN"))
                MALFORMED_DATA (Malformed_reading sensor_id temperature) with
        | Returns db' =>
            Returns {| ls_db := db';
                       processed_count := processed_count st;
                       error_count := S (error_count st) |}
        | Raises => Raises
        | Unmodelled => Unmodelled
        end
  | _, _ => Raises
  end.

(** How the loop ends: it runs to completion, or an exception leaves it with
    the writes committed so far. *)
Inductive loop_end : Type :=
  | Completed (st : loop_state)
  | Aborted (db : database)
  | Outside.

Fixpoint for_readings (esp32_mac : pyval) (now : instant) (st : loop_state)
    (readings : list pyval) : loop_end :=
  match readings with
  | [] => Completed st
  | reading :: rest =>
      match process_reading esp32_mac now st reading with
      | Returns st' => for_readings esp32_mac now st' rest
      | Raises => Aborted (ls_db st)
      | Unmodelled => Outside
      end
  end.

Definition response_message (processed errors : nat) : string :=
  ("Processed " ++ str_of_nat processed ++ " readings." ++
   (if Nat.ltb 0 errors then " " ++ str_of_nat errors ++ " errors logged." else ""))%string.

Definition bad_request (msg : string) : response :=
  {| code := 400; status := "error"; message := msg |}.

Definition server_error : response :=
  {| code := 500; status := "error"; message := "Internal server error" |}.

Definition success (msg : string) : response :=
  {| code := 200; status := "success"; message := msg |}.

(** [receive_esp32_data]: the database after the request and the response;
    [None] when the request leaves the model. *)
Definition receive_esp32_data (db : database) (now : instant) (data : pyval)
  : option (database * response) :=
  if negb (truthy data) then Some (db, bad_request "Invalid JSON")
  else
    match py_get data "esp32_mac", py_get data "readings" with
    | Some esp32_mac, Some readings =>
        if negb (truthy esp32_mac) || negb (truthy readings) then
          Some (db, bad_request "Missing esp32_mac or readings")
        else
          match py_iter readings with
          | Some l =>
              match for_readings esp32_mac now
                      {| ls_db := db; processed_count := 0; error_count := 0 |} l with
              | Completed st =>
                  Some (ls_db st,
                        success (response_message (processed_count st) (error_count st)))
              | Aborted db' => Some (db', server_error)
              | Outside => None
              end
          | None => Some (db, server_error)
          end
    | _, _ => Some (db, server_error)
    end.

(** ** ORDER BY ... DESC

    NULL sorts below every value, so it comes last under DESC.  SQL leaves the
    order of rows with equal keys open; here they keep their rowid order. *)

Definition ts_ltb (a b : option Z) : bool :=
  match a, b with
  | _, None => false
  | None, Some _ => true
  | Some x, Some y => (x <? y)%Z
  end.

Fixpoint insert_desc {A : Type} (key : A -> option Z) (x : A) (l : list A) : list A :=
  match l with
  | [] => [x]
  | y :: rest =>
      if ts_ltb (key x) (key y) then y :: insert_desc key x rest
      else x :: y :: rest
  end.

Definition order_by_desc {A : Type} (key : A -> option Z) (l : list A) : list A :=
  fold_right (insert_desc key) [] l.

(** [a] does not sort after [b]: its key is not below the key of [b]. *)
Definition newer_or_equal {A : Type} (key : A -> option Z) (a b : A) : Prop :=
  ts_ltb (key a) (key b) = false.

(** ** Python arithmetic on temperatures *)

Local Open Scope Q_scope.

Definition Qlt_bool (a b : Q) : bool := negb (Qle_bool b a).

(** [sum(l)] on floats: the additions are made from left to right, each
    rounded. *)
Definition py_sum (l : list Q) : Q := fold_left (fun a x => fl (a + x)) l 0.

(** [min(x :: l)] and [max(x :: l)]: the first extreme element is kept. *)
Definition py_min (x : Q) (l : list Q) : Q :=
  fold_left (fun m y => if Qlt_bool y m then y else m) l x.

Definition py_max (x : Q) (l : list Q) : Q :=
  fold_left (fun m y => if Qlt_bool m y then y else m) l x.

Definition Qnat (n : nat) : Q := inject_Z (Z.of_nat n).

(** [round(x, ndigits)]: to the nearest multiple of 10^-ndigits, a tie going
    to the even one. *)
Definition pow10 (n : nat) : positive := Nat.iter n (Pos.mul 10) 1%positive.

Definition py_round (x : Q) (ndigits : nat) : Q :=
  Qmake (round_half_even (x * inject_Z (Zpos (pow10 ndigits)))) (pow10 ndigits).

(** ** database.py: reading samples back *)

Record reading_row : Type := {
  temperature : Q;
  timestamp : option Z;
  seconds_ago : option Q;
  is_active : bool
}.

Definition room_is (cold_room_id : Z) (r : temperature_row) : bool :=
  Z.eqb (td_cold_room_id r) cold_room_id.

(** [LIMIT ?] as the function adds it: only when [limit] is truthy. *)
Definition apply_limit {A : Type} (limit : option nat) (l : list A) : list A :=
  match limit with
  | None | Some O => l
  | Some n => firstn n l
  end.

Definition get_temperature_data_for_cold_room (db : database) (now : instant)
    (cold_room_id : Z) (limit : option nat) : list reading_row :=
  let data :=
    apply_limit limit
      (order_by_desc td_timestamp (filter (room_is cold_room_id) (temperature_data db))) in
  map (fun row =>
         let ago := option_map (age_seconds (unix_ms now)) (td_timestamp row) in
         {| temperature := td_temperature row;
            timestamp := td_timestamp row;
            seconds_ago := ago;
            is_active := match ago with
                         | None => true
                         | Some a => Qle_bool a 900
                         end |})
      data.

Inductive trend_t : Type := rising | falling | stable.

Record stats_24h : Type := {
  avg_temp : option Q;
  min_temp : option Q;
  max_temp : option Q;
  readings_count : nat;
  trend : trend_t;
  last_24h_data : list (Q * option Z)
}.

(** datetime(timestamp) >= datetime('now', '-24 hours'), both to the second;
    NULL never passes. *)
Definition in_last_24h (now : instant) (r : temperature_row) : bool :=
  match td_timestamp r with
  | Some t => (clock_seconds now - 86400 <=? t)%Z
  | None => false
  end.

(** [temperatures[-5:]] *)
Definition last5 (l : list Q) : list Q := skipn (List.length l - 5) l.

Definition trend_of (temperatures : list Q) : trend_t :=
  if Nat.leb 2 (List.length temperatures) then
    let recent_avg :=
      fl (py_sum (firstn 5 temperatures) / Qnat (Nat.min 5 (List.length temperatures))) in
    let older_avg :=
      fl (py_sum (last5 temperatures) / Qnat (Nat.min 5 (List.length temperatures))) in
    if Qlt_bool (fl (older_avg + (1 # 2))) recent_avg then rising
    else if Qlt_bool recent_avg (fl (older_avg - (1 # 2))) then falling
    else stable
  else stable.

Definition window_24h (db : database) (now : instant) (cold_room_id : Z)
  : list temperature_row :=
  order_by_desc td_timestamp
    (filter (fun r => room_is cold_room_id r && in_last_24h now r) (temperature_data db)).

Definition get_24h_temperature_stats (db : database) (now : instant) (cold_room_id : Z)
  : stats_24h :=
  let data := window_24h db now cold_room_id in
  match map td_temperature data with
  | [] =>
      {| avg_temp := None; min_temp := None; max_temp := None;
         readings_count := 0; trend := stable; last_24h_data := [] |}
  | t0 :: ts =>
      let temperatures := t0 :: ts in
      {| avg_temp :=
           Some (py_round (fl (py_sum temperatures / Qnat (List.length temperatures))) 1);
         min_temp := Some (py_round (py_min t0 ts) 1);
         max_temp := Some (py_round (py_max t0 ts) 1);
         readings_count := List.length temperatures;
         trend := trend_of temperatures;
         last_24h_data :=
           map (fun r => (td_temperature r, td_timestamp r)) (firstn 48 data) |}
  end.

(** ** app.py: the dashboard of a user assigned to a location *)

Definition get_cold_rooms_by_location (db : database) (location_id : Z) : list cold_room :=
  filter (fun c => Z.eqb (room_location_id c) location_id) (cold_rooms db).

Inductive temp_status_t : Type := normal | alert | offline.

(** The four fields every branch of the dashboard derives from the newest
    sample of a room. *)
Record latest_status_t : Type := {
  latest_temp : option Q;
  latest_time : option (option Z);
  is_sensor_active : bool;
  minutes_ago : option Q
}.

(** [round(seconds / 60, 1)] *)
Definition minutes_of (seconds : Q) : Q := py_round (fl (seconds / 60)) 1.

Definition latest_status (db : database) (now : instant) (cold_room_id : Z)
  : latest_status_t :=
  match get_temperature_data_for_cold_room db now cold_room_id (Some 1%nat) with
  | latest :: _ =>
      {| latest_temp := if is_active latest then Some (temperature latest) else None;
         latest_time := Some (timestamp latest);
         is_sensor_active := is_active latest;
         minutes_ago :=
           Some (match seconds_ago latest with
                 | Some a => if Qeq_bool a 0 then 0 else minutes_of a
                 | None => 0
                 end) |}
  | [] =>
      {| latest_temp := None;
         latest_time := None;
         is_sensor_active := false;
         minutes_ago := None |}
  end.

Record room_entry : Type := {
  entry_room : cold_room;
  entry_latest : latest_status_t;
  entry_stats : stats_24h;
  temp_status : temp_status_t
}.

Record dashboard_acc : Type := {
  room_data : list room_entry;
  all_active_temps : list Q;
  all_24h_temps : list Q;
  most_recent_time : option (option Z);
  most_recent_minutes_ago : option Q
}.

(** [(latest['seconds_ago'] or 0) < (most_recent_minutes_ago or float('inf'))] *)
Definition more_recent (ago : option Q) (most_recent : option Q) : bool :=
  let lhs := match ago with Some a => a | None => 0 end in
  match most_recent with
  | None => true
  | Some m => if Qeq_bool m 0 then true else Qlt_bool lhs m
  end.

(** One turn of the loop over the rooms of the location. *)
Definition dashboard_room (db : database) (now : instant) (acc : dashboard_acc)
    (room : cold_room) : dashboard_acc :=
  let latest_data := get_temperature_data_for_cold_room db now (room_id room) (Some 1%nat) in
  let status := latest_status db now (room_id room) in
  let stats := get_24h_temperature_stats db now (room_id room) in
  let entry :=
    {| entry_room := room;
       entry_latest := status;
       entry_stats := stats;
       temp_status :=
         match latest_temp status with
         | Some temp =>
             if is_sensor_active status then
               if Qle_bool (-5) temp && Qle_bool temp 5 then normal else alert
             else offline
         | None => offline
         end |} in
  let collect :=
    match latest_data with
    | latest :: _ => is_active latest
    | [] => false
    end in
  let newer :=
    match latest_data with
    | latest :: _ =>
        is_active latest &&
        (match most_recent_time acc with None => true | Some _ => false end
         || more_recent (seconds_ago latest) (most_recent_minutes_ago acc))
    | [] => false
    end in
  {| room_data := room_data acc ++ [entry];
     all_active_temps :=
       match latest_data with
       | latest :: _ =>
           if collect then all_active_temps acc ++ [temperature latest]
           else all_active_temps acc
       | [] => all_active_temps acc
       end;
     all_24h_temps := all_24h_temps acc ++ map fst (last_24h_data stats);
     most_recent_time :=
       match latest_data with
       | latest :: _ => if newer then Some (timestamp latest) else most_recent_time acc
       | [] => most_recent_time acc
       end;
     most_recent_minutes_ago :=
       match latest_data with
       | latest :: _ => if newer then seconds_ago latest else most_recent_minutes_ago acc
       | [] => most_recent_minutes_ago acc
       end |}.

Record combined_stats_t : Type := {
  live_temp : option Q;
  avg_24h : option Q;
  min_24h : option Q;
  max_24h : option Q;
  last_update : option (option Z);
  combined_minutes_ago : option Q;
  online_count : nat;
  total_count : nat
}.

Definition rounded_mean (l : list Q) : option Q :=
  match l with
  | [] => None
  | _ :: _ => Some (py_round (fl (py_sum l / Qnat (List.length l))) 1)
  end.

Definition combined_stats (acc : dashboard_acc) : combined_stats_t :=
  {| live_temp := rounded_mean (all_active_temps acc);
     avg_24h := rounded_mean (all_24h_temps acc);
     min_24h := match all_24h_temps acc with
                | [] => None
                | t :: ts => Some (py_round (py_min t ts) 1)
                end;
     max_24h := match all_24h_temps acc with
                | [] => None
                | t :: ts => Some (py_round (py_max t ts) 1)
                end;
     last_update := most_recent_time acc;
     combined_minutes_ago :=
       match most_recent_minutes_ago acc with
       | Some m => if Qeq_bool m 0 then None else Some (minutes_of m)
       | None => None
       end;
     online_count :=
       List.length (filter (fun room => is_sensor_active (entry_latest room)) (room_data acc));
     total_count := List.length (room_data acc) |}.

(** SELECT * FROM locations WHERE id = ? ... fetchone() *)
Definition get_location_by_id (db : database) (location_id : Z) : option location :=
  find (fun l => Z.eqb (loc_id l) location_id) (locations db).

(** The branch of [user_dashboard] for a user who is not an admin,
    [location_id] being the user's: the rooms handed to the template and the
    combined figures.  Without a location id, or when the location row is
    gone, the template gets no room and no combined figures. *)
Definition user_dashboard (db : database) (now : instant) (location_id : Z)
  : list room_entry * option combined_stats_t :=
  if Z.eqb location_id 0 then ([], None)
  else
    match get_location_by_id db location_id with
    | None => ([], None)
    | Some location =>
        let acc :=
          fold_left (dashboard_room db now) (get_cold_rooms_by_location db (loc_id location))
            {| room_data := []; all_active_temps := []; all_24h_temps := [];
               most_recent_time := None; most_recent_minutes_ago := None |} in
        (room_data acc, Some (combined_stats acc))
    end.

(** ** app.py: export *)

(** DATE(timestamp), as a day number, and the start of the hour and of the day
    a timestamp falls in: strftime('%Y-%m-%d %H:00:00', timestamp) and
    DATE(timestamp). *)
Definition date_of (t : Z) : Z := (t / 86400)%Z.
Definition hour_bucket (t : Z) : Z := (t / 3600 * 3600)%Z.
Definition day_bucket (t : Z) : Z := (t / 86400 * 86400)%Z.

(** AND DATE(timestamp) >= ? / <= ?, each present only when the bound is
    given (a missing or empty query parameter is no bound); a bound is a
    calendar day, as a day number; a NULL timestamp fails either test. *)
Definition date_filter (date_from date_to : option Z) (r : temperature_row) : bool :=
  (match date_from with
   | None => true
   | Some d => match td_timestamp r with
               | Some t => (d <=? date_of t)%Z
               | None => false
               end
   end) &&
  (match date_to with
   | None => true
   | Some d => match td_timestamp r with
               | Some t => (date_of t <=? d)%Z
               | None => false
               end
   end).

Definition selected (db : database) (cold_room_id : Z) (date_from date_to : option Z)
  : list temperature_row :=
  filter (fun r => room_is cold_room_id r && date_filter date_from date_to r)
    (temperature_data db).

Definition key_eqb (a b : option Z) : bool :=
  match a, b with
  | None, None => true
  | Some x, Some y => (x =? y)%Z
  | _, _ => false
  end.

(** The running aggregates of one group: SUM and COUNT for AVG, MIN, MAX. *)
Record accumulator : Type := {
  acc_sum : Q;
  acc_min : Q;
  acc_max : Q;
  acc_count : nat
}.

Definition acc_start (t : Q) : accumulator :=
  {| acc_sum := t; acc_min := t; acc_max := t; acc_count := 1 |}.

Definition acc_step (a : accumulator) (t : Q) : accumulator :=
  {| acc_sum := acc_sum a + t;
     acc_min := if Qlt_bool t (acc_min a) then t else acc_min a;
     acc_max := if Qlt_bool (acc_max a) t then t else acc_max a;
     acc_count := S (acc_count a) |}.

(** One row goes to the group of its key, a new group when the key is new. *)
Fixpoint accumulate (k : option Z) (t : Q) (groups : list (option Z * accumulator))
  : list (option Z * accumulator) :=
  match groups with
  | [] => [(k, acc_start t)]
  | (k', a) :: rest =>
      if key_eqb k' k then (k', acc_step a t) :: rest
      else (k', a) :: accumulate k t rest
  end.

(** GROUP BY [bucket], one pass over the selected rows. *)
Definition group_by (bucket : temperature_row -> option Z) (rows : list temperature_row)
  : list (option Z * accumulator) :=
  fold_left (fun groups r => accumulate (bucket r) (td_temperature r) groups) rows [].

Record full_row : Type := {
  full_timestamp : option Z;
  full_temperature : Q
}.

Record aggregate_row : Type := {
  agg_timestamp : option Z;
  agg_temperature : Q;
  agg_min_temp : Q;
  agg_max_temp : Q;
  agg_readings : nat
}.

Inductive export_data : Type :=
  | Full_rows (rows : list full_row)
  | Aggregate_rows (rows : list aggregate_row).

(** SELECT bucket AS timestamp, AVG, MIN, MAX, COUNT ... GROUP BY bucket
    ORDER BY timestamp DESC (the alias: the bucket). *)
Definition aggregated (bucket : Z -> Z) (rows : list temperature_row) : list aggregate_row :=
  map (fun g =>
         {| agg_timestamp := fst g;
            agg_temperature := acc_sum (snd g) / Qnat (acc_count (snd g));
            agg_min_temp := acc_min (snd g);
            agg_max_temp := acc_max (snd g);
            agg_readings := acc_count (snd g) |})
      (order_by_desc fst
         (group_by (fun r => option_map bucket (td_timestamp r)) rows)).

(** [None] is the fall through of the if/elif chain: the function returns
    Python's None for any other aggregation. *)
Definition get_temperature_data_with_filters (db : database) (cold_room_id : Z)
    (date_from date_to : option Z) (aggregation : string) : option export_data :=
  let rows := selected db cold_room_id date_from date_to in
  if String.eqb aggregation "full" then
    Some (Full_rows
            (map (fun r => {| full_timestamp := td_timestamp r;
                              full_temperature := td_temperature r |})
                 (order_by_desc td_timestamp rows)))
  else if String.eqb aggregation "hourly" then
    Some (Aggregate_rows (aggregated hour_bucket rows))
  else if String.eqb aggregation "daily" then
    Some (Aggregate_rows (aggregated day_bucket rows))
  else None.

Inductive csv_cell : Type :=
  | Text (s : string)
  | Stamp (t : option Z)
  | Number (q : Q)
  | Count (n : nat).

Definition csv_header_full : list csv_cell :=
  [Text "Timestamp"; Text "Temperature (°C)"].

Definition csv_header_aggregate : list csv_cell :=
  [Text "Timestamp"; Text "Average Temperature (°C)"; Text "Min Temperature (°C)";
   Text "Max Temperature (°C)"; Text "Number of Readings"].

(** The rows handed to csv.writer, header first; [None] is the KeyError of
    a row without the aggregate columns. *)
Definition export_to_csv (data : export_data) (aggregation : string)
  : option (list (list csv_cell)) :=
  if String.eqb aggregation "full" then
    match data with
    | Full_rows rows =>
        Some (csv_header_full ::
              map (fun row => [Stamp (full_timestamp row); Number (full_temperature row)]) rows)
    | Aggregate_rows rows =>
        Some (csv_header_full ::
              map (fun row => [Stamp (agg_timestamp row); Number (agg_temperature row)]) rows)
    end
  else
    match data with
    | Aggregate_rows rows =>
        Some (csv_header_aggregate ::
              map (fun row =>
                     [Stamp (agg_timestamp row);
                      Number (py_round (agg_temperature row) 2);
                      Number (py_round (agg_min_temp row) 2);
                      Number (py_round (agg_max_temp row) 2);
                      Count (agg_readings row)])
                  rows)
    | Full_rows [] => Some [csv_header_aggregate]
    | Full_rows (_ :: _) => None
    end.

(** [export_cold_room_data] with format csv: the rows written, or [None] when
    an exception makes the route answer 'Export failed'. *)
Definition export_cold_room_data (db : database) (cold_room_id : Z)
    (date_from date_to : option Z) (aggregation : string) : option (list (list csv_cell)) :=
  match get_temperature_data_with_filters db cold_room_id date_from date_to aggregation with
  | Some data => export_to_csv data aggregation
  | None => None
  end.

Inductive export_file : Type :=
  | Csv_file (rows : list (list csv_cell))
  | Xlsx_file (sheet : export_data).

(** [export_to_excel]: the sheet is the data frame of the rows as queried;
    without pandas, or when writing the workbook fails, the CSV export. *)
Definition export_to_excel (workbook_written : bool) (data : export_data)
    (aggregation : string) : option export_file :=
  if workbook_written then Some (Xlsx_file data)
  else option_map Csv_file (export_to_csv data aggregation).

(** ** database.py: reading the error log, resolving an error *)

Record room_error : Type := {
  re_id : Z;
  re_esp32_mac : string;
  re_error_type : error_type;
  re_error_message : error_message;
  re_timestamp : option Z;
  re_resolved : bool
}.

Definition sensor_matches (a b : option string) : bool :=
  match a, b with
  | Some x, Some y => String.eqb x y
  | _, _ => false
  end.

(** LIMIT ?: a negative limit is no limit. *)
Definition sql_limit {A : Type} (limit : Z) (l : list A) : list A :=
  if (limit <? 0)%Z then l else firstn (Z.to_nat limit) l.

Definition get_esp32_errors_for_cold_room (db : database) (cold_room_id : Z) (limit : Z)
  : list room_error :=
  match find (fun c => Z.eqb (room_id c) cold_room_id) (cold_rooms db) with
  | None => []
  | Some cold_room =>
      match room_sensor_id cold_room with
      | None => []
      | Some s =>
          if String.eqb s "" then []
          else
            map (fun row =>
                   {| re_id := err_id row;
                      re_esp32_mac := err_esp32_mac row;
                      re_error_type := err_type row;
                      re_error_message := err_message row;
                      re_timestamp := err_timestamp row;
                      re_resolved := err_resolved row |})
                (sql_limit limit
                   (order_by_desc err_timestamp
                      (filter (fun e => sensor_matches (err_sensor_id e) (Some s)
                                        && negb (err_resolved e))
                              (esp32_errors db))))
      end
  end.

Record unresolved_error : Type := {
  ue_id : Z;
  ue_esp32_mac : string;
  ue_sensor_id : option string;
  ue_cold_room_name : string;
  ue_location_name : string;
  ue_error_type : error_type;
  ue_error_message : error_message;
  ue_timestamp : option Z
}.

(** e LEFT JOIN cold_rooms c ON e.sensor_id = c.sensor_id
      LEFT JOIN locations l ON c.location_id = l.id:
    an error without a matching room, or a room without a matching location,
    is kept with NULL names. *)
Definition left_join_names (db : database) (e : esp32_error)
  : list (option string * option string) :=
  match filter (fun c => sensor_matches (err_sensor_id e) (room_sensor_id c)) (cold_rooms db) with
  | [] => [(None, None)]
  | rooms =>
      flat_map
        (fun c =>
           match filter (fun l => Z.eqb (room_location_id c) (loc_id l)) (locations db) with
           | [] => [(Some (room_name c), None)]
           | locs => map (fun l => (Some (room_name c), Some (loc_name l))) locs
           end)
        rooms
  end.

(** [name or default] on a nullable text column *)
Definition name_or (name : option string) (default : string) : string :=
  match name with
  | Some n => if String.eqb n "" then default else n
  | None => default
  end.

Definition get_all_unresolved_errors (db : database) : list unresolved_error :=
  map (fun row =>
         let e := fst row in
         {| ue_id := err_id e;
            ue_esp32_mac := err_esp32_mac e;
            ue_sensor_id := err_sensor_id e;
            ue_cold_room_name := name_or (fst (snd row)) "Unknown Room";
            ue_location_name := name_or (snd (snd row)) "Unknown Location";
            ue_error_type := err_type e;
            ue_error_message := err_message e;
            ue_timestamp := err_timestamp e |})
      (order_by_desc (fun row => err_timestamp (fst row))
         (filter (fun row => negb (err_resolved (fst row)))
            (flat_map (fun e => map (fun names => (e, names)) (left_join_names db e))
               (esp32_errors db)))).

Definition mark_resolved (error_id : Z) (e : esp32_error) : esp32_error :=
  if Z.eqb (err_id e) error_id then
    {| err_id := err_id e;
       err_esp32_mac := err_esp32_mac e;
       err_sensor_id := err_sensor_id e;
       err_type := err_type e;
       err_message := err_message e;
       err_timestamp := err_timestamp e;
       err_resolved := true |}
  else e.

(** UPDATE esp32_errors SET resolved = 1 WHERE id = ?; returns True. *)
Definition resolve_esp32_error (db : database) (error_id : Z) : database * bool :=
  ({| locations := locations db;
      cold_rooms := cold_rooms db;
      temperature_data := temperature_data db;
      esp32_errors := map (mark_resolved error_id) (esp32_errors db);
      next_error_id := next_error_id db |},
   true).

(** ** Vocabulary of the specification *)

(** [ingest]: the loop of the handler, started on a database. *)
Definition start (db : database) : loop_state :=
  {| ls_db := db; processed_count := 0; error_count := 0 |}.

Definition ingest (esp32_mac : pyval) (now : instant) (db : database) (readings : list pyval)
  : loop_end :=
  for_readings esp32_mac now (start db) readings.

(** A reading of the documented type: an object whose sensor_id is a string
    and whose temperature is a number, each possibly missing or null. *)
Definition as_sensor_id (v : pyval) : option (option string) :=
  match v with
  | PNone => Some None
  | PStr s => Some (Some s)
  | _ => None
  end.

Definition as_temperature (v : pyval) : option (option Q) :=
  match v with
  | PNone => Some None
  | PNum t => Some (Some t)
  | PInt z => Some (Some (inject_Z z))
  | _ => None
  end.

Definition typed_reading (reading : pyval) : option (option string * option Q) :=
  match py_get reading "sensor_id", py_get reading "temperature" with
  | Some a, Some b =>
      match as_sensor_id a, as_temperature b with
      | Some sid, Some tv => Some (sid, tv)
      | _, _ => None
      end
  | _, _ => None
  end.

(** The sensor identifier is absent or empty. *)
Definition no_identifier (sid : option string) : bool :=
  match sid with
  | Some s => String.eqb s ""
  | None => true
  end.

(** Malformed: no identifier, or no temperature. *)
Definition malformed (sid : option string) (tv : option Q) : bool :=
  no_identifier sid || match tv with None => true | Some _ => false end.

(** The identifier resolves to a registered room. *)
Definition resolves (db : database) (sid : option string) : bool :=
  match sid with
  | Some s => match find_room_by_sensor db s with Some _ => true | None => false end
  | None => false
  end.

Definition accepted (db : database) (sid : option string) (tv : option Q) : bool :=
  negb (malformed sid tv) && resolves db sid.

(** The identifier an error record carries: the reading's, or the sentinel. *)
Definition logged_sensor (sid : option string) : string :=
  match sid with
  | Some s => if String.eqb s "" then "UNKNOWN" else s
  | None => "UNKNOWN"
  end.

Definition accepted_reading (db : database) (reading : pyval) : bool :=
  match typed_reading reading with
  | Some (sid, tv) => accepted db sid tv
  | None => false
  end.

Definition is_typed (reading : pyval) : bool :=
  match typed_reading reading with Some _ => true | None => false end.

(** The envelope test as the specification words it: esp32_mac or readings
    is absent, null, or (readings) not a collection. *)
Definition is_collection (v : pyval) : bool :=
  match v with PList _ => true | _ => false end.

Definition spec_envelope_rejected (data : pyval) : bool :=
  match py_get data "esp32_mac", py_get data "readings" with
  | Some esp32_mac, Some readings =>
      is_none esp32_mac || is_none readings || negb (is_collection readings)
  | _, _ => true
  end.

(** The envelope test as the handler makes it: the body, esp32_mac or
    readings is falsy (absent, null, empty, zero or false). *)
Definition envelope_falsy (data : pyval) : bool :=
  negb (truthy data) ||
  match py_get data "esp32_mac", py_get data "readings" with
  | Some esp32_mac, Some readings => negb (truthy esp32_mac) || negb (truthy readings)
  | _, _ => false
  end.

(** ** Sample data *)

Definition room_a : cold_room :=
  {| room_id := 1; room_name := "Room A"; room_location_id := 1;
     room_sensor_id := Some "289FBDBB4024BC6" |}.

Definition room_b : cold_room :=
  {| room_id := 2; room_name := "Room B"; room_location_id := 1;
     room_sensor_id := Some "28BBCCDDEE001122" |}.

Definition db0 : database :=
  {| locations := [ {| loc_id := 1; loc_name := "Plant" |} ];
     cold_rooms := [room_a; room_b];
     temperature_data := [];
     esp32_errors := [];
     next_error_id := 1 |}.

Definition test_mac : pyval := PStr "AA:BB:CC:DD:EE:FF".

Definition reading_of (sensor_id : string) (t : Q) : pyval :=
  PDict [("sensor_id", PStr sensor_id); ("temperature", PNum t)].

(** The payload of test.py's "Invalid Test - Empty Readings". *)
Definition empty_readings_payload : pyval :=
  PDict [("esp32_mac", test_mac); ("readings", PList [])].

(** One registered sensor and one unknown sensor in a batch. *)
Definition mixed_readings : list pyval :=
  [reading_of "289FBDBB4024BC6" (5 # 2); reading_of "28CCDDEE00112233" 3].

Definition mixed_payload : pyval :=
  PDict [("esp32_mac", test_mac); ("readings", PList mixed_readings)].

Definition db_errors : database :=
  {| locations := locations db0;
     cold_rooms := cold_rooms db0;
     temperature_data := [];
     esp32_errors :=
       [ {| err_id := 1; err_esp32_mac := "AA:BB:CC:DD:EE:FF";
            err_sensor_id := Some "289FBDBB4024BC6";
            err_type := MALFORMED_DATA;
            err_message := Malformed_reading (PStr "289FBDBB4024BC6") PNone;
            err_timestamp := Some 100%Z; err_resolved := false |};
         {| err_id := 2; err_esp32_mac := "AA:BB:CC:DD:EE:FF";
            err_sensor_id := Some "28CCDDEE00112233";
            err_type := UNREGISTERED_SENSOR;
            err_message := Unregistered_sensor_id (PStr "28CCDDEE00112233");
            err_timestamp := Some 200%Z; err_resolved := false |} ];
     next_error_id := 3 |}.

(** Room 1 has samples at 1000 and 1100; room 2 has one sample whose
    timestamp is NULL. *)
Definition db_samples : database :=
  {| locations := locations db0;
     cold_rooms := cold_rooms db0;
     temperature_data :=
       [ {| td_cold_room_id := 1; td_temperature := 4%Q; td_timestamp := Some 1000%Z |};
         {| td_cold_room_id := 1; td_temperature := 5%Q; td_timestamp := Some 1100%Z |};
         {| td_cold_room_id := 2; td_temperature := 3%Q; td_timestamp := None |} ];
     esp32_errors := [];
     next_error_id := 1 |}.

(** The arithmetic mean, and the last up-to-[n] elements of a sequence, as
    the specification words them. *)
Definition mean (l : list Q) : Q := fold_right Qplus 0 l / Qnat (List.length l).

Definition last_up_to {A : Type} (n : nat) (l : list A) : list A := rev (firstn n (rev l)).

(** Six samples of room 1 inside the window at time 1000: the oldest reads
    1 degree, the five newest read 6 degrees. *)
Definition db_trend : database :=
  {| locations := locations db0;
     cold_rooms := cold_rooms db0;
     temperature_data :=
       map (fun p => {| td_cold_room_id := 1; td_temperature := fst p;
                        td_timestamp := Some (snd p) |})
           [(1%Q, 100%Z); (6%Q, 200%Z); (6%Q, 300%Z); (6%Q, 400%Z); (6%Q, 500%Z); (6%Q, 600%Z)];
     esp32_errors := [];
     next_error_id := 1 |}.

(** [m] is the minimum (the maximum) of the values of [l]. *)
Definition is_minimum (m : Q) (l : list Q) : Prop :=
  In m l /\ forall x, In x l -> m <= x.

Definition is_maximum (m : Q) (l : list Q) : Prop :=
  In m l /\ forall x, In x l -> x <= m.

(** The samples of a selection whose timestamp truncates to the bucket [k]. *)
Definition bucket_members (bucket : Z -> Z) (k : option Z) (rows : list temperature_row)
  : list temperature_row :=
  filter (fun r => key_eqb (option_map bucket (td_timestamp r)) k) rows.

(** Room 1 has two samples in the hour starting at 36000 and one in the hour
    starting at 39600. *)
Definition db_export : database :=
  {| locations := locations db0;
     cold_rooms := cold_rooms db0;
     temperature_data :=
       [ {| td_cold_room_id := 1; td_temperature := 2%Q; td_timestamp := Some 36005%Z |};
         {| td_cold_room_id := 1; td_temperature := 7%Q; td_timestamp := Some 39601%Z |};
         {| td_cold_room_id := 1; td_temperature := 4%Q; td_timestamp := Some 36100%Z |} ];
     esp32_errors := [];
     next_error_id := 1 |}.

(** [y] is [x] rounded to [n] decimal places: a multiple of 10^-n at most
    half a unit of the last place from [x]. *)
Definition rounded_to (n : nat) (x y : Q) : Prop :=
  (exists z : Z, y == z # pow10 n) /\ Qabs (y - x) <= 1 # (2 * pow10 n).

(** One sample of 1.25 degrees for room 1. *)
Definition db_quarter : database :=
  {| locations := locations db0;
     cold_rooms := cold_rooms db0;
     temperature_data :=
       [ {| td_cold_room_id := 1; td_temperature := 5 # 4; td_timestamp := Some 36005%Z |} ];
     esp32_errors := [];
     next_error_id := 1 |}.

(** The samples of the last 24 hours of every room of a location, pooled. *)
Definition pooled_24h (db : database) (now : instant) (location_id : Z) : list Q :=
  flat_map (fun room => map td_temperature (window_24h db now (room_id room)))
    (get_cold_rooms_by_location db location_id).

(** Room 1 has 49 samples in the last 24 hours before 100000: the oldest
    reads 9 degrees, the 48 newer ones read 2 degrees. *)
Definition db_cap : database :=
  {| locations := locations db0;
     cold_rooms := [room_a];
     temperature_data :=
       {| td_cold_room_id := 1; td_temperature := 9; td_timestamp := Some 50000%Z |} ::
       map (fun i => {| td_cold_room_id := 1; td_temperature := 2;
                        td_timestamp := Some (50000 + Z.of_nat i)%Z |})
           (seq 1 48);
     esp32_errors := [];
     next_error_id := 1 |}.

(** The entry the dashboard loop builds for a room. *)
Definition entry_of (db : database) (now : instant) (room : cold_room) : room_entry :=
  {| entry_room := room;
     entry_latest := latest_status db now (room_id room);
     entry_stats := get_24h_temperature_stats db now (room_id room);
     temp_status :=
       match latest_temp (latest_status db now (room_id room)) with
       | Some temp =>
           if is_sensor_active (latest_status db now (room_id room)) then
             if Qle_bool (-5) temp && Qle_bool temp 5 then normal else alert
           else offline
       | None => offline
       end |}.

(** [db'] holds everything [db] holds: the same locations and rooms, and the
    samples and error records of [db] followed by new ones. *)
Definition extends (db db' : database) : Prop :=
  locations db' = locations db /\
  cold_rooms db' = cold_rooms db /\
  (exists samples, temperature_data db' = temperature_data db ++ samples) /\
  (exists errors, esp32_errors db' = esp32_errors db ++ errors).

(** An envelope with the given esp32_mac and readings. *)
Definition envelope (esp32_mac readings : pyval) : pyval :=
  PDict [("esp32_mac", esp32_mac); ("readings", readings)].

(** A timestamp lies within the date bounds that are given. *)
Definition in_date_range (date_from date_to : option Z) (ts : option Z) : Prop :=
  (forall d, date_from = Some d -> exists t, ts = Some t /\ (d <= date_of t)%Z) /\
  (forall d, date_to = Some d -> exists t, ts = Some t /\ (date_of t <= d)%Z).

(** The reading counts of the rows of an aggregated export, added up. *)
Definition total_readings (rows : list aggregate_row) : nat :=
  fold_right Nat.add 0%nat (map agg_readings rows).

(** The non-null sensor ids of the rooms, in table order. *)
Definition sensor_ids (rooms : list cold_room) : list string :=
  flat_map (fun c => match room_sensor_id c with Some s => [s] | None => [] end) rooms.

(** The keys the schema declares: cold_rooms.id and locations.id are primary
    keys, cold_rooms.sensor_id is UNIQUE (NULL apart). *)
Definition registry_keys_unique (db : database) : Prop :=
  NoDup (map room_id (cold_rooms db)) /\
  NoDup (sensor_ids (cold_rooms db)) /\
  NoDup (map loc_id (locations db)).

(** ** database.py: the rooms table

    get_db_connection never issues PRAGMA foreign_keys, so whether SQLite
    enforces the foreign keys of the schema is the library's default, taken
    here as a parameter where it matters (ON DELETE CASCADE). *)

(** SELECT * FROM cold_rooms WHERE id = ? ... fetchone() *)
Definition get_cold_room_by_id (db : database) (cold_room_id : Z) : option cold_room :=
  find (fun c => (room_id c =? cold_room_id)%Z) (cold_rooms db).

Definition with_cold_rooms (db : database) (rooms : list cold_room) : database :=
  {| locations := locations db;
     cold_rooms := rooms;
     temperature_data := temperature_data db;
     esp32_errors := esp32_errors db;
     next_error_id := next_error_id db |}.

(** UNIQUE (sensor_id): a row other than the rows of id [except] already
    holds this sensor id; NULL never collides. *)
Definition sensor_taken (rooms : list cold_room) (except : option Z)
    (sensor_id : option string) : bool :=
  match sensor_id with
  | None => false
  | Some s =>
      existsb (fun c =>
                 option_string_eqb (room_sensor_id c) s &&
                 negb (match except with
                       | Some id => (room_id c =? id)%Z
                       | None => false
                       end))
              rooms
  end.

(** INSERT INTO cold_rooms (name, location_id, sensor_id) VALUES (?, ?, ?):
    the new row's id, or None (and no change) on the IntegrityError of a
    sensor id already in use.  [new_id] is the rowid AUTOINCREMENT hands
    out. *)
Definition add_cold_room (db : database) (new_id : Z) (name : string) (location_id : Z)
    (sensor_id : option string) : database * option Z :=
  if sensor_taken (cold_rooms db) None sensor_id then (db, None)
  else
    (with_cold_rooms db
       (cold_rooms db ++
        [ {| room_id := new_id; room_name := name;
             room_location_id := location_id; room_sensor_id := sensor_id |} ]),
     Some new_id).

Definition set_room (cold_room_id : Z) (name : string) (sensor_id : option string)
    (c : cold_room) : cold_room :=
  if (room_id c =? cold_room_id)%Z then
    {| room_id := room_id c; room_name := name;
       room_location_id := room_location_id c; room_sensor_id := sensor_id |}
  else c.

(** UPDATE cold_rooms SET name = ?, sensor_id = ? WHERE id = ?: True, or
    False (and no change) on the IntegrityError of a sensor id in use by
    another room.  An id no row has updates nothing and returns True. *)
Definition update_cold_room (db : database) (cold_room_id : Z) (name : string)
    (sensor_id : option string) : database * bool :=
  if existsb (fun c => (room_id c =? cold_room_id)%Z) (cold_rooms db)
     && sensor_taken (cold_rooms db) (Some cold_room_id) sensor_id
  then (db, false)
  else (with_cold_rooms db (map (set_room cold_room_id name sensor_id) (cold_rooms db)), true).

(** DELETE FROM cold_rooms WHERE id = ?; with foreign keys enforced the
    samples of the room go with it (ON DELETE CASCADE). *)
Definition delete_cold_room (foreign_keys : bool) (db : database) (cold_room_id : Z)
  : database :=
  {| locations := locations db;
     cold_rooms := filter (fun c => negb (room_id c =? cold_room_id)%Z) (cold_rooms db);
     temperature_data :=
       if foreign_keys
       then filter (fun r => negb (room_is cold_room_id r)) (temperature_data db)
       else temperature_data db;
     esp32_errors := esp32_errors db;
     next_error_id := next_error_id db |}.

(** ** app.py: access to the data of a room *)

Record user : Type := {
  user_id : Z;
  user_role : string;
  user_location_id : option Z
}.

(** models.py: [User.is_admin] *)
Definition is_admin (u : user) : bool := String.eqb (user_role u) "admin".

(** Truth value of an optional integer: None and 0 are falsy. *)
Definition truthy_id (v : option Z) : bool :=
  match v with
  | Some i => negb (i =? 0)%Z
  | None => false
  end.

Inductive access : Type :=
  | Granted
  | Denied (flash : string).

(** [location_user_required], for a logged-in user and the keyword arguments
    of the route. *)
Definition location_user_required (db : database) (current_user : user)
    (kw_cold_room_id kw_location_id : option Z) : access :=
  if is_admin current_user then Granted
  else if negb (truthy_id (user_location_id current_user)) then
    Denied "You are not assigned to any location. Please contact an administrator."
  else if truthy_id kw_cold_room_id
          && match kw_cold_room_id with
             | Some id =>
                 match get_cold_room_by_id db id with
                 | None => true
                 | Some cold_room =>
                     negb (key_eqb (Some (room_location_id cold_room))
                             (user_location_id current_user))
                 end
             | None => false
             end
  then Denied "Access denied to this cold room data."
  else if truthy_id kw_location_id
          && negb (key_eqb kw_location_id (user_location_id current_user))
  then Denied "Access denied to this location data."
  else Granted.

(** What a guarded room route does: it redirects with a message, serves a
    file, or lets an exception escape (the client gets a 500). *)
Inductive route_result (A : Type) : Type :=
  | Redirected (flash : string)
  | Served (a : A)
  | Failed.
Arguments Redirected {A} flash.
Arguments Served {A} a.
Arguments Failed {A}.

(** send_file(file, ...): a file object in text mode is refused with a
    ValueError; export_to_csv hands over BytesIO(output.encode('utf-8')),
    this route StringIO(output). *)
Definition send_file {A : Type} (binary_mode : bool) (content : A) : route_result A :=
  if binary_mode then Served content else Failed.

(** [download_cold_room_csv]: the rows written, header first, and what
    send_file makes of them. *)
Definition download_cold_room_csv (db : database) (now : instant) (current_user : user)
    (cold_room_id : Z) : route_result (list (option Z * Q)) :=
  match location_user_required db current_user (Some cold_room_id) None with
  | Denied flash => Redirected flash
  | Granted =>
      match get_cold_room_by_id db cold_room_id with
      | None => Redirected "Cold Room not found."
      | Some _ =>
          send_file false
            (map (fun row => (timestamp row, temperature row))
               (get_temperature_data_for_cold_room db now cold_room_id None))
      end
  end.

(** A user of location 1 who is not an admin. *)
Definition plant_user : user :=
  {| user_id := 7; user_role := "user"; user_location_id := Some 1%Z |}.

(** The current temperatures of the live rooms among [rooms]. *)
Definition live_temperatures (db : database) (now : instant) (rooms : list cold_room)
  : list Q :=
  flat_map (fun room =>
              match latest_temp (latest_status db now (room_id room)) with
              | Some t => [t]
              | None => []
              end)
           rooms.


(** A reading of a registered sensor whose temperature is the integer 10^19,
    and one whose temperature is NaN. *)
Definition huge_reading : pyval :=
  PDict [("sensor_id", PStr "289FBDBB4024BC6"); ("temperature", PInt (10 ^ 19))].

Definition nan_reading : pyval :=
  PDict [("sensor_id", PStr "289FBDBB4024BC6"); ("temperature", PNaN)].

(** The temperature of the reading, when an integer, fits the signed 64 bits
    sqlite3 can bind. *)
Definition storable (reading : pyval) : bool :=
  match py_get reading "temperature" with
  | Some (PInt z) => int64 z
  | _ => true
  end.

(** The instants SQLite has dates for: the years -4713 to 9999. *)
Definition sqlite_date (ms : Z) : Prop :=
  (0 <= ms + julian_epoch_ms < 464269060800000)%Z.

(** The mean as the code computes it: the values added from left to right,
    the sum divided by the count, every operation rounded to a double. *)
Definition double_mean (l : list Q) : Q :=
  fl (fold_left (fun a x => fl (a + x)) l 0 / Qnat (List.length l)).

(** No sum of five such temperatures, and nothing computed from it, comes
    near the largest double. *)
Definition far_from_overflow (t : Q) : Prop := Qabs t <= pow2 1000.

(** Six samples of room 1, the doubles nearest to 3.8, 9.8, -2.1, 4.2, 2.1
    and 1.3 from the newest to the oldest. *)
Definition tie_readings : list Q :=
  map fl [38 # 10; 98 # 10; - (21 # 10); 42 # 10; 21 # 10; 13 # 10].

Definition db_tie : database :=
  {| locations := locations db0;
     cold_rooms := cold_rooms db0;
     temperature_data :=
       map (fun p => {| td_cold_room_id := 1; td_temperature := fst p;
                        td_timestamp := Some (snd p) |})
           (combine (rev tie_readings) [100; 200; 300; 400; 500; 600]%Z);
     esp32_errors := [];
     next_error_id := 1 |}.

(** The accumulator the dashboard loop starts from. *)
Definition no_rooms_yet : dashboard_acc :=
  {| room_data := []; all_active_temps := []; all_24h_temps := [];
     most_recent_time := None; most_recent_minutes_ago := None |}.

(** The user's location id is set and its row exists. *)
Definition location_known (db : database) (location_id : Z) : Prop :=
  location_id <> 0%Z /\ exists l, In l (locations db) /\ loc_id l = location_id.

(** The requests whose outcome the model decides: no float is used as an
    identifier (esp32_mac, sensor_id), and no temperature is a string or an
    infinity. *)
Definition not_a_float (v : pyval) : bool :=
  match v with
  | PNum _ | PInf _ => false
  | _ => true
  end.

Definition plain_reading (reading : pyval) : bool :=
  match py_get reading "sensor_id", py_get reading "temperature" with
  | Some sensor_id, Some temperature =>
      not_a_float sensor_id &&
      match temperature with
      | PStr _ | PInf _ => false
      | _ => true
      end
  | _, _ => true
  end.

Definition plain_request (data : pyval) : bool :=
  match py_get data "esp32_mac", py_get data "readings" with
  | Some esp32_mac, Some (PList readings) =>
      not_a_float esp32_mac && forallb plain_reading readings
  | _, _ => true
  end.

(** 2^-41: half a unit in the last place of the doubles below 2^13. *)
Definition half_ulp_13 : Q := 1 # 2199023255552.

(** Temperatures a sensor of a cold room can report. *)
Definition sensor_range (t : Q) : Prop := Qabs t <= 1000.

(** * Properties *)

(** ** Double-precision arithmetic: rounding error and monotonicity *)

Lemma round_half_even_near s :
  - (1 # 2) <= inject_Z (round_half_even s) - s <= 1 # 2.
Proof.
  unfold round_half_even.
  pose proof (Qfloor_le s) as H1. pose proof (Qlt_floor s) as H2.
  rewrite inject_Z_plus in H2. change (inject_Z 1) with 1 in H2.
  destruct (Qcompare_spec (s - inject_Z (Qfloor s)) (1 # 2)) as [E | E | E].
  - destruct (Z.even (Qfloor s));
      [|rewrite inject_Z_plus; change (inject_Z 1) with 1]; lra.
  - lra.
  - rewrite inject_Z_plus; change (inject_Z 1) with 1; lra.
Qed.

Lemma pow2_pos e : 0 < pow2 e.
Proof. apply Qpower_0_lt. reflexivity. Qed.

Lemma pow2_plus a b : pow2 (a + b) == pow2 a * pow2 b.
Proof. apply Qpower_plus. discriminate. Qed.

Lemma pow2_le a b : (a <= b)%Z -> pow2 a <= pow2 b.
Proof. intros H. apply Qpower_le_compat_l; [exact H|]. discriminate. Qed.

Lemma pow2_lt a b : (a < b)%Z -> pow2 a < pow2 b.
Proof. intros H. apply Qpower_lt_compat_l; [exact H|]. reflexivity. Qed.

Lemma pow2_S a : pow2 (a + 1) == 2 * pow2 a.
Proof. rewrite pow2_plus. change (pow2 1) with 2. ring. Qed.

Lemma pow2_inject n : (0 <= n)%Z -> inject_Z (2 ^ n) == pow2 n.
Proof. intros H. unfold pow2. rewrite Zpower_Qpower by exact H. reflexivity. Qed.

Lemma pow2_sub a b : pow2 (a - b) == pow2 a / pow2 b.
Proof.
  unfold Z.sub. rewrite pow2_plus. unfold pow2 at 2. rewrite Qpower_opp. reflexivity.
Qed.

Lemma ilog2_spec x : 0 < x -> pow2 (ilog2 x) <= x /\ x < pow2 (ilog2 x + 1).
Proof.
  intros Hx. unfold ilog2.
  destruct x as [p q]. assert (Hp : (0 < p)%Z).
  { unfold Qlt in Hx. simpl in Hx. lia. }
  cbn [Qnum Qden].
  set (a := Z.log2 p). set (b := Z.log2 (Zpos q)).
  assert (Ha : (0 <= a)%Z) by apply Z.log2_nonneg.
  assert (Hb : (0 <= b)%Z) by apply Z.log2_nonneg.
  destruct (Z.log2_spec p Hp) as [A1 A2]. fold a in A1, A2.
  destruct (Z.log2_spec (Zpos q) ltac:(lia)) as [B1 B2]. fold b in B1, B2.
  assert (EA : pow2 a <= inject_Z p).
  { rewrite <- pow2_inject by exact Ha. rewrite <- Zle_Qle. exact A1. }
  assert (EA' : inject_Z p < pow2 (a + 1)).
  { rewrite <- pow2_inject by lia. rewrite <- Zlt_Qlt. replace (a + 1)%Z with (Z.succ a) by lia. exact A2. }
  assert (EB : pow2 b <= inject_Z (Zpos q)).
  { rewrite <- pow2_inject by exact Hb. rewrite <- Zle_Qle. exact B1. }
  assert (EB' : inject_Z (Zpos q) < pow2 (b + 1)).
  { rewrite <- pow2_inject by lia. rewrite <- Zlt_Qlt. replace (b + 1)%Z with (Z.succ b) by lia. exact B2. }
  assert (Hq : 0 < inject_Z (Zpos q)) by (change 0 with (inject_Z 0); rewrite <- Zlt_Qlt; lia).
  assert (Ex : p # q == inject_Z p / inject_Z (Zpos q)) by apply Qmake_Qdiv.
  pose proof (pow2_pos a) as Pa. pose proof (pow2_pos b) as Pb.
  rewrite pow2_S in EA', EB'.
  assert (Hlo : pow2 (a - b - 1) < p # q).
  { rewrite Ex. apply Qlt_shift_div_l; [exact Hq|].
    replace (a - b - 1)%Z with (a - (b + 1))%Z by lia.
    rewrite pow2_sub, pow2_S.
    apply Qlt_le_trans with (pow2 a / (2 * pow2 b) * (2 * pow2 b)).
    - apply Qmult_lt_l; [|exact EB'].
      apply Qlt_shift_div_l; [lra|]. lra.
    - field_simplify; [lra|lra]. }
  assert (Hhi : p # q < pow2 (a - b + 1)).
  { rewrite Ex. apply Qlt_shift_div_r; [exact Hq|].
    replace (a - b + 1)%Z with (a + 1 - b)%Z by lia.
    rewrite pow2_sub, pow2_S.
    apply Qlt_le_trans with (2 * pow2 a / pow2 b * pow2 b).
    - field_simplify; [lra|lra].
    - apply Qmult_le_l; [|exact EB].
      apply Qlt_shift_div_l; [lra|]. lra. }
  destruct (Qle_bool (pow2 (a - b)) (p # q)) eqn:T.
  - apply Qle_bool_iff in T. split; [exact T|exact Hhi].
  - split; [apply Qlt_le_weak, Hlo|].
    replace (a - b - 1 + 1)%Z with (a - b)%Z by lia.
    apply Qnot_le_lt. intros H. apply Qle_bool_iff in H. congruence.
Qed.

Lemma pow2_lt_inv a b : pow2 a < pow2 b -> (a < b)%Z.
Proof.
  intros H. destruct (Z_lt_ge_dec a b) as [L | G]; [exact L|].
  exfalso. apply (Qle_not_lt _ _ (pow2_le b a ltac:(lia))). exact H.
Qed.

Lemma ilog2_unique x k : pow2 k <= x -> x < pow2 (k + 1) -> ilog2 x = k.
Proof.
  intros L U.
  assert (Hx : 0 < x) by (eapply Qlt_le_trans; [apply (pow2_pos k)|exact L]).
  destruct (ilog2_spec x Hx) as [L' U'].
  assert (H1 : (k < ilog2 x + 1)%Z).
  { apply pow2_lt_inv. eapply Qle_lt_trans; [exact L|exact U']. }
  assert (H2 : (ilog2 x < k + 1)%Z).
  { apply pow2_lt_inv. eapply Qle_lt_trans; [exact L'|exact U]. }
  lia.
Qed.

Lemma ilog2_comp x y : 0 < x -> x == y -> ilog2 x = ilog2 y.
Proof.
  intros Hx E. destruct (ilog2_spec x Hx) as [L U].
  symmetry. apply ilog2_unique; rewrite <- E; assumption.
Qed.

Lemma ilog2_mono x y : 0 < x -> x <= y -> (ilog2 x <= ilog2 y)%Z.
Proof.
  intros Hx Hle.
  assert (Hy : 0 < y) by (eapply Qlt_le_trans; eassumption).
  destruct (ilog2_spec x Hx) as [L _]. destruct (ilog2_spec y Hy) as [_ U].
  assert (H : (ilog2 x < ilog2 y + 1)%Z).
  { apply pow2_lt_inv. eapply Qle_lt_trans; [exact L|].
    eapply Qle_lt_trans; [exact Hle|exact U]. }
  lia.
Qed.

Lemma fl_pos_unfold x : fl_pos x = inject_Z (round_half_even (x / pow2 (quantum x))) * pow2 (quantum x).
Proof. reflexivity. Qed.

Lemma round_half_even_comp s s' : s == s' -> round_half_even s = round_half_even s'.
Proof.
  intros E. unfold round_half_even.
  rewrite (Qfloor_comp _ _ E).
  assert (E' : s - inject_Z (Qfloor s') == s' - inject_Z (Qfloor s')) by (rewrite E; reflexivity).
  rewrite (Qcompare_comp _ _ E' (1 # 2) (1 # 2) (Qeq_refl _)). reflexivity.
Qed.

Lemma fl_pos_comp x y : 0 < x -> x == y -> fl_pos x == fl_pos y.
Proof.
  intros Hx E. rewrite !fl_pos_unfold. unfold quantum.
  rewrite <- (ilog2_comp x y Hx E).
  rewrite (round_half_even_comp (x / _) (y / pow2 (Z.max (ilog2 x - 52) (-1074)))).
  - reflexivity.
  - apply Qdiv_comp; [exact E|reflexivity].
Qed.

(** Rounding moves a positive value by at most half a unit in the last
    place. *)
Lemma fl_pos_near x :
  0 < x -> Qabs (fl_pos x - x) <= pow2 (quantum x - 1).
Proof.
  intros Hx. rewrite fl_pos_unfold.
  set (e := quantum x). pose proof (pow2_pos e) as Pe.
  pose proof (round_half_even_near (x / pow2 e)) as [N1 N2].
  set (m := inject_Z (round_half_even (x / pow2 e))) in *.
  assert (E : m * pow2 e - x == (m - x / pow2 e) * pow2 e).
  { field. lra. }
  rewrite E, Qabs_Qmult, (Qabs_pos (pow2 e)) by lra.
  assert (P : pow2 e == 2 * pow2 (e - 1)).
  { rewrite <- pow2_S. replace (e - 1 + 1)%Z with e by lia. reflexivity. }
  apply Qle_trans with ((1 # 2) * pow2 e).
  - apply Qmult_le_compat_r; [|lra]. apply Qabs_Qle_condition. split; lra.
  - rewrite P. lra.
Qed.

Lemma round_half_even_inject n : round_half_even (inject_Z n) = n.
Proof.
  unfold round_half_even. rewrite Qfloor_Z.
  assert (E : inject_Z n - inject_Z n == 0) by ring.
  rewrite (Qcompare_comp _ _ E (1 # 2) (1 # 2) (Qeq_refl _)). reflexivity.
Qed.

Lemma round_half_even_mono s s' : s <= s' -> (round_half_even s <= round_half_even s')%Z.
Proof.
  intros Hle. pose proof (Qfloor_resp_le _ _ Hle) as Hf.
  unfold round_half_even in *.
  pose proof (Qfloor_le s) as L1. pose proof (Qlt_floor s) as U1.
  pose proof (Qfloor_le s') as L2. pose proof (Qlt_floor s') as U2.
  rewrite inject_Z_plus in U1, U2. change (inject_Z 1) with 1 in U1, U2.
  destruct (Z.eq_dec (Qfloor s) (Qfloor s')) as [E | N].
  - rewrite <- E in *.
    destruct (Qcompare_spec (s - inject_Z (Qfloor s)) (1 # 2)) as [A | A | A];
      destruct (Qcompare_spec (s' - inject_Z (Qfloor s)) (1 # 2)) as [B | B | B];
      try lia; try (destruct (Z.even (Qfloor s)); lia); exfalso; lra.
  - assert (Hlt : (Qfloor s + 1 <= Qfloor s')%Z) by lia.
    destruct (Qcompare_spec (s - inject_Z (Qfloor s)) (1 # 2)) as [A | A | A];
      destruct (Qcompare_spec (s' - inject_Z (Qfloor s')) (1 # 2)) as [B | B | B];
      try lia; try (destruct (Z.even (Qfloor s)); destruct (Z.even (Qfloor s')); lia);
      try (destruct (Z.even (Qfloor s)); lia); try (destruct (Z.even (Qfloor s')); lia).
Qed.

Lemma fl_pos_nonneg x : 0 < x -> 0 <= fl_pos x.
Proof.
  intros Hx. rewrite fl_pos_unfold. pose proof (pow2_pos (quantum x)) as Pe.
  apply Qmult_le_0_compat; [|lra].
  change 0 with (inject_Z 0). rewrite <- Zle_Qle.
  rewrite <- (round_half_even_inject 0). apply round_half_even_mono.
  apply Qle_shift_div_l; [exact Pe|]. change (inject_Z 0) with 0. lra.
Qed.

Lemma quantum_mono x y : 0 < x -> x <= y -> (quantum x <= quantum y)%Z.
Proof. intros Hx Hle. unfold quantum. pose proof (ilog2_mono x y Hx Hle). lia. Qed.

Lemma round_le_inject s n : s <= inject_Z n -> (round_half_even s <= n)%Z.
Proof.
  intros H. rewrite <- (round_half_even_inject n). apply round_half_even_mono, H.
Qed.

Lemma round_ge_inject s n : inject_Z n <= s -> (n <= round_half_even s)%Z.
Proof.
  intros H. rewrite <- (round_half_even_inject n). apply round_half_even_mono, H.
Qed.

Lemma fl_pos_mono x y : 0 < x -> x <= y -> fl_pos x <= fl_pos y.
Proof.
  intros Hx Hle.
  assert (Hy : 0 < y) by (eapply Qlt_le_trans; eassumption).
  pose proof (quantum_mono x y Hx Hle) as Hq.
  rewrite !fl_pos_unfold.
  set (ex := quantum x) in *. set (ey := quantum y) in *.
  pose proof (pow2_pos ex) as Pex. pose proof (pow2_pos ey) as Pey.
  destruct (Z.eq_dec ex ey) as [E | N].
  - rewrite <- E. apply Qmult_le_compat_r; [|lra].
    rewrite <- Zle_Qle. apply round_half_even_mono.
    apply Qmult_le_compat_r; [exact Hle|]. apply Qlt_le_weak, Qinv_lt_0_compat, Pex.
  - assert (Hlt : (ex < ey)%Z) by lia.
    assert (Hey : ey = (ilog2 y - 52)%Z) by (unfold ey, ex, quantum in *; lia).
    assert (Hex : (ilog2 x - 52 <= ex)%Z) by (unfold ex, quantum; lia).
    destruct (ilog2_spec x Hx) as [_ Ux]. destruct (ilog2_spec y Hy) as [Ly _].
    apply Qle_trans with (pow2 (ey + 52)).
    + apply Qle_trans with (inject_Z (2 ^ (ey + 52 - ex)) * pow2 ex).
      * apply Qmult_le_compat_r; [|lra]. rewrite <- Zle_Qle. apply round_le_inject.
        rewrite pow2_inject by lia. rewrite pow2_sub.
        apply Qmult_le_compat_r; [|apply Qlt_le_weak, Qinv_lt_0_compat, Pex].
        apply Qlt_le_weak. eapply Qlt_le_trans; [exact Ux|]. apply pow2_le. lia.
      * rewrite pow2_inject by lia. rewrite <- pow2_plus.
        replace (ey + 52 - ex + ex)%Z with (ey + 52)%Z by lia. apply Qle_refl.
    + apply Qle_trans with (inject_Z (2 ^ 52) * pow2 ey).
      * rewrite pow2_inject by lia. rewrite <- pow2_plus.
        replace (52 + ey)%Z with (ey + 52)%Z by lia. apply Qle_refl.
      * apply Qmult_le_compat_r; [|lra]. rewrite <- Zle_Qle. apply round_ge_inject.
        rewrite pow2_inject by lia.
        apply Qle_shift_div_l; [exact Pey|]. rewrite <- pow2_plus.
        replace (52 + ey)%Z with (ilog2 y) by lia. exact Ly.
Qed.

Lemma fl_pos_eq x : 0 < x -> fl x = fl_pos x.
Proof.
  intros H. unfold fl. destruct (Qcompare_spec x 0); [exfalso; lra|exfalso; lra|reflexivity].
Qed.

Lemma fl_neg_eq x : x < 0 -> fl x = - fl_pos (- x).
Proof.
  intros H. unfold fl. destruct (Qcompare_spec x 0); [exfalso; lra|reflexivity|exfalso; lra].
Qed.

Lemma fl_zero_eq x : x == 0 -> fl x = 0.
Proof.
  intros H. unfold fl. destruct (Qcompare_spec x 0); [reflexivity|exfalso; lra|exfalso; lra].
Qed.

Lemma fl_nonneg x : 0 <= x -> 0 <= fl x.
Proof.
  intros H. destruct (Qlt_le_dec 0 x) as [P | N].
  - rewrite fl_pos_eq by exact P. apply fl_pos_nonneg, P.
  - rewrite fl_zero_eq by lra. apply Qle_refl.
Qed.

Lemma fl_nonpos x : x <= 0 -> fl x <= 0.
Proof.
  intros H. destruct (Qlt_le_dec x 0) as [P | N].
  - rewrite fl_neg_eq by exact P.
    pose proof (fl_pos_nonneg (- x) ltac:(lra)). lra.
  - rewrite fl_zero_eq by lra. apply Qle_refl.
Qed.

(** Rounding is monotone. *)
Lemma fl_mono x y : x <= y -> fl x <= fl y.
Proof.
  intros Hle.
  destruct (Qlt_le_dec 0 x) as [Px | Nx].
  - rewrite !fl_pos_eq by lra. apply fl_pos_mono; assumption.
  - destruct (Qlt_le_dec 0 y) as [Py | Ny].
    + eapply Qle_trans; [apply fl_nonpos, Nx|]. apply fl_nonneg. lra.
    + destruct (Qlt_le_dec y 0) as [Ly | Zy].
      * rewrite !fl_neg_eq by lra.
        pose proof (fl_pos_mono (- y) (- x) ltac:(lra) ltac:(lra)). lra.
      * rewrite (fl_zero_eq y) by lra. apply fl_nonpos, Nx.
Qed.

(** Below 2^k the error is at most 2^(k-54), down to the subnormals. *)
Lemma fl_near x k :
  Qabs x < pow2 k -> (-1021 <= k)%Z -> Qabs (fl x - x) <= pow2 (k - 54).
Proof.
  intros Hb Hk.
  assert (Hpos : forall z, 0 < z -> z < pow2 k -> Qabs (fl_pos z - z) <= pow2 (k - 54)).
  { intros z Hz Hzk. eapply Qle_trans; [apply fl_pos_near, Hz|].
    apply pow2_le. unfold quantum.
    destruct (ilog2_spec z Hz) as [L _].
    assert (H : (ilog2 z < k)%Z).
    { apply pow2_lt_inv. eapply Qle_lt_trans; [exact L|exact Hzk]. }
    lia. }
  destruct (Q_dec x 0) as [[N | P] | Z].
  - rewrite (Qabs_neg x) in Hb by lra. rewrite fl_neg_eq by exact N.
    assert (E : - fl_pos (- x) - x == - (fl_pos (- x) - - x)) by ring.
    rewrite E, Qabs_opp. apply Hpos; lra.
  - rewrite (Qabs_pos x) in Hb by lra. rewrite fl_pos_eq by exact P. apply Hpos; assumption.
  - rewrite (fl_zero_eq x Z).
    assert (E : 0 - x == 0) by lra. rewrite E. simpl.
    apply Qlt_le_weak, pow2_pos.
Qed.

Lemma julianday_mono a b : (a <= b)%Z -> julianday a <= julianday b.
Proof.
  intros H. unfold julianday. apply fl_mono.
  apply Qmult_le_compat_r; [|discriminate].
  rewrite <- Zle_Qle. lia.
Qed.

Lemma age_seconds_mono now now' t :
  (now <= now')%Z -> age_seconds now t <= age_seconds now' t.
Proof.
  intros H. unfold age_seconds. apply fl_mono.
  apply Qmult_le_compat_r; [|discriminate].
  apply fl_mono. pose proof (julianday_mono now now' H). lra.
Qed.

Lemma julianday_near x :
  sqlite_date x ->
  Qabs (julianday x - inject_Z (x + julian_epoch_ms) / 86400000) <= pow2 (-31).
Proof.
  intros [H0 H1]. unfold julianday.
  apply (fl_near _ 23); [|lia].
  assert (E : 0 <= inject_Z (x + julian_epoch_ms) / 86400000).
  { apply Qle_shift_div_l; [reflexivity|]. rewrite Qmult_0_l.
    change 0 with (inject_Z 0). rewrite <- Zle_Qle. exact H0. }
  rewrite Qabs_pos by exact E.
  apply Qlt_shift_div_r; [reflexivity|].
  apply Qlt_le_trans with (inject_Z 464269060800000).
  - rewrite <- Zlt_Qlt. exact H1.
  - vm_compute. discriminate.
Qed.

Lemma fl_900 : fl 900 == 900.
Proof. vm_compute. reflexivity. Qed.

Lemma fl_above_900 : fl (900 + pow2 (-20)) == 900 + pow2 (-20).
Proof. vm_compute. reflexivity. Qed.

Lemma exact_difference now t :
  inject_Z (now + julian_epoch_ms) / 86400000 - inject_Z (1000 * t + julian_epoch_ms) / 86400000
  == inject_Z (now - 1000 * t) / 86400000.
Proof.
  unfold Z.sub. rewrite !inject_Z_plus, inject_Z_opp. field.
Qed.

(** A sample less than 900 s old, by a millisecond or more, has a computed
    age of at most 900. *)
Lemma age_below_900 now t :
  sqlite_date now -> sqlite_date (1000 * t) ->
  (now - 1000 * t <= 899999)%Z -> age_seconds now t <= 900.
Proof.
  intros Hn Ht Hage.
  pose proof (julianday_near now Hn) as En.
  pose proof (julianday_near (1000 * t) Ht) as Et.
  apply Qabs_Qle_condition in En. apply Qabs_Qle_condition in Et.
  pose proof (exact_difference now t) as Ed.
  assert (Ha : inject_Z (now - 1000 * t) / 86400000 <= 899999 / 86400000).
  { apply Qmult_le_compat_r; [|discriminate]. 
    change 899999 with (inject_Z 899999). rewrite <- Zle_Qle. exact Hage. }
  set (u := 899999 / 86400000 + pow2 (-30)).
  assert (P30 : pow2 (-30) == 2 * pow2 (-31)) by reflexivity.
  assert (Hd : julianday now - julianday (1000 * t) <= u) by (unfold u; lra).
  unfold age_seconds. rewrite <- fl_900. apply fl_mono.
  assert (Hu : fl u <= 1 # 96).
  { assert (B : Qabs (fl u - u) <= pow2 (-6 - 54)).
    { apply fl_near; [|lia]. vm_compute. reflexivity. }
    apply Qabs_Qle_condition in B.
    assert (C : u + pow2 (-6 - 54) <= 1 # 96) by (vm_compute; discriminate).
    lra. }
  pose proof (fl_mono _ _ Hd). lra.
Qed.

(** A sample more than 900 s old, by a millisecond or more, has a computed
    age above 900. *)
Lemma age_above_900 now t :
  sqlite_date now -> sqlite_date (1000 * t) ->
  (900001 <= now - 1000 * t)%Z -> 900 < age_seconds now t.
Proof.
  intros Hn Ht Hage.
  pose proof (julianday_near now Hn) as En.
  pose proof (julianday_near (1000 * t) Ht) as Et.
  apply Qabs_Qle_condition in En. apply Qabs_Qle_condition in Et.
  pose proof (exact_difference now t) as Ed.
  assert (Ha : 900001 / 86400000 <= inject_Z (now - 1000 * t) / 86400000).
  { apply Qmult_le_compat_r; [|discriminate].
    change 900001 with (inject_Z 900001). rewrite <- Zle_Qle. exact Hage. }
  set (l := 900001 / 86400000 - pow2 (-30)).
  assert (P30 : pow2 (-30) == 2 * pow2 (-31)) by reflexivity.
  assert (Hd : l <= julianday now - julianday (1000 * t)) by (unfold l; lra).
  unfold age_seconds.
  apply Qlt_le_trans with (900 + pow2 (-20)); [vm_compute; reflexivity|].
  rewrite <- fl_above_900. apply fl_mono.
  assert (Hl : (900 + pow2 (-20)) / 86400 <= fl l).
  { assert (B : Qabs (fl l - l) <= pow2 (-6 - 54)).
    { apply fl_near; [|lia]. vm_compute. reflexivity. }
    apply Qabs_Qle_condition in B.
    assert (C : (900 + pow2 (-20)) / 86400 <= l - pow2 (-6 - 54)) by (vm_compute; discriminate).
    lra. }
  pose proof (fl_mono _ _ Hd) as Hm.
  assert (Hdiv : (900 + pow2 (-20)) / 86400 * 86400 == 900 + pow2 (-20)) by (field).
  rewrite <- Hdiv. apply Qmult_le_compat_r; [lra|discriminate].
Qed.

(** ** Ingestion *)

Lemma for_readings_app mac now l1 l2 st :
  for_readings mac now st (l1 ++ l2) =
  match for_readings mac now st l1 with
  | Completed st' => for_readings mac now st' l2
  | other => other
  end.
Proof.
  revert st; induction l1 as [|r l1 IH]; intros st; simpl.
  - reflexivity.
  - destruct (process_reading mac now st r); auto.
Qed.

Lemma log_esp32_error_cold_rooms db now mac sensor ty msg db' :
  log_esp32_error db now mac sensor ty msg = Returns db' ->
  cold_rooms db' = cold_rooms db.
Proof.
  unfold log_esp32_error.
  destruct (unbindable mac || unbindable sensor).
  - intros [= <-]; reflexivity.
  - destruct (sqlite_text mac) as [[m|]| |]; destruct (sqlite_text sensor) as [s| |];
      try discriminate; intros [= <-]; reflexivity.
Qed.

Lemma insert_temperature_data_cold_rooms db now rid t db' :
  insert_temperature_data db now rid t = Returns db' ->
  cold_rooms db' = cold_rooms db.
Proof.
  unfold insert_temperature_data.
  destruct (stored_temperature t) as [[q|]| |]; try discriminate; intros [= <-]; reflexivity.
Qed.

Lemma process_reading_cold_rooms mac now st reading st' :
  process_reading mac now st reading = Returns st' ->
  cold_rooms (ls_db st') = cold_rooms (ls_db st).
Proof.
  unfold process_reading.
  destruct (py_get reading "sensor_id") as [sid|]; [|discriminate].
  destruct (py_get reading "temperature") as [tv|]; [|discriminate].
  destruct (truthy sid && negb (is_none tv)).
  - destruct (get_cold_room_by_sensor (ls_db st) sid) as [[room|]| |]; try discriminate.
    + destruct (insert_temperature_data _ _ _ _) eqn:E; try discriminate.
      intros [= <-]; simpl. eapply insert_temperature_data_cold_rooms; eauto.
    + destruct (log_esp32_error _ _ _ _ _ _) eqn:E; try discriminate.
      intros [= <-]; simpl. eapply log_esp32_error_cold_rooms; eauto.
  - destruct (log_esp32_error _ _ _ _ _ _) eqn:E; try discriminate.
    intros [= <-]; simpl. eapply log_esp32_error_cold_rooms; eauto.
Qed.

Lemma for_readings_cold_rooms mac now l st st' :
  for_readings mac now st l = Completed st' ->
  cold_rooms (ls_db st') = cold_rooms (ls_db st).
Proof.
  revert st; induction l as [|r l IH]; intros st; simpl.
  - intros [= <-]; reflexivity.
  - destruct (process_reading mac now st r) eqn:E; try discriminate.
    intros H. rewrite (IH _ H). eapply process_reading_cold_rooms; eauto.
Qed.

Lemma find_room_by_sensor_ext db1 db2 s :
  cold_rooms db1 = cold_rooms db2 ->
  find_room_by_sensor db1 s = find_room_by_sensor db2 s.
Proof. unfold find_room_by_sensor; intros ->; reflexivity. Qed.

Lemma typed_reading_fields reading sid tv :
  typed_reading reading = Some (sid, tv) ->
  exists a b,
    py_get reading "sensor_id" = Some a /\ py_get reading "temperature" = Some b /\
    as_sensor_id a = Some sid /\ as_temperature b = Some tv.
Proof.
  unfold typed_reading.
  destruct (py_get reading "sensor_id") as [a|]; [|discriminate].
  destruct (py_get reading "temperature") as [b|]; [|discriminate].
  destruct (as_sensor_id a) as [sid'|] eqn:Ea; [|discriminate].
  destruct (as_temperature b) as [tv'|] eqn:Eb; [|discriminate].
  intros [= <- <-]. exists a, b; auto.
Qed.

(** An accepted reading: one sample appended, one more processed. *)
Lemma stored_temperature_present tv t :
  stored_temperature tv = Returns (Some t) -> is_none tv = false.
Proof. destruct tv; try reflexivity; discriminate. Qed.

Lemma process_reading_accepted mac now st reading s tv t room :
  py_get reading "sensor_id" = Some (PStr s) ->
  s <> "" ->
  py_get reading "temperature" = Some tv ->
  stored_temperature tv = Returns (Some t) ->
  find_room_by_sensor (ls_db st) s = Some room ->
  process_reading mac now st reading =
  Returns {| ls_db := append_sample (ls_db st)
                        {| td_cold_room_id := room_id room;
                           td_temperature := t;
                           td_timestamp := Some (clock_seconds now) |};
             processed_count := S (processed_count st);
             error_count := error_count st |}.
Proof.
  intros Ha Hs Hb Ht Hf.
  unfold process_reading. rewrite Ha, Hb.
  apply String.eqb_neq in Hs. cbn [truthy]. rewrite Hs.
  rewrite (stored_temperature_present _ _ Ht). cbn [negb andb].
  unfold get_cold_room_by_sensor. cbn [sqlite_text]. rewrite Hf.
  unfold insert_temperature_data. rewrite Ht. reflexivity.
Qed.

(** A rejected reading: one error record appended, one more error counted. *)
Lemma process_reading_rejected m now st reading sid tv :
  typed_reading reading = Some (sid, tv) ->
  accepted (ls_db st) sid tv = false ->
  exists msg,
    process_reading (PStr m) now st reading =
    Returns {| ls_db := append_error (ls_db st) now m (Some (logged_sensor sid))
                          (if malformed sid tv then MALFORMED_DATA else UNREGISTERED_SENSOR)
                          msg;
               processed_count := processed_count st;
               error_count := S (error_count st) |}.
Proof.
  intros Ht Hacc.
  destruct (typed_reading_fields _ _ _ Ht) as (a & b & Ha & Hb & Ea & Eb).
  unfold process_reading. rewrite Ha, Hb.
  unfold accepted, malformed, resolves, no_identifier in *.
  unfold get_cold_room_by_sensor, log_esp32_error, unbindable, py_or.
  destruct a as [| | | | | |s| |]; try discriminate; destruct b; try discriminate;
    injection Ea as <-; injection Eb as <-; cbn in *;
    try (destruct (String.eqb s "") eqn:Es; cbn in *);
    try (destruct (find_room_by_sensor (ls_db st) s); [discriminate|]);
    eexists; reflexivity.
Qed.

(** C1 as stated fails.  The first reading has a registered sensor and a
    temperature that is present and numeric, the integer 10^19: sqlite3
    cannot bind it, the OverflowError leaves the loop, the answer is 500 and
    nothing is stored or counted.  The second has the temperature NaN: it is
    counted as processed and no sample is stored. *)
Lemma huge_temperature_not_stored :
  typed_reading huge_reading = Some (Some "289FBDBB4024BC6", Some (inject_Z (10 ^ 19))) /\
  find_room_by_sensor db0 "289FBDBB4024BC6" = Some room_a /\
  ingest test_mac 1000 db0 [huge_reading] = Aborted db0 /\
  receive_esp32_data db0 1000 (envelope test_mac (PList [huge_reading])) =
    Some (db0, server_error) /\
  ingest test_mac 1000 db0 [nan_reading] =
    Completed {| ls_db := db0; processed_count := 1; error_count := 0 |}.
Proof. repeat apply conj; reflexivity. Qed.

(** C1, amended.  A reading of a batch whose sensor identifier is non-empty
    and resolves to a registered room, and whose temperature is a number
    SQLite can store (a float other than NaN and the infinities, or an integer
    of the signed 64-bit range), appends exactly one sample for that room's
    id, holding the float, or the double nearest to the integer, raises the
    accepted count by exactly one and logs no error; the loop then goes on
    with the rest of the batch. *)
Theorem ingest_accepts_valid_reading :
  forall mac now db pre reading post st s tv t room,
    ingest mac now db pre = Completed st ->
    py_get reading "sensor_id" = Some (PStr s) ->
    s <> "" ->
    py_get reading "temperature" = Some tv ->
    tv = PNum t \/
    (exists z, tv = PInt z /\ (- 2 ^ 63 <= z < 2 ^ 63)%Z /\ t = fl (inject_Z z)) ->
    find_room_by_sensor db s = Some room ->
    exists st',
      ingest mac now db (pre ++ [reading]) = Completed st' /\
      temperature_data (ls_db st') =
        temperature_data (ls_db st) ++
        [ {| td_cold_room_id := room_id room;
             td_temperature := t;
             td_timestamp := Some (clock_seconds now) |} ] /\
      processed_count st' = S (processed_count st) /\
      error_count st' = error_count st /\
      esp32_errors (ls_db st') = esp32_errors (ls_db st) /\
      ingest mac now db (pre ++ reading :: post) = for_readings mac now st' post.
Proof.
  intros mac now db pre reading post st s tv t room Hpre Hsid Hs Htv Hnum Hf.
  unfold ingest in *.
  assert (Hst : stored_temperature tv = Returns (Some t)).
  { destruct Hnum as [-> | (z & -> & Hz & ->)]; [reflexivity|].
    cbn [stored_temperature]. unfold int64.
    replace (- 2 ^ 63 <=? z)%Z with true by (symmetry; apply Z.leb_le; lia).
    replace (z <? 2 ^ 63)%Z with true by (symmetry; apply Z.ltb_lt; lia).
    reflexivity. }
  assert (Hstep := process_reading_accepted mac now st reading s tv t room Hsid Hs Htv Hst).
  rewrite (find_room_by_sensor_ext (ls_db st) db) in Hstep
    by (apply (for_readings_cold_rooms _ _ _ _ _ Hpre)).
  specialize (Hstep Hf).
  eexists; repeat apply conj.
  - rewrite for_readings_app, Hpre. simpl. rewrite Hstep. reflexivity.
  - reflexivity.
  - reflexivity.
  - reflexivity.
  - reflexivity.
  - rewrite for_readings_app, Hpre. simpl. rewrite Hstep. reflexivity.
Qed.

Lemma ingest_accepts_valid_reading_witness :
  ingest test_mac 1000 db0 [] = Completed (start db0) /\
  py_get (reading_of "289FBDBB4024BC6" (5 # 2)) "sensor_id" = Some (PStr "289FBDBB4024BC6") /\
  "289FBDBB4024BC6" <> "" /\
  py_get (reading_of "289FBDBB4024BC6" (5 # 2)) "temperature" = Some (PNum (5 # 2)) /\
  find_room_by_sensor db0 "289FBDBB4024BC6" = Some room_a /\
  exists st',
    ingest test_mac 1000 db0 ([] ++ [reading_of "289FBDBB4024BC6" (5 # 2)]) = Completed st' /\
    temperature_data (ls_db st') =
      temperature_data (ls_db (start db0)) ++
      [ {| td_cold_room_id := room_id room_a;
           td_temperature := 5 # 2;
           td_timestamp := Some 1000%Z |} ] /\
    processed_count st' = S (processed_count (start db0)) /\
    error_count st' = error_count (start db0) /\
    esp32_errors (ls_db st') = esp32_errors (ls_db (start db0)) /\
    ingest test_mac 1000 db0 ([] ++ reading_of "289FBDBB4024BC6" (5 # 2) :: []) =
      for_readings test_mac 1000 st' [].
Proof.
  split; [reflexivity|]. split; [reflexivity|]. split; [discriminate|].
  split; [reflexivity|]. split; [reflexivity|].
  apply (ingest_accepts_valid_reading test_mac 1000 db0 [] _ [] (start db0)
           "289FBDBB4024BC6" (PNum (5 # 2)) (5 # 2) room_a);
    [reflexivity | reflexivity | discriminate | reflexivity | left; reflexivity | reflexivity].
Defined.



Lemma accepted_ext db1 db2 sid tv :
  cold_rooms db1 = cold_rooms db2 -> accepted db1 sid tv = accepted db2 sid tv.
Proof.
  intros H. unfold accepted, resolves. destruct sid as [s|]; auto.
  rewrite (find_room_by_sensor_ext db1 db2 s H). reflexivity.
Qed.

Lemma accepted_reading_ext db1 db2 reading :
  cold_rooms db1 = cold_rooms db2 ->
  accepted_reading db1 reading = accepted_reading db2 reading.
Proof.
  intros H. unfold accepted_reading.
  destruct (typed_reading reading) as [[sid tv]|]; auto using accepted_ext.
Qed.

Lemma accepted_inv db sid tv :
  accepted db sid tv = true ->
  exists s t room,
    sid = Some s /\ tv = Some t /\ s <> "" /\ find_room_by_sensor db s = Some room.
Proof.
  unfold accepted, malformed, resolves, no_identifier.
  destruct sid as [s|]; [|discriminate].
  destruct tv as [t|]; [|rewrite orb_true_r; discriminate].
  destruct (String.eqb s "") eqn:Es; [discriminate|].
  destruct (find_room_by_sensor db s) as [room|] eqn:Ef; [|discriminate].
  intros _. exists s, t, room. apply String.eqb_neq in Es. auto.
Qed.

(** An accepted reading of a storable temperature names its sensor by a
    string and has a temperature the REAL column takes. *)
Lemma accepted_fields reading s t :
  typed_reading reading = Some (Some s, Some t) ->
  storable reading = true ->
  exists tv t',
    py_get reading "sensor_id" = Some (PStr s) /\
    py_get reading "temperature" = Some tv /\
    stored_temperature tv = Returns (Some t').
Proof.
  intros Ht Hst.
  destruct (typed_reading_fields _ _ _ Ht) as (a & b & Ha & Hb & Ea & Eb).
  unfold storable in Hst. rewrite Hb in Hst.
  destruct a; try discriminate. injection Ea as ->.
  destruct b; try discriminate.
  - exists (PInt z), (fl (inject_Z z)). cbn [stored_temperature]. rewrite Hst. auto.
  - exists (PNum q), q. auto.
Qed.

(** On a batch of typed readings with storable temperatures the loop
    completes, and its two counters count the accepted and the rejected
    readings. *)
Lemma for_readings_counts m now l :
  forall st,
    forallb is_typed l = true ->
    forallb storable l = true ->
    exists st',
      for_readings (PStr m) now st l = Completed st' /\
      processed_count st' =
        (processed_count st + List.length (filter (accepted_reading (ls_db st)) l))%nat /\
      error_count st' =
        (error_count st +
         List.length (filter (fun r => negb (accepted_reading (ls_db st) r)) l))%nat.
Proof.
  induction l as [|r l IH]; intros st Hty Hsto; simpl in *.
  - exists st. repeat apply conj; auto.
  - apply andb_prop in Hty as [Hr Hl]. apply andb_prop in Hsto as [Hsr Hsl].
    unfold is_typed in Hr.
    destruct (typed_reading r) as [[sid tv]|] eqn:Et; [|discriminate].
    assert (Har : accepted_reading (ls_db st) r = accepted (ls_db st) sid tv)
      by (unfold accepted_reading; rewrite Et; reflexivity).
    rewrite !Har.
    destruct (accepted (ls_db st) sid tv) eqn:Ea; clear Har.
    + destruct (accepted_inv _ _ _ Ea) as (s & t & room & -> & -> & Hs & Hf).
      destruct (accepted_fields r s t Et Hsr) as (tv & t' & Hsid & Htv & Hst).
      rewrite (process_reading_accepted (PStr m) now st r s tv t' room Hsid Hs Htv Hst Hf).
      match goal with
      | |- context [for_readings _ _ ?s1 l] =>
          destruct (IH s1 Hl Hsl) as (st' & H1 & H2 & H3);
          assert (E : forall x, accepted_reading (ls_db s1) x = accepted_reading (ls_db st) x)
            by (intro; apply accepted_reading_ext; reflexivity)
      end.
      rewrite (filter_ext _ _ E) in H2.
      rewrite (filter_ext _ (fun x => negb (accepted_reading (ls_db st) x))) in H3
        by (intro; rewrite E; reflexivity).
      exists st'. simpl in *. repeat apply conj; [exact H1 | lia | lia].
    + destruct (process_reading_rejected m now st r sid tv Et Ea) as [msg ->].
      match goal with
      | |- context [for_readings _ _ ?s1 l] =>
          destruct (IH s1 Hl Hsl) as (st' & H1 & H2 & H3);
          assert (E : forall x, accepted_reading (ls_db s1) x = accepted_reading (ls_db st) x)
            by (intro; apply accepted_reading_ext; reflexivity)
      end.
      rewrite (filter_ext _ _ E) in H2.
      rewrite (filter_ext _ (fun x => negb (accepted_reading (ls_db st) x))) in H3
        by (intro; rewrite E; reflexivity).
      exists st'. simpl in *. repeat apply conj; [exact H1 | lia | lia].
Qed.

(** *** Requests the model decides *)

Lemma sqlite_text_modelled v : not_a_float v = true -> sqlite_text v <> Unmodelled.
Proof.
  destruct v as [|b|z|q| | | | |]; cbn; try discriminate. destruct (int64 z); discriminate.
Qed.

Lemma log_esp32_error_modelled db now mac sensor ty msg :
  not_a_float mac = true -> not_a_float sensor = true ->
  log_esp32_error db now mac sensor ty msg <> Unmodelled.
Proof.
  intros Hm Hs. unfold log_esp32_error, unbindable.
  pose proof (sqlite_text_modelled mac Hm). pose proof (sqlite_text_modelled sensor Hs).
  destruct (sqlite_text mac) as [[m|]| |]; destruct (sqlite_text sensor) as [s| |];
    cbn; try discriminate; congruence.
Qed.

(** On a plain reading the turn of the loop returns or raises. *)
Lemma process_reading_modelled mac now st reading :
  not_a_float mac = true -> plain_reading reading = true ->
  process_reading mac now st reading <> Unmodelled.
Proof.
  intros Hm Hp. unfold process_reading. unfold plain_reading in Hp.
  destruct (py_get reading "sensor_id") as [sid|]; [|discriminate].
  destruct (py_get reading "temperature") as [tv|]; [|discriminate].
  apply andb_prop in Hp as [Hsid Htv].
  destruct (truthy sid && negb (is_none tv)).
  - unfold get_cold_room_by_sensor.
    pose proof (sqlite_text_modelled sid Hsid) as Hs.
    destruct (sqlite_text sid) as [[s|]| |] eqn:Es; try discriminate; try congruence.
    + destruct (find_room_by_sensor (ls_db st) s).
      * unfold insert_temperature_data.
        destruct tv as [|b|z|q| | | | |]; cbn in *; try discriminate.
        destruct (int64 z); discriminate.
      * pose proof (log_esp32_error_modelled (ls_db st) now mac sid UNREGISTERED_SENSOR
                      (Unregistered_sensor_id sid) Hm Hsid).
        destruct (log_esp32_error _ _ _ _ _ _); try discriminate; congruence.
    + pose proof (log_esp32_error_modelled (ls_db st) now mac sid UNREGISTERED_SENSOR
                    (Unregistered_sensor_id sid) Hm Hsid).
      destruct (log_esp32_error _ _ _ _ _ _); try discriminate; congruence.
  - assert (Hor : not_a_float (py_or sid (PStr "UNKNOWN")) = true).
    { unfold py_or. destruct (truthy sid); [exact Hsid|reflexivity]. }
    pose proof (log_esp32_error_modelled (ls_db st) now mac (py_or sid (PStr "UNKNOWN"))
                  MALFORMED_DATA (Malformed_reading sid tv) Hm Hor).
    destruct (log_esp32_error _ _ _ _ _ _); try discriminate; congruence.
Qed.

Lemma for_readings_modelled mac now l : forall st,
  not_a_float mac = true -> forallb plain_reading l = true ->
  for_readings mac now st l <> Outside.
Proof.
  induction l as [|r l IH]; intros st Hm Hl; simpl; [discriminate|].
  apply andb_prop in Hl as [Hr Hl].
  pose proof (process_reading_modelled mac now st r Hm Hr).
  destruct (process_reading mac now st r); try discriminate; [|congruence].
  apply IH; assumption.
Qed.

(** A plain request that passes the guard is answered 200 or 500. *)
Lemma plain_request_answered db now data :
  plain_request data = true ->
  envelope_falsy data = false ->
  exists db' r,
    receive_esp32_data db now data = Some (db', r) /\ (code r = 200 \/ code r = 500)%Z.
Proof.
  intros Hp Hf. unfold receive_esp32_data. unfold envelope_falsy in Hf.
  apply orb_false_iff in Hf as [Hd Hf]. rewrite Hd.
  unfold plain_request in Hp.
  destruct (py_get data "esp32_mac") as [mac|];
    [|do 2 eexists; split; [reflexivity|cbn; lia]].
  destruct (py_get data "readings") as [readings|];
    [|do 2 eexists; split; [reflexivity|cbn; lia]].
  rewrite Hf.
  destruct (py_iter readings) as [l|] eqn:Ei;
    [|do 2 eexists; split; [reflexivity|cbn; lia]].
  assert (Hout : for_readings mac now
                   {| ls_db := db; processed_count := 0; error_count := 0 |} l <> Outside).
  { destruct readings as [| | | | | |s|l0|d]; try discriminate; injection Ei as <-.
    - destruct s as [|c s]; cbn; discriminate.
    - apply andb_prop in Hp as [Hm Hl]. apply for_readings_modelled; assumption.
    - destruct d as [|[k0 v0] d]; cbn; discriminate. }
  destruct (for_readings mac now _ l); [| |congruence];
    do 2 eexists; (split; [reflexivity|cbn; lia]).
Qed.

(** ** The envelope of an ingestion request *)

(** C8, as stated, fails: the payload with an empty readings array carries
    esp32_mac and carries readings as a collection, so the specification's
    test does not reject it, and still the handler answers 400 without
    touching the database. *)
Lemma empty_readings_rejected :
  spec_envelope_rejected empty_readings_payload = false /\
  receive_esp32_data db0 1000 empty_readings_payload =
    Some (db0, bad_request "Missing esp32_mac or readings").
Proof. split; reflexivity. Qed.

(** C8, amended.  Whenever the body, esp32_mac or readings is falsy (absent,
    null, empty, zero or false) the handler answers 400 with an error body
    and leaves the database as it was; in no other case does it answer 400
    (it answers 200 or 500).
    When esp32_mac is a non-empty string and readings is a non-empty list of
    typed readings whose temperatures SQLite can store, it answers 200 with
    "Processed N readings. M errors logged.", N the number of accepted and M
    the number of rejected readings, the M clause left out when M is zero. *)
Theorem receive_esp32_data_envelope :
  forall db now data,
    (envelope_falsy data = true ->
     exists msg,
       receive_esp32_data db now data = Some (db, bad_request msg) /\
       code (bad_request msg) = 400%Z /\ status (bad_request msg) = "error") /\
    (envelope_falsy data = false ->
     (forall db' r, receive_esp32_data db now data = Some (db', r) -> code r <> 400%Z) /\
     (plain_request data = true ->
      exists db' r,
        receive_esp32_data db now data = Some (db', r) /\ (code r = 200 \/ code r = 500)%Z)) /\
    (forall m l,
        py_get data "esp32_mac" = Some (PStr m) ->
        m <> "" ->
        py_get data "readings" = Some (PList l) ->
        l <> [] ->
        forallb is_typed l = true ->
        forallb storable l = true ->
        let N := List.length (filter (accepted_reading db) l) in
        let M := List.length (filter (fun r => negb (accepted_reading db r)) l) in
        (exists db',
            receive_esp32_data db now data = Some (db', success (response_message N M))) /\
        (N + M = List.length l)%nat /\
        (M = 0%nat ->
         response_message N M = ("Processed " ++ str_of_nat N ++ " readings.")%string) /\
        (M <> 0%nat ->
         response_message N M =
           ("Processed " ++ str_of_nat N ++ " readings. "
              ++ str_of_nat M ++ " errors logged.")%string)).
Proof.
  intros db now data; split; [|split].
  - unfold receive_esp32_data, envelope_falsy.
    destruct (truthy data); simpl.
    + destruct (py_get data "esp32_mac") as [mac|];
        [destruct (py_get data "readings") as [readings|]|]; try discriminate.
      intros ->. eexists; repeat apply conj; reflexivity.
    + intros _. eexists; repeat apply conj; reflexivity.
  - intros Hf. split; [|intros Hp; apply plain_request_answered; assumption].
    revert Hf. unfold receive_esp32_data, envelope_falsy.
    destruct (truthy data); simpl; [|discriminate].
    destruct (py_get data "esp32_mac") as [mac|];
      [destruct (py_get data "readings") as [readings|]|].
    + intros ->. destruct (py_iter readings) as [l|].
      * destruct (for_readings _ _ _ l); [| |discriminate];
          intros db' r [= <- <-]; discriminate.
      * intros db' r [= <- <-]; discriminate.
    + intros _ db' r [= <- <-]; discriminate.
    + intros _ db' r [= <- <-]; discriminate.
  - intros m l Hmac Hm Hrd Hl Hty Hsto N M.
    repeat apply conj.
    + unfold receive_esp32_data.
      assert (Hd : truthy data = true).
      { destruct data; try discriminate. destruct d; [discriminate|reflexivity]. }
      rewrite Hd, Hmac, Hrd. simpl.
      apply String.eqb_neq in Hm. rewrite Hm. simpl.
      destruct l as [|r0 l0]; [congruence|]. simpl py_iter. cbv iota beta.
      destruct (for_readings_counts m now (r0 :: l0)
                  {| ls_db := db; processed_count := 0; error_count := 0 |} Hty Hsto)
        as (st' & H1 & H2 & H3).
      rewrite H1. exists (ls_db st'). simpl in H2, H3. subst N M.
      rewrite H2, H3. reflexivity.
    + subst N M. clear. induction l as [|x l IH]; simpl; auto.
      destruct (accepted_reading db x); simpl; lia.
    + intros ->. reflexivity.
    + intros HM. unfold response_message.
      destruct M; [congruence|]. reflexivity.
Qed.

Lemma receive_esp32_data_envelope_witness :
  (py_get mixed_payload "esp32_mac" = Some (PStr "AA:BB:CC:DD:EE:FF") /\
   "AA:BB:CC:DD:EE:FF" <> "" /\
   py_get mixed_payload "readings" = Some (PList mixed_readings) /\
   mixed_readings <> [] /\
   forallb is_typed mixed_readings = true /\
   forallb storable mixed_readings = true) /\
  (exists db',
      receive_esp32_data db0 1000 mixed_payload =
      Some (db', success "Processed 1 readings. 1 errors logged.")) /\
  envelope_falsy empty_readings_payload = true /\
  (exists msg,
      receive_esp32_data db0 1000 empty_readings_payload = Some (db0, bad_request msg) /\
      code (bad_request msg) = 400%Z /\ status (bad_request msg) = "error").
Proof.
  split; [repeat apply conj; try reflexivity; discriminate|].
  split.
  - exact (proj1 (proj2 (proj2 (receive_esp32_data_envelope db0 1000 mixed_payload))
                    "AA:BB:CC:DD:EE:FF" mixed_readings eq_refl
                    ltac:(discriminate) eq_refl ltac:(discriminate) eq_refl eq_refl)).
  - split; [reflexivity|].
    exact (proj1 (receive_esp32_data_envelope db0 1000 empty_readings_payload) eq_refl).
Defined.

(** ** ORDER BY: a permutation, sorted from the newest to the oldest *)

Section Ordering.
Context {A : Type} (key : A -> option Z).

Lemma insert_desc_perm x l : Permutation (insert_desc key x l) (x :: l).
Proof.
  induction l as [|y l IH]; simpl.
  - apply Permutation_refl.
  - destruct (ts_ltb (key x) (key y)).
    + eapply perm_trans; [apply perm_skip, IH | apply perm_swap].
    + apply Permutation_refl.
Qed.

Lemma order_by_desc_perm l : Permutation (order_by_desc key l) l.
Proof.
  induction l as [|x l IH]; simpl.
  - apply perm_nil.
  - eapply perm_trans; [apply insert_desc_perm | apply perm_skip, IH].
Qed.

Lemma order_by_desc_In x l : In x (order_by_desc key l) <-> In x l.
Proof.
  split; apply Permutation_in;
    [apply order_by_desc_perm | apply Permutation_sym, order_by_desc_perm].
Qed.

Lemma order_by_desc_length l : List.length (order_by_desc key l) = List.length l.
Proof. apply Permutation_length, order_by_desc_perm. Qed.

Lemma ts_ltb_asym a b : ts_ltb a b = true -> ts_ltb b a = false.
Proof.
  destruct a, b; simpl; auto; intros H.
  apply Z.ltb_lt in H. apply Z.ltb_ge. lia.
Qed.

Lemma ts_ge_trans a b c :
  ts_ltb a b = false -> ts_ltb b c = false -> ts_ltb a c = false.
Proof.
  destruct a, b, c; simpl; auto; try discriminate.
  rewrite !Z.ltb_ge. lia.
Qed.

Lemma insert_desc_sorted x l :
  StronglySorted (newer_or_equal key) l ->
  StronglySorted (newer_or_equal key) (insert_desc key x l).
Proof.
  induction 1 as [|y l Hs IH Hy]; simpl.
  - constructor; [constructor | constructor].
  - destruct (ts_ltb (key x) (key y)) eqn:E.
    + constructor; [exact IH|].
      rewrite Forall_forall in *. intros z Hz.
      apply (Permutation_in _ (insert_desc_perm x l)) in Hz.
      destruct Hz as [<- | Hz]; [apply ts_ltb_asym, E | apply Hy, Hz].
    + constructor; [constructor; assumption|].
      constructor; [exact E|].
      rewrite Forall_forall in *. intros z Hz.
      eapply ts_ge_trans; [exact E | apply Hy, Hz].
Qed.

Lemma order_by_desc_sorted l : StronglySorted (newer_or_equal key) (order_by_desc key l).
Proof.
  induction l as [|x l IH]; simpl.
  - constructor.
  - apply insert_desc_sorted, IH.
Qed.

(** The first row is a newest one. *)
Lemma order_by_desc_head x rest l :
  order_by_desc key l = x :: rest ->
  In x l /\ forall y, In y l -> newer_or_equal key x y.
Proof.
  intros E. split.
  - apply order_by_desc_In. rewrite E. left; reflexivity.
  - intros y Hy. apply order_by_desc_In in Hy. rewrite E in Hy.
    pose proof (order_by_desc_sorted l) as Hs. rewrite E in Hs.
    inversion Hs as [|? ? _ Hall]; subst.
    destruct Hy as [<- | Hy].
    + unfold newer_or_equal. destruct (key x); simpl; auto. apply Z.ltb_irrefl.
    + rewrite Forall_forall in Hall. apply Hall, Hy.
Qed.
End Ordering.

Lemma In_firstn {A : Type} (x : A) n l : In x (firstn n l) -> In x l.
Proof.
  intros H. rewrite <- (firstn_skipn n l). apply in_or_app; left; exact H.
Qed.

Lemma In_sql_limit {A : Type} (x : A) limit l : In x (sql_limit limit l) -> In x l.
Proof.
  unfold sql_limit. destruct (limit <? 0)%Z; [auto | apply In_firstn].
Qed.

(** ** The error log *)

Lemma mark_resolved_idem error_id e :
  mark_resolved error_id (mark_resolved error_id e) = mark_resolved error_id e.
Proof.
  unfold mark_resolved. destruct (err_id e =? error_id)%Z eqn:E; simpl; rewrite E; reflexivity.
Qed.

Lemma mark_resolved_flag error_id e :
  err_id (mark_resolved error_id e) = error_id ->
  err_resolved (mark_resolved error_id e) = true.
Proof.
  unfold mark_resolved. destruct (err_id e =? error_id)%Z eqn:E; simpl; auto.
  intros H. apply Z.eqb_neq in E. contradiction.
Qed.

Lemma mark_resolved_other error_id e :
  err_id e <> error_id -> mark_resolved error_id e = e.
Proof.
  unfold mark_resolved. intros H. apply Z.eqb_neq in H. rewrite H. reflexivity.
Qed.

Lemma resolved_rows_flag db error_id e :
  In e (esp32_errors (fst (resolve_esp32_error db error_id))) ->
  err_id e = error_id -> err_resolved e = true.
Proof.
  simpl. rewrite in_map_iff. intros (e0 & <- & _). apply mark_resolved_flag.
Qed.

(** C9.  Resolving an error id returns True; resolving it a second time
    returns True again and changes nothing, the flag staying true; resolving
    an id no row carries changes nothing; and after the first resolve the id
    is listed neither among all unresolved errors nor among the unresolved
    errors of any room. *)
Theorem resolve_esp32_error_idempotent :
  forall db error_id,
    let db1 := fst (resolve_esp32_error db error_id) in
    snd (resolve_esp32_error db error_id) = true /\
    resolve_esp32_error db1 error_id = (db1, true) /\
    (forall e, In e (esp32_errors db1) -> err_id e = error_id -> err_resolved e = true) /\
    ((forall e, In e (esp32_errors db) -> err_id e <> error_id) -> db1 = db) /\
    ~ In error_id (map ue_id (get_all_unresolved_errors db1)) /\
    (forall cold_room_id limit,
        ~ In error_id (map re_id (get_esp32_errors_for_cold_room db1 cold_room_id limit))).
Proof.
  intros db error_id db1. repeat apply conj.
  - reflexivity.
  - unfold resolve_esp32_error, db1; simpl. f_equal. f_equal.
    rewrite map_map. apply map_ext. intros e. apply mark_resolved_idem.
  - intros e. apply resolved_rows_flag.
  - intros Hno. unfold db1; simpl. destruct db as [ls cs ts es n]; simpl in *. f_equal.
    rewrite <- (map_id es) at 2. apply map_ext_in.
    intros e He. apply mark_resolved_other, Hno, He.
  - intros Hin. apply in_map_iff in Hin as (u & Hid & Hu).
    unfold get_all_unresolved_errors in Hu.
    apply in_map_iff in Hu as ([e names] & <- & Hrow). simpl in Hid.
    apply order_by_desc_In in Hrow. apply filter_In in Hrow as [Hrow Hres].
    apply in_flat_map in Hrow as (e0 & He0 & Hrow).
    apply in_map_iff in Hrow as (names0 & [= -> ->] & _).
    simpl in Hres. rewrite (resolved_rows_flag db error_id e He0 Hid) in Hres.
    discriminate.
  - intros cold_room_id limit Hin.
    apply in_map_iff in Hin as (u & Hid & Hu).
    unfold get_esp32_errors_for_cold_room in Hu.
    destruct (find _ (cold_rooms db1)) as [c|]; [|contradiction].
    destruct (room_sensor_id c) as [s|]; [|contradiction].
    destruct (String.eqb s ""); [contradiction|].
    apply in_map_iff in Hu as (e & <- & He). simpl in Hid.
    apply In_sql_limit in He. apply order_by_desc_In in He.
    apply filter_In in He as [He Hres].
    rewrite (resolved_rows_flag db error_id e He Hid) in Hres.
    rewrite andb_false_r in Hres. discriminate.
Qed.

Lemma resolve_esp32_error_idempotent_witness :
  (forall e, In e (esp32_errors db_errors) -> err_id e <> 99%Z) /\
  fst (resolve_esp32_error db_errors 99) = db_errors /\
  ~ In 1%Z (map ue_id (get_all_unresolved_errors (fst (resolve_esp32_error db_errors 1)))).
Proof.
  assert (H : forall e, In e (esp32_errors db_errors) -> err_id e <> 99%Z).
  { simpl. intros e [<- | [<- | []]]; discriminate. }
  split; [exact H|]. split.
  - exact (proj1 (proj2 (proj2 (proj2 (resolve_esp32_error_idempotent db_errors 99)))) H).
  - exact (proj1 (proj2 (proj2 (proj2 (proj2
             (resolve_esp32_error_idempotent db_errors 1)))))).
Defined.

(** ** Liveness *)

Lemma limit_one_head {A : Type} (l : list A) :
  apply_limit (Some 1%nat) l = match l with [] => [] | x :: _ => [x] end.
Proof. destruct l; reflexivity. Qed.

(** C3 as stated fails: at 00:33:20 of 1 January 1970 the newest sample of
    room 1, stamped 00:18:20, is exactly 900 seconds old; the age SQLite
    computes from the two julian days is 900.0000268..., and the room is
    reported not live. *)
Lemma sample_900s_old_not_live :
  latest_time (latest_status db_samples 2000 1) = Some (Some 1100%Z) /\
  (2000 - 1100 = 900)%Z /\
  900 < age_seconds (unix_ms 2000) 1100 /\
  is_sensor_active (latest_status db_samples 2000 1) = false /\
  latest_temp (latest_status db_samples 2000 1) = None.
Proof. repeat apply conj; vm_compute; reflexivity. Qed.

(** C3, amended.  For a room with at least one stored sample the status is
    taken from a newest sample; when that sample has a timestamp the room is
    live exactly when the age computed in double precision,
    (julianday(now) - julianday(timestamp)) * 86400, is at most 900.  With
    both instants among SQLite's dates, a sample less than 900 seconds old by
    a millisecond or more is live and one more than 900 seconds old by a
    millisecond or more is not; at exactly 900 seconds the rounding decides.
    When the room is not live the reported temperature is absent. *)
Theorem latest_status_live_within_900 :
  forall db now cold_room_id,
    (exists r, In r (temperature_data db) /\ td_cold_room_id r = cold_room_id) ->
    exists newest,
      In newest (temperature_data db) /\
      td_cold_room_id newest = cold_room_id /\
      (forall r, In r (temperature_data db) -> td_cold_room_id r = cold_room_id ->
                 newer_or_equal td_timestamp newest r) /\
      let s := latest_status db now cold_room_id in
      latest_time s = Some (td_timestamp newest) /\
      (forall t, td_timestamp newest = Some t ->
         (is_sensor_active s = true <-> age_seconds (unix_ms now) t <= 900) /\
         (sqlite_date (unix_ms now) -> sqlite_date (1000 * t) ->
          ((unix_ms now - 1000 * t <= 899999)%Z -> is_sensor_active s = true) /\
          ((900001 <= unix_ms now - 1000 * t)%Z ->
           is_sensor_active s = false /\ latest_temp s = None))) /\
      (is_sensor_active s = false -> latest_temp s = None) /\
      (is_sensor_active s = true -> latest_temp s = Some (td_temperature newest)).
Proof.
  intros db now cold_room_id (r0 & Hr0 & Hroom0).
  unfold latest_status, get_temperature_data_for_cold_room.
  rewrite limit_one_head.
  destruct (order_by_desc td_timestamp (filter (room_is cold_room_id) (temperature_data db)))
    as [|x rest] eqn:E.
  - exfalso.
    assert (Hin : In r0 (filter (room_is cold_room_id) (temperature_data db))).
    { apply filter_In. split; [exact Hr0|]. unfold room_is. apply Z.eqb_eq, Hroom0. }
    apply (order_by_desc_In td_timestamp) in Hin. rewrite E in Hin. contradiction.
  - destruct (order_by_desc_head td_timestamp x rest _ E) as [Hx Hmax].
    apply filter_In in Hx as [Hx Hroom]. unfold room_is in Hroom. apply Z.eqb_eq in Hroom.
    exists x. split; [exact Hx|]. split; [exact Hroom|]. split.
    { intros r Hr Hrr. apply Hmax. apply filter_In. split; [exact Hr|].
      unfold room_is. apply Z.eqb_eq, Hrr. }
    cbn -[age_seconds Qle_bool]. split; [reflexivity|].
    destruct (td_timestamp x) as [t|]; cbn -[age_seconds Qle_bool].
    + split.
      { intros t' [= <-]. split; [apply Qle_bool_iff|].
        intros Hn Ht. split.
        - intros Hage. apply Qle_bool_iff. apply age_below_900; assumption.
        - intros Hage.
          assert (Hf : Qle_bool (age_seconds (unix_ms now) t) 900 = false).
          { destruct (Qle_bool (age_seconds (unix_ms now) t) 900) eqn:B; [|reflexivity].
            apply Qle_bool_iff in B.
            pose proof (age_above_900 (unix_ms now) t Hn Ht Hage). lra. }
          rewrite Hf. split; reflexivity. }
      split; intros H; rewrite H; reflexivity.
    + split; [discriminate|]. split; [discriminate|]. reflexivity.
Qed.

Lemma latest_status_live_within_900_witness :
  (exists r, In r (temperature_data db_samples) /\ td_cold_room_id r = 1%Z) /\
  exists newest,
    In newest (temperature_data db_samples) /\
    td_cold_room_id newest = 1%Z /\
    (td_timestamp newest = Some 1100%Z ->
     sqlite_date (unix_ms 1999) -> sqlite_date (1000 * 1100) ->
     (unix_ms 1999 - 1000 * 1100 <= 899999)%Z ->
     is_sensor_active (latest_status db_samples 1999 1) = true).
Proof.
  assert (H : exists r, In r (temperature_data db_samples) /\ td_cold_room_id r = 1%Z).
  { eexists; split; [left; reflexivity | reflexivity]. }
  split; [exact H|].
  destruct (latest_status_live_within_900 db_samples 1999 1 H)
    as (newest & H1 & H2 & _ & _ & H3 & _).
  exists newest. split; [exact H1|]. split; [exact H2|].
  intros Ht Hn Hs Hage. exact (proj1 (proj2 (H3 1100%Z Ht) Hn Hs) Hage).
Defined.

(** C10.  A sample whose age cannot be computed at read time (seconds_ago is
    null, the timestamp being null) is classified active, and when it is the
    row the status is taken from its temperature is reported as the current
    reading. *)
Theorem null_age_is_active :
  forall db now cold_room_id limit row,
    In row (get_temperature_data_for_cold_room db now cold_room_id limit) ->
    seconds_ago row = None ->
    is_active row = true /\
    timestamp row = None /\
    (forall rest,
        get_temperature_data_for_cold_room db now cold_room_id (Some 1%nat) = row :: rest ->
        is_sensor_active (latest_status db now cold_room_id) = true /\
        latest_temp (latest_status db now cold_room_id) = Some (temperature row)).
Proof.
  intros db now cold_room_id limit row Hin Hago.
  unfold get_temperature_data_for_cold_room in Hin.
  apply in_map_iff in Hin as (r & <- & _). simpl in *.
  destruct (td_timestamp r) as [t|]; [discriminate|]. simpl.
  split; [reflexivity|]. split; [reflexivity|].
  intros rest Hone. unfold latest_status. rewrite Hone. simpl. auto.
Qed.

Lemma null_age_is_active_witness :
  is_sensor_active (latest_status db_samples 2000 2) = true /\
  latest_temp (latest_status db_samples 2000 2) = Some 3.
Proof.
  refine (proj2 (proj2 (null_age_is_active db_samples 2000 2 (Some 1%nat)
                          {| temperature := 3; timestamp := None;
                             seconds_ago := None; is_active := true |}
                          _ eq_refl)) [] eq_refl).
  left; reflexivity.
Defined.

(** ** Rolling statistics: the trend *)

Lemma Qlt_bool_iff a b : Qlt_bool a b = true <-> a < b.
Proof.
  unfold Qlt_bool. rewrite negb_true_iff. split.
  - intros H. apply Qnot_le_lt. intros Hle. apply Qle_bool_iff in Hle. congruence.
  - intros H. destruct (Qle_bool b a) eqn:E; auto.
    apply Qle_bool_iff in E. exfalso. exact (Qlt_not_le _ _ H E).
Qed.

Lemma Qlt_bool_false a b : Qlt_bool a b = false <-> ~ a < b.
Proof.
  rewrite <- Qlt_bool_iff. destruct (Qlt_bool a b); split; congruence.
Qed.

(** Python's [l[-5:]] is the last up-to-5 elements. *)
Lemma last5_last_up_to l : last5 l = last_up_to 5 l.
Proof.
  unfold last5, last_up_to. rewrite firstn_rev, rev_involutive. reflexivity.
Qed.

Lemma length_last5 l : List.length (last5 l) = Nat.min 5 (List.length l).
Proof. unfold last5. rewrite length_skipn. lia. Qed.

Lemma recent_avg_is_mean l :
  fl (py_sum (firstn 5 l) / Qnat (Nat.min 5 (List.length l))) = double_mean (firstn 5 l).
Proof. unfold double_mean, py_sum. rewrite length_firstn. reflexivity. Qed.

Lemma older_avg_is_mean l :
  fl (py_sum (last5 l) / Qnat (Nat.min 5 (List.length l))) = double_mean (last_up_to 5 l).
Proof.
  unfold double_mean, py_sum. rewrite <- last5_last_up_to, length_last5. reflexivity.
Qed.

Lemma trend_of_spec temperatures :
  let recent := double_mean (firstn 5 temperatures) in
  let older := double_mean (last_up_to 5 temperatures) in
  ((2 <= List.length temperatures)%nat ->
   (fl (older + (1 # 2)) < recent -> trend_of temperatures = rising) /\
   (recent < fl (older - (1 # 2)) -> trend_of temperatures = falling) /\
   (~ fl (older + (1 # 2)) < recent -> ~ recent < fl (older - (1 # 2)) ->
    trend_of temperatures = stable)) /\
  ((List.length temperatures < 2)%nat -> trend_of temperatures = stable).
Proof.
  intros recent older. unfold trend_of. split.
  - intros Hlen. apply Nat.leb_le in Hlen. rewrite Hlen.
    rewrite recent_avg_is_mean, older_avg_is_mean. fold recent older.
    repeat apply conj.
    + intros H. apply Qlt_bool_iff in H. rewrite H. reflexivity.
    + intros H.
      assert (Hm : fl (older - (1 # 2)) <= fl (older + (1 # 2))) by (apply fl_mono; lra).
      assert (H1 : Qlt_bool (fl (older + (1 # 2))) recent = false).
      { apply Qlt_bool_false. lra. }
      rewrite H1. apply Qlt_bool_iff in H. rewrite H. reflexivity.
    + intros Hn1 Hn2. apply Qlt_bool_false in Hn1. apply Qlt_bool_false in Hn2.
      rewrite Hn1, Hn2. reflexivity.
  - intros Hlen. apply Nat.leb_gt in Hlen. rewrite Hlen. reflexivity.
Qed.

(** *** The rounding of sums and means of up to five temperatures *)

Lemma half_ulp_13_pow2 : pow2 (13 - 54) == half_ulp_13.
Proof. vm_compute. reflexivity. Qed.

(** One rounded addition below 2^13 is off by at most 2^-41. *)
Lemma fl_near_13 x : Qabs x < 8192 -> Qabs (fl x - x) <= half_ulp_13.
Proof.
  intros H. rewrite <- half_ulp_13_pow2. apply fl_near; [|lia].
  eapply Qlt_le_trans; [exact H|]. vm_compute. discriminate.
Qed.

Lemma Qabs_bound x b : Qabs x <= b <-> - b <= x /\ x <= b.
Proof. apply Qabs_Qle_condition. Qed.

Lemma sum_near l : forall a A,
  Qabs a <= A ->
  Forall sensor_range l ->
  A + 1001 * Qnat (List.length l) <= 8000 ->
  Qabs (fold_left (fun s x => fl (s + x)) l a - (a + fold_right Qplus 0 l))
    <= half_ulp_13 * Qnat (List.length l) /\
  Qabs (fold_left (fun s x => fl (s + x)) l a) <= A + 1001 * Qnat (List.length l).
Proof.
  induction l as [|x l IH]; intros a A Ha Hl Hb.
  - cbn [fold_left fold_right List.length]. unfold Qnat. cbn [Z.of_nat].
    split.
    + assert (E : a - (a + 0) == 0) by ring. rewrite E.
      change (Qabs 0) with 0. change (inject_Z 0) with 0. lra.
    + change (inject_Z 0) with 0. lra.
  - inversion Hl as [|? ? Hx Hl']; subst.
    cbn [fold_left fold_right List.length].
    assert (EQ : Qnat (S (List.length l)) == Qnat (List.length l) + 1).
    { unfold Qnat. rewrite Nat2Z.inj_succ, <- Z.add_1_r, inject_Z_plus. reflexivity. }
    rewrite EQ in *.
    assert (Hn : 0 <= Qnat (List.length l)).
    { unfold Qnat. change 0 with (inject_Z 0). rewrite <- Zle_Qle. lia. }
    apply Qabs_bound in Ha, Hx.
    assert (Hax : Qabs (a + x) < 8192).
    { apply Qabs_case; intros; lra. }
    pose proof (fl_near_13 (a + x) Hax) as He. apply Qabs_bound in He.
    assert (Hulp : half_ulp_13 == 1 # 2199023255552) by reflexivity.
    assert (Ha' : Qabs (fl (a + x)) <= A + 1001).
    { apply Qabs_bound. lra. }
    destruct (IH (fl (a + x)) (A + 1001) Ha' Hl' ltac:(lra)) as [I1 I2].
    apply Qabs_bound in I1, I2. split; apply Qabs_bound; lra.
Qed.

Lemma Qnat_pos_length {A : Type} (l : list A) : l <> [] -> 1 <= Qnat (List.length l).
Proof.
  intros H. destruct l as [|x l]; [congruence|]. unfold Qnat.
  change 1 with (inject_Z 1). rewrite <- Zle_Qle. cbn [List.length]. lia.
Qed.

(** The mean computed in double precision is within 2^-40 of the exact mean
    of up to five temperatures between -1000 and 1000. *)
Lemma double_mean_near l :
  l <> [] -> (List.length l <= 5)%nat ->
  Forall sensor_range l ->
  Qabs (double_mean l - mean l) <= 2 * half_ulp_13.
Proof.
  intros Hne Hlen Hl. unfold double_mean, mean.
  pose proof (Qnat_pos_length l Hne) as Hn1.
  assert (Hn5 : Qnat (List.length l) <= 5).
  { unfold Qnat. change 5 with (inject_Z 5). rewrite <- Zle_Qle. lia. }
  set (n := Qnat (List.length l)) in *.
  destruct (sum_near l 0 0 ltac:(cbn; lra) Hl ltac:(fold n; lra)) as [S1 S2].
  fold n in S1, S2.
  set (Sf := fold_left (fun s x => fl (s + x)) l 0) in *.
  set (Sx := fold_right Qplus 0 l) in *.
  apply Qabs_bound in S1, S2.
  assert (Hinv : 0 < / n) by (apply Qinv_lt_0_compat; lra).
  assert (E1 : (Sx + half_ulp_13 * n) / n == Sx / n + half_ulp_13) by (field; lra).
  assert (E2 : (Sx - half_ulp_13 * n) / n == Sx / n - half_ulp_13) by (field; lra).
  assert (E3 : (1001 * n) / n == 1001) by (field; lra).
  assert (E4 : (- (1001 * n)) / n == - 1001) by (field; lra).
  assert (U1 : Sf / n <= (Sx + half_ulp_13 * n) / n).
  { apply Qmult_le_compat_r; lra. }
  assert (L1 : (Sx - half_ulp_13 * n) / n <= Sf / n).
  { apply Qmult_le_compat_r; lra. }
  assert (U2 : Sf / n <= (1001 * n) / n).
  { apply Qmult_le_compat_r; lra. }
  assert (L2 : (- (1001 * n)) / n <= Sf / n).
  { apply Qmult_le_compat_r; lra. }
  assert (Hq : Qabs (Sf / n) < 8192).
  { apply Qabs_case; intros; lra. }
  pose proof (fl_near_13 (Sf / n) Hq) as He. apply Qabs_bound in He.
  apply Qabs_bound. lra.
Qed.

Lemma mean_bound l :
  l <> [] -> (List.length l <= 5)%nat ->
  Forall sensor_range l ->
  Qabs (double_mean l) <= 1001.
Proof.
  intros Hne Hlen Hl.
  pose proof (double_mean_near l Hne Hlen Hl) as H. apply Qabs_bound in H.
  assert (Hm : Qabs (mean l) <= 1000).
  { unfold mean. pose proof (Qnat_pos_length l Hne) as Hn1.
    set (n := Qnat (List.length l)) in *.
    assert (Hs : Qabs (fold_right Qplus 0 l) <= 1000 * n).
    { unfold n. clear -Hl. induction Hl as [|x l Hx Hl IH].
      - apply Qabs_bound. unfold Qnat. cbn [fold_right List.length Z.of_nat].
        change (inject_Z 0) with 0. lra.
      - cbn [fold_right List.length].
        assert (EQ : Qnat (S (List.length l)) == Qnat (List.length l) + 1).
        { unfold Qnat. rewrite Nat2Z.inj_succ, <- Z.add_1_r, inject_Z_plus. reflexivity. }
        rewrite EQ. apply Qabs_bound in Hx, IH. apply Qabs_bound. lra. }
    apply Qabs_bound in Hs.
    assert (Hinv : 0 < / n) by (apply Qinv_lt_0_compat; lra).
    assert (E3 : (1000 * n) / n == 1000) by (field; lra).
    assert (E4 : (- (1000 * n)) / n == - 1000) by (field; lra).
    assert (U2 : fold_right Qplus 0 l / n <= (1000 * n) / n).
    { apply Qmult_le_compat_r; lra. }
    assert (L2 : (- (1000 * n)) / n <= fold_right Qplus 0 l / n).
    { apply Qmult_le_compat_r; lra. }
    apply Qabs_bound. lra. }
  apply Qabs_bound in Hm. assert (Hulp : half_ulp_13 == 1 # 2199023255552) by reflexivity.
  apply Qabs_bound. lra.
Qed.

(** Away from the two thresholds, by 10^-10, the trend is the one of the
    exact means. *)
Lemma trend_of_exact temperatures :
  Forall sensor_range temperatures ->
  (2 <= List.length temperatures)%nat ->
  let recent := mean (firstn 5 temperatures) in
  let older := mean (last_up_to 5 temperatures) in
  let delta := 1 # 10000000000 in
  (older + (1 # 2) + delta <= recent -> trend_of temperatures = rising) /\
  (recent <= older - (1 # 2) - delta -> trend_of temperatures = falling) /\
  (older - (1 # 2) + delta <= recent -> recent <= older + (1 # 2) - delta ->
   trend_of temperatures = stable).
Proof.
  intros Hall Hlen recent older delta.
  assert (Hf : firstn 5 temperatures <> [] /\ (List.length (firstn 5 temperatures) <= 5)%nat /\
               Forall sensor_range (firstn 5 temperatures)).
  { split; [|split].
    - intros E. apply (f_equal (@List.length Q)) in E. rewrite length_firstn in E.
      cbn [List.length] in E. lia.
    - rewrite length_firstn. lia.
    - apply Forall_forall. intros x Hx. apply In_firstn in Hx.
      rewrite Forall_forall in Hall. auto. }
  assert (Hl : last_up_to 5 temperatures <> [] /\
               (List.length (last_up_to 5 temperatures) <= 5)%nat /\
               Forall sensor_range (last_up_to 5 temperatures)).
  { rewrite <- last5_last_up_to. split; [|split].
    - intros E. apply (f_equal (@List.length Q)) in E. rewrite length_last5 in E.
      cbn [List.length] in E. lia.
    - rewrite length_last5. lia.
    - apply Forall_forall. intros x Hx. unfold last5 in Hx.
      rewrite Forall_forall in Hall. apply Hall.
      rewrite <- (firstn_skipn (List.length temperatures - 5) temperatures).
      apply in_or_app. right. exact Hx. }
  destruct Hf as (F1 & F2 & F3). destruct Hl as (L1 & L2 & L3).
  pose proof (double_mean_near _ F1 F2 F3) as Nr. pose proof (double_mean_near _ L1 L2 L3) as No.
  pose proof (mean_bound _ L1 L2 L3) as Bo.
  fold recent in Nr. fold older in No.
  set (r := double_mean (firstn 5 temperatures)) in *.
  set (o := double_mean (last_up_to 5 temperatures)) in *.
  apply Qabs_bound in Nr, No, Bo.
  assert (Hp : Qabs (o + (1 # 2)) < 8192) by (apply Qabs_case; intros; lra).
  assert (Hm : Qabs (o - (1 # 2)) < 8192) by (apply Qabs_case; intros; lra).
  pose proof (fl_near_13 _ Hp) as Ep. pose proof (fl_near_13 _ Hm) as Em.
  apply Qabs_bound in Ep, Em.
  assert (Hulp : half_ulp_13 == 1 # 2199023255552) by reflexivity.
  assert (Hd : delta == 1 # 10000000000) by reflexivity.
  destruct (trend_of_spec temperatures) as [Hspec _]. 
  destruct (Hspec Hlen) as (R & F & S). fold r o in R, F, S.
  repeat split.
  - intros H. apply R. lra.
  - intros H. apply F. lra.
  - intros H1 H2. apply S; lra.
Qed.

Lemma stats_trend db now cold_room_id :
  trend (get_24h_temperature_stats db now cold_room_id) =
  trend_of (map td_temperature (window_24h db now cold_room_id)).
Proof.
  unfold get_24h_temperature_stats.
  destruct (map td_temperature (window_24h db now cold_room_id)); reflexivity.
Qed.

(** The window holds the samples of the room stamped within the last 24
    hours, the newest first. *)
Lemma window_24h_spec db now cold_room_id :
  (forall r, In r (window_24h db now cold_room_id) <->
             In r (temperature_data db) /\ td_cold_room_id r = cold_room_id /\
             exists t, td_timestamp r = Some t /\ (clock_seconds now - 86400 <= t)%Z) /\
  StronglySorted (newer_or_equal td_timestamp) (window_24h db now cold_room_id).
Proof.
  split; [|apply order_by_desc_sorted].
  intros r. unfold window_24h. rewrite order_by_desc_In, filter_In.
  unfold room_is, in_last_24h. rewrite andb_true_iff, Z.eqb_eq.
  destruct (td_timestamp r) as [t|].
  - rewrite Z.leb_le. split.
    + intros (H1 & H2 & H3). repeat split; auto. exists t; auto.
    + intros (H1 & H2 & t' & [= <-] & H3). auto.
  - split.
    + intros (_ & _ & H); discriminate.
    + intros (_ & _ & t' & H & _); discriminate.
Qed.

(** C4 as stated fails: in room 1 the mean of the five newest samples exceeds
    the mean of the five oldest by less than 0.5 (by 0.49999999999999994),
    yet the sums and quotients of the code, made in double precision, give
    3.560000000000001 against 3.5600000000000005, and the trend is rising. *)
Lemma trend_rising_within_half_degree :
  map td_temperature (window_24h db_tie 1000 1) = tie_readings /\
  (2 <= List.length tie_readings)%nat /\
  ~ mean (last_up_to 5 tie_readings) + (1 # 2) < mean (firstn 5 tie_readings) /\
  trend (get_24h_temperature_stats db_tie 1000 1) = rising.
Proof.
  split; [vm_compute; reflexivity|]. split; [simpl; lia|]. split.
  - intros H. vm_compute in H. discriminate.
  - vm_compute. reflexivity.
Qed.

(** C4, amended.  On the newest-first sequence of the last 24 hours, with
    means and comparisons made as the code makes them, in double precision
    (the values added from left to right, the sum divided by the count, 0.5
    added or subtracted, each operation rounded): with at least two samples
    the trend is rising when the mean of the first up-to-5 samples is above
    the mean of the last up-to-5 samples plus 0.5, falling when it is below
    that mean minus 0.5, stable otherwise; with fewer than two samples it is
    stable.  For temperatures from -1000 to 1000 degrees the outcome is that
    of the exact means whenever the mean of the first samples is not within
    10^-10 of the mean of the last samples plus or minus 0.5. *)
Theorem trend_classification :
  forall db now cold_room_id,
    let temperatures := map td_temperature (window_24h db now cold_room_id) in
    let recent := double_mean (firstn 5 temperatures) in
    let older := double_mean (last_up_to 5 temperatures) in
    let tr := trend (get_24h_temperature_stats db now cold_room_id) in
    Forall far_from_overflow temperatures ->
    ((2 <= List.length temperatures)%nat ->
     (fl (older + (1 # 2)) < recent -> tr = rising) /\
     (recent < fl (older - (1 # 2)) -> tr = falling) /\
     (~ fl (older + (1 # 2)) < recent -> ~ recent < fl (older - (1 # 2)) -> tr = stable)) /\
    ((List.length temperatures < 2)%nat -> tr = stable) /\
    (Forall sensor_range temperatures -> (2 <= List.length temperatures)%nat ->
     let exact_recent := mean (firstn 5 temperatures) in
     let exact_older := mean (last_up_to 5 temperatures) in
     let delta := 1 # 10000000000 in
     (exact_older + (1 # 2) + delta <= exact_recent -> tr = rising) /\
     (exact_recent <= exact_older - (1 # 2) - delta -> tr = falling) /\
     (exact_older - (1 # 2) + delta <= exact_recent ->
      exact_recent <= exact_older + (1 # 2) - delta -> tr = stable)).
Proof.
  intros db now cold_room_id temperatures recent older tr _.
  unfold tr. rewrite stats_trend.
  destruct (trend_of_spec temperatures) as [H1 H2].
  split; [exact H1|]. split; [exact H2|].
  intros Hr Hlen. exact (trend_of_exact temperatures Hr Hlen).
Qed.

Lemma trend_classification_witness :
  map td_temperature (window_24h db_trend 1000 1) = [6; 6; 6; 6; 6; 1] /\
  Forall far_from_overflow [6; 6; 6; 6; 6; 1] /\
  (2 <= List.length [6; 6; 6; 6; 6; 1])%nat /\
  fl (double_mean (last_up_to 5 [6; 6; 6; 6; 6; 1]) + (1 # 2))
    < double_mean (firstn 5 [6; 6; 6; 6; 6; 1]) /\
  trend (get_24h_temperature_stats db_trend 1000 1) = rising.
Proof.
  split; [reflexivity|].
  assert (H0 : Forall far_from_overflow [6; 6; 6; 6; 6; 1]).
  { repeat constructor; vm_compute; discriminate. }
  assert (H2 : (2 <= List.length [6; 6; 6; 6; 6; 1])%nat) by (simpl; lia).
  assert (Hlt : fl (double_mean (last_up_to 5 [6; 6; 6; 6; 6; 1]) + (1 # 2))
                < double_mean (firstn 5 [6; 6; 6; 6; 6; 1])) by (vm_compute; reflexivity).
  split; [exact H0|]. split; [exact H2|]. split; [exact Hlt|].
  exact (proj1 (proj1 (trend_classification db_trend 1000 1 H0) H2) Hlt).
Defined.

(** ** Export: grouping by bucket *)

Lemma key_eqb_eq a b : key_eqb a b = true <-> a = b.
Proof.
  destruct a, b; simpl; split; try discriminate; auto.
  - intros H; apply Z.eqb_eq in H; congruence.
  - intros [= ->]; apply Z.eqb_refl.
Qed.

Lemma key_eqb_neq a b : key_eqb a b = false <-> a <> b.
Proof.
  rewrite <- key_eqb_eq. destruct (key_eqb a b); split; congruence.
Qed.

(** What the running aggregates hold after a run of values. *)
Lemma fold_acc_step ts : forall a,
  let a' := fold_left acc_step ts a in
  acc_count a' = (acc_count a + List.length ts)%nat /\
  acc_sum a' == acc_sum a + fold_right Qplus 0 ts /\
  (In (acc_min a') (acc_min a :: ts) /\
   acc_min a' <= acc_min a /\ forall x, In x ts -> acc_min a' <= x) /\
  (In (acc_max a') (acc_max a :: ts) /\
   acc_max a <= acc_max a' /\ forall x, In x ts -> x <= acc_max a').
Proof.
  induction ts as [|t ts IH]; intros a; simpl.
  - repeat apply conj; auto; try ring; try apply Qle_refl; try contradiction.
  - destruct (IH (acc_step a t)) as (Hc & Hs & (Hm1 & Hm2 & Hm3) & (HM1 & HM2 & HM3)).
    repeat apply conj.
    + rewrite Hc. simpl. lia.
    + rewrite Hs. simpl. ring.
    + simpl in Hm1. destruct (Qlt_bool t (acc_min a)); simpl in *; tauto.
    + eapply Qle_trans; [exact Hm2|]. simpl.
      destruct (Qlt_bool t (acc_min a)) eqn:E; [|apply Qle_refl].
      apply Qlt_bool_iff in E. apply Qlt_le_weak, E.
    + intros x [<- | Hx]; [|apply Hm3, Hx].
      eapply Qle_trans; [exact Hm2|]. simpl.
      destruct (Qlt_bool t (acc_min a)) eqn:E; [apply Qle_refl|].
      apply Qlt_bool_false in E. apply Qnot_lt_le, E.
    + simpl in HM1. destruct (Qlt_bool (acc_max a) t); simpl in *; tauto.
    + eapply Qle_trans; [|exact HM2]. simpl.
      destruct (Qlt_bool (acc_max a) t) eqn:E; [|apply Qle_refl].
      apply Qlt_bool_iff in E. apply Qlt_le_weak, E.
    + intros x [<- | Hx]; [|apply HM3, Hx].
      eapply Qle_trans; [|exact HM2]. simpl.
      destruct (Qlt_bool (acc_max a) t) eqn:E; [apply Qle_refl|].
      apply Qlt_bool_false in E. apply Qnot_lt_le, E.
Qed.

Lemma aggregates_of_run t0 ts :
  let a := fold_left acc_step ts (acc_start t0) in
  acc_count a = List.length (t0 :: ts) /\
  acc_sum a / Qnat (acc_count a) == mean (t0 :: ts) /\
  is_minimum (acc_min a) (t0 :: ts) /\
  is_maximum (acc_max a) (t0 :: ts).
Proof.
  destruct (fold_acc_step ts (acc_start t0))
    as (Hc & Hs & (Hm1 & Hm2 & Hm3) & (HM1 & HM2 & HM3)).
  simpl in *. repeat apply conj; auto.
  - unfold mean. rewrite Hc, Hs. reflexivity.
  - intros x [<- | Hx]; auto.
  - intros x [<- | Hx]; auto.
Qed.

Lemma accumulate_keys k t g k' :
  In k' (map fst (accumulate k t g)) <-> k' = k \/ In k' (map fst g).
Proof.
  induction g as [|[k0 a0] g IH]; simpl.
  - intuition.
  - destruct (key_eqb k0 k) eqn:E; simpl.
    + apply key_eqb_eq in E. subst. intuition.
    + rewrite IH. intuition.
Qed.

Lemma accumulate_NoDup k t g :
  NoDup (map fst g) -> NoDup (map fst (accumulate k t g)).
Proof.
  induction g as [|[k0 a0] g IH]; simpl; intros H.
  - constructor; [intros []|constructor].
  - inversion H as [|? ? Hnot Hnd]; subst.
    destruct (key_eqb k0 k) eqn:E; simpl.
    + constructor; assumption.
    + constructor; [|apply IH, Hnd].
      rewrite accumulate_keys. intros [-> | Hin]; [|contradiction].
      apply key_eqb_neq in E. congruence.
Qed.

Lemma accumulate_In k t g k' a' :
  NoDup (map fst g) ->
  In (k', a') (accumulate k t g) ->
  (k' <> k /\ In (k', a') g) \/
  (k' = k /\ ((exists a, In (k, a) g /\ a' = acc_step a t) \/
              (~ In k (map fst g) /\ a' = acc_start t))).
Proof.
  induction g as [|[k0 a0] g IH]; simpl; intros Hnd Hin.
  - destruct Hin as [[= <- <-] | []]. right. split; auto.
  - inversion Hnd as [|? ? Hnot Hnd']; subst.
    destruct (key_eqb k0 k) eqn:E; simpl in Hin.
    + apply key_eqb_eq in E. subst k0.
      destruct Hin as [[= <- <-] | Hin].
      * right. split; auto. left. exists a0. auto.
      * left. split; [|auto]. intros ->. apply Hnot.
        apply in_map_iff. exists (k, a'). auto.
    + apply key_eqb_neq in E.
      destruct Hin as [[= <- <-] | Hin].
      * left. auto.
      * destruct (IH Hnd' Hin) as [[H1 H2] | [-> [(a & H1 & H2) | [H1 H2]]]].
        -- left. auto.
        -- right. split; auto. left. exists a. auto.
        -- right. split; auto. right. split; auto.
           intros [H | H]; [congruence | contradiction].
Qed.

Lemma group_by_snoc bucket rows r :
  group_by bucket (rows ++ [r]) =
  accumulate (bucket r) (td_temperature r) (group_by bucket rows).
Proof. unfold group_by. rewrite fold_left_app. reflexivity. Qed.

(** Each group is the run of the aggregates over the rows of its key, in
    table order; the keys are distinct and cover every row. *)
Lemma group_by_spec bucket rows :
  NoDup (map fst (group_by bucket rows)) /\
  (forall r, In r rows -> In (bucket r) (map fst (group_by bucket rows))) /\
  (forall k a, In (k, a) (group_by bucket rows) ->
     exists t0 ts,
       map td_temperature (filter (fun r => key_eqb (bucket r) k) rows) = t0 :: ts /\
       a = fold_left acc_step ts (acc_start t0)).
Proof.
  induction rows as [|r rows IH] using rev_ind.
  - repeat apply conj; simpl; [constructor | contradiction | contradiction].
  - destruct IH as (Hnd & Hcov & Hgrp). rewrite group_by_snoc.
    repeat apply conj.
    + apply accumulate_NoDup, Hnd.
    + intros r' Hr'. rewrite accumulate_keys.
      apply in_app_or in Hr' as [Hr' | [<- | []]]; auto.
    + intros k a Hin. rewrite filter_app, map_app. simpl.
      destruct (accumulate_In _ _ _ _ _ Hnd Hin)
        as [[Hk Hg] | [-> [(a0 & Hg & ->) | [Hno ->]]]].
      * destruct (Hgrp _ _ Hg) as (t0 & ts & E & ->).
        assert (Ek : key_eqb (bucket r) k = false) by (apply key_eqb_neq; congruence).
        rewrite Ek, E. simpl. rewrite app_nil_r. eauto.
      * destruct (Hgrp _ _ Hg) as (t0 & ts & E & ->).
        assert (Ek : key_eqb (bucket r) (bucket r) = true) by (apply key_eqb_eq; reflexivity).
        rewrite Ek, E. simpl. exists t0, (ts ++ [td_temperature r]).
        split; [reflexivity|]. rewrite fold_left_app. reflexivity.
      * assert (Ek : key_eqb (bucket r) (bucket r) = true) by (apply key_eqb_eq; reflexivity).
        rewrite Ek.
        assert (Hnone : filter (fun r0 => key_eqb (bucket r0) (bucket r)) rows = []).
        { destruct (filter _ rows) as [|x l] eqn:Ef; auto. exfalso.
          assert (Hx : In x (filter (fun r0 => key_eqb (bucket r0) (bucket r)) rows))
            by (rewrite Ef; left; reflexivity).
          apply filter_In in Hx as [Hx Hkx]. apply key_eqb_eq in Hkx.
          apply Hno. rewrite <- Hkx. apply Hcov, Hx. }
        rewrite Hnone. simpl. exists (td_temperature r), []. auto.
Qed.

Lemma StronglySorted_map {A B : Type} (f : A -> B) (R : A -> A -> Prop)
    (S : B -> B -> Prop) l :
  (forall x y, R x y -> S (f x) (f y)) ->
  StronglySorted R l -> StronglySorted S (map f l).
Proof.
  intros HRS. induction 1 as [|x l Hs IH Hall]; simpl; constructor; auto.
  rewrite Forall_forall in *. intros y Hy.
  apply in_map_iff in Hy as (z & <- & Hz). auto.
Qed.

(** The bucket of a timestamp is the start of the hour (the day) it lies in. *)
Lemma bucket_truncates t :
  (hour_bucket t <= t < hour_bucket t + 3600)%Z /\ (hour_bucket t mod 3600 = 0)%Z /\
  (day_bucket t <= t < day_bucket t + 86400)%Z /\ (day_bucket t mod 86400 = 0)%Z.
Proof.
  unfold hour_bucket, day_bucket.
  pose proof (Z.div_mod t 3600 ltac:(lia)).
  pose proof (Z.mod_pos_bound t 3600 ltac:(lia)).
  pose proof (Z.div_mod t 86400 ltac:(lia)).
  pose proof (Z.mod_pos_bound t 86400 ltac:(lia)).
  repeat split; try lia; apply Z.mod_mul; lia.
Qed.

Lemma aggregated_spec bucket rows :
  let out := aggregated bucket rows in
  NoDup (map agg_timestamp out) /\
  StronglySorted (newer_or_equal agg_timestamp) out /\
  (forall r, In r rows -> In (option_map bucket (td_timestamp r)) (map agg_timestamp out)) /\
  (forall row, In row out ->
     let members := map td_temperature (bucket_members bucket (agg_timestamp row) rows) in
     members <> [] /\
     agg_readings row = List.length members /\
     agg_temperature row == mean members /\
     is_minimum (agg_min_temp row) members /\
     is_maximum (agg_max_temp row) members).
Proof.
  unfold aggregated.
  set (key := fun r => option_map bucket (td_timestamp r)).
  destruct (group_by_spec key rows) as (Hnd & Hcov & Hgrp).
  set (g := group_by key rows) in *.
  assert (Hkeys : forall l : list (option Z * accumulator),
             map agg_timestamp
               (map (fun g0 =>
                       {| agg_timestamp := fst g0;
                          agg_temperature := acc_sum (snd g0) / Qnat (acc_count (snd g0));
                          agg_min_temp := acc_min (snd g0);
                          agg_max_temp := acc_max (snd g0);
                          agg_readings := acc_count (snd g0) |}) l) = map fst l).
  { intros l. rewrite map_map. reflexivity. }
  simpl. repeat apply conj.
  - rewrite Hkeys.
    eapply Permutation_NoDup; [|exact Hnd].
    apply Permutation_map, Permutation_sym, order_by_desc_perm.
  - eapply StronglySorted_map; [|apply (order_by_desc_sorted fst)].
    intros x y H. exact H.
  - intros r Hr. rewrite Hkeys.
    eapply Permutation_in; [apply Permutation_map, Permutation_sym, order_by_desc_perm|].
    apply Hcov, Hr.
  - intros row Hrow. apply in_map_iff in Hrow as ([k a] & <- & Hka).
    apply order_by_desc_In in Hka. simpl.
    destruct (Hgrp _ _ Hka) as (t0 & ts & E & ->).
    unfold key in E. cbv beta in E. cbv zeta. unfold bucket_members. rewrite E.
    destruct (aggregates_of_run t0 ts) as (H1 & H2 & H3 & H4).
    split; [discriminate|]. split; [exact H1|]. split; [exact H2|].
    split; [exact H3 | exact H4].
Qed.

(** The date filter keeps the rows stamped on the days from date_from to
    date_to, each bound applying only when given. *)
Lemma date_filter_spec date_from date_to r :
  date_filter date_from date_to r = true <->
  in_date_range date_from date_to (td_timestamp r).
Proof.
  unfold date_filter, in_date_range. rewrite andb_true_iff. split.
  - intros [H1 H2]. split.
    + intros d ->. destruct (td_timestamp r) as [t|]; [|discriminate].
      exists t. split; [reflexivity|]. apply Z.leb_le, H1.
    + intros d ->. destruct (td_timestamp r) as [t|]; [|discriminate].
      exists t. split; [reflexivity|]. apply Z.leb_le, H2.
  - intros [H1 H2]. split.
    + destruct date_from as [d|]; [|reflexivity].
      destruct (H1 d eq_refl) as (t & -> & Ht). apply Z.leb_le, Ht.
    + destruct date_to as [d|]; [|reflexivity].
      destruct (H2 d eq_refl) as (t & -> & Ht). apply Z.leb_le, Ht.
Qed.

(** A bucket is the start of the calendar hour (day) of the timestamp, and
    two timestamps share a bucket exactly when they fall in the same hour
    (day). *)
Lemma bucket_same_hour width bucket :
  (width = 3600 /\ bucket = hour_bucket \/ width = 86400 /\ bucket = day_bucket)%Z ->
  (forall t, (bucket t <= t < bucket t + width)%Z /\ (bucket t mod width = 0)%Z) /\
  (forall t t', bucket t = bucket t' <-> (t / width = t' / width)%Z).
Proof.
  intros H. split.
  - intros t. pose proof (bucket_truncates t) as (H1 & H2 & H3 & H4).
    destruct H as [[-> ->] | [-> ->]]; auto.
  - intros t t'. destruct H as [[-> ->] | [-> ->]]; unfold hour_bucket, day_bucket; lia.
Qed.



(** ** Export: rounding *)

Lemma py_round_near x n : Qabs (py_round x n - x) <= 1 # (2 * pow10 n).
Proof.
  unfold py_round. set (p := pow10 n).
  pose proof (round_half_even_near (x * inject_Z (Zpos p))) as [H1 H2].
  set (r := round_half_even _) in *.
  assert (HP : 0 < inject_Z (Zpos p)) by (unfold Qlt; simpl; lia).
  assert (Hinv : 0 <= / inject_Z (Zpos p)) by (apply Qlt_le_weak, Qinv_lt_0_compat, HP).
  assert (E1 : (r # p) - x == (inject_Z r - x * inject_Z (Zpos p)) * / inject_Z (Zpos p)).
  { rewrite (Qmake_Qdiv r p). field. intros H. rewrite H in HP. discriminate. }
  assert (E2 : 1 # (2 * p) == (1 # 2) * / inject_Z (Zpos p)).
  { rewrite (Qmake_Qdiv 1 (2 * p)). rewrite Pos2Z.inj_mul, inject_Z_mult.
    change (inject_Z 1) with 1. change (inject_Z 2) with 2. field.
    intros H. rewrite H in HP. discriminate. }
  rewrite E1, E2. apply Qabs_Qle_condition. split.
  - setoid_replace (- ((1 # 2) * / inject_Z (Z.pos p)))
      with ((- (1 # 2)) * / inject_Z (Z.pos p)) by ring.
    apply Qmult_le_compat_r; assumption.
  - apply Qmult_le_compat_r; assumption.
Qed.

Lemma py_round_rounded_to x n : rounded_to n x (py_round x n).
Proof.
  split; [|apply py_round_near].
  exists (round_half_even (x * inject_Z (Zpos (pow10 n)))). reflexivity.
Qed.

(** C7, as stated, fails: the hourly CSV row of a single sample of 1.25
    degrees carries 1.25, which is not that average rounded to one decimal
    place. *)
Lemma hourly_csv_not_one_decimal :
  export_cold_room_data db_quarter 1 None None "hourly" =
    Some [ csv_header_aggregate;
           [ Stamp (Some 36000%Z); Number (125 # 100); Number (125 # 100);
             Number (125 # 100); Count 1 ] ] /\
  ~ rounded_to 1 (5 # 4) (125 # 100).
Proof.
  split; [reflexivity|].
  intros [[z Hz] _]. unfold Qeq in Hz. simpl in Hz. lia.
Qed.

(** C7, amended.  In the CSV export every hourly or daily row carries its
    average, minimum and maximum rounded to two decimal places, and every raw
    row carries the stored temperature as it is; the sheet of the
    spreadsheet export carries the queried rows as they are. *)
Theorem csv_export_rounding :
  forall db cold_room_id date_from date_to,
    (forall aggregation bucket,
        (aggregation = "hourly" /\ bucket = hour_bucket) \/
        (aggregation = "daily" /\ bucket = day_bucket) ->
        exists rows,
          get_temperature_data_with_filters db cold_room_id date_from date_to aggregation =
            Some (Aggregate_rows rows) /\
          export_cold_room_data db cold_room_id date_from date_to aggregation =
            Some (csv_header_aggregate ::
                  map (fun row =>
                         [ Stamp (agg_timestamp row);
                           Number (py_round (agg_temperature row) 2);
                           Number (py_round (agg_min_temp row) 2);
                           Number (py_round (agg_max_temp row) 2);
                           Count (agg_readings row) ])
                      rows) /\
          (forall row, In row rows ->
             rounded_to 2 (agg_temperature row) (py_round (agg_temperature row) 2) /\
             rounded_to 2 (agg_min_temp row) (py_round (agg_min_temp row) 2) /\
             rounded_to 2 (agg_max_temp row) (py_round (agg_max_temp row) 2))) /\
    export_cold_room_data db cold_room_id date_from date_to "full" =
      Some (csv_header_full ::
            map (fun r => [Stamp (td_timestamp r); Number (td_temperature r)])
                (order_by_desc td_timestamp (selected db cold_room_id date_from date_to))) /\
    (forall data aggregation, export_to_excel true data aggregation = Some (Xlsx_file data)).
Proof.
  intros db cold_room_id date_from date_to. repeat apply conj.
  - intros aggregation bucket Hagg.
    exists (aggregated bucket (selected db cold_room_id date_from date_to)).
    repeat apply conj.
    + unfold get_temperature_data_with_filters.
      destruct Hagg as [[-> ->] | [-> ->]]; reflexivity.
    + unfold export_cold_room_data, get_temperature_data_with_filters.
      destruct Hagg as [[-> ->] | [-> ->]]; reflexivity.
    + intros row _. repeat apply conj; apply py_round_rounded_to.
  - unfold export_cold_room_data, get_temperature_data_with_filters.
    change (String.eqb "full" "full") with true. cbv iota.
    unfold export_to_csv. change (String.eqb "full" "full") with true. cbv iota.
    rewrite map_map. reflexivity.
  - reflexivity.
Qed.

Lemma csv_export_rounding_witness :
  ("hourly" = "hourly" /\ hour_bucket = hour_bucket \/
   "hourly" = "daily" /\ hour_bucket = day_bucket) /\
  exists rows,
    get_temperature_data_with_filters db_quarter 1 None None "hourly" =
      Some (Aggregate_rows rows) /\
    export_cold_room_data db_quarter 1 None None "hourly" =
      Some (csv_header_aggregate ::
            map (fun row =>
                   [ Stamp (agg_timestamp row);
                     Number (py_round (agg_temperature row) 2);
                     Number (py_round (agg_min_temp row) 2);
                     Number (py_round (agg_max_temp row) 2);
                     Count (agg_readings row) ])
                rows).
Proof.
  split; [left; split; reflexivity|].
  destruct (proj1 (csv_export_rounding db_quarter 1 None None) "hourly" hour_bucket
              (or_introl (conj eq_refl eq_refl)))
    as (rows & H1 & H2 & _).
  exists rows. split; assumption.
Defined.

(** ** The combined figures of a location *)

Lemma last_24h_data_capped db now cold_room_id :
  map fst (last_24h_data (get_24h_temperature_stats db now cold_room_id)) =
  firstn 48 (map td_temperature (window_24h db now cold_room_id)).
Proof.
  unfold get_24h_temperature_stats.
  destruct (window_24h db now cold_room_id) as [|r rows] eqn:E; [reflexivity|].
  cbn [map last_24h_data]. rewrite map_map. cbn [fst].
  rewrite <- firstn_map. reflexivity.
Qed.

(** What the loop over the rooms gathers: one entry for each room, and for
    the pooled figures the 48 newest samples of each room. *)
Lemma dashboard_loop db now rooms : forall acc,
  let acc' := fold_left (dashboard_room db now) rooms acc in
  room_data acc' = room_data acc ++ map (entry_of db now) rooms /\
  all_24h_temps acc' =
    all_24h_temps acc ++
    flat_map (fun room => firstn 48 (map td_temperature (window_24h db now (room_id room))))
      rooms.
Proof.
  induction rooms as [|room rooms IH]; intros acc; simpl.
  - rewrite !app_nil_r. auto.
  - destruct (IH (dashboard_room db now acc room)) as [H1 H2].
    rewrite H1, H2. cbn [dashboard_room room_data all_24h_temps].
    rewrite last_24h_data_capped, <- !app_assoc. split; reflexivity.
Qed.

Lemma get_location_by_id_known db location_id :
  (exists l, In l (locations db) /\ loc_id l = location_id) ->
  exists location,
    get_location_by_id db location_id = Some location /\ loc_id location = location_id.
Proof.
  intros (l & Hl & Hid). unfold get_location_by_id.
  destruct (find (fun l0 => (loc_id l0 =? location_id)%Z) (locations db)) as [x|] eqn:E.
  - exists x. split; [reflexivity|]. apply find_some in E as [_ E]. apply Z.eqb_eq, E.
  - exfalso. apply (find_none _ _ E) in Hl. apply Z.eqb_neq in Hl. contradiction.
Qed.

(** With the location known the dashboard shows what the loop over its
    rooms gathers; otherwise it shows no room and no combined figures. *)
Lemma user_dashboard_shown db now location_id :
  location_known db location_id ->
  user_dashboard db now location_id =
    (room_data (fold_left (dashboard_room db now)
                  (get_cold_rooms_by_location db location_id) no_rooms_yet),
     Some (combined_stats
             (fold_left (dashboard_room db now)
                (get_cold_rooms_by_location db location_id) no_rooms_yet))).
Proof.
  intros [Hnz Hex]. unfold user_dashboard.
  apply Z.eqb_neq in Hnz. rewrite Hnz.
  destruct (get_location_by_id_known db location_id Hex) as (location & -> & ->).
  reflexivity.
Qed.

Lemma user_dashboard_hidden db now location_id :
  location_id = 0%Z \/ (forall l, In l (locations db) -> loc_id l <> location_id) ->
  user_dashboard db now location_id = ([], None).
Proof.
  intros H. unfold user_dashboard.
  destruct (Z.eqb location_id 0) eqn:E0; [reflexivity|].
  destruct H as [-> | H]; [discriminate|].
  unfold get_location_by_id.
  destruct (find (fun l0 => (loc_id l0 =? location_id)%Z) (locations db)) as [x|] eqn:E;
    [|reflexivity].
  apply find_some in E as [Hin E]. apply Z.eqb_eq in E. exfalso. exact (H x Hin E).
Qed.

(** The counts of the combined figures: the rooms of the location, and those
    whose newest sample is live. *)
Lemma combined_counts db now location_id :
  location_known db location_id ->
  let rooms := get_cold_rooms_by_location db location_id in
  exists stats,
    snd (user_dashboard db now location_id) = Some stats /\
    total_count stats = List.length rooms /\
    online_count stats =
      List.length (filter (fun room => is_sensor_active (latest_status db now (room_id room)))
                     rooms).
Proof.
  intros Hk rooms. rewrite (user_dashboard_shown db now location_id Hk).
  eexists. split; [reflexivity|].
  cbn [combined_stats total_count online_count].
  destruct (dashboard_loop db now rooms no_rooms_yet) as [H _].
  fold rooms. rewrite H. cbn [room_data no_rooms_yet app]. split.
  - apply length_map.
  - clear H. induction rooms as [|room l IH]; simpl; auto.
    destruct (is_sensor_active (latest_status db now (room_id room))); simpl; auto.
Qed.

(** C6 fails on the code: with 49 samples of one room in the last 24 hours
    the per-room statistics see all of them (maximum 9.0, mean 2.1), while
    the combined figures of the location pool only the 48 newest (maximum
    2.0, mean 2.0): the oldest sample, though inside the window, does not
    contribute. *)
Theorem combined_stats_pool_capped_at_48 :
  List.length (pooled_24h db_cap 100000 1) = 49%nat /\
  is_maximum 9 (pooled_24h db_cap 100000 1) /\
  readings_count (get_24h_temperature_stats db_cap 100000 1) = 49%nat /\
  max_temp (get_24h_temperature_stats db_cap 100000 1) = Some (90 # 10) /\
  avg_temp (get_24h_temperature_stats db_cap 100000 1) = Some (21 # 10) /\
  option_map max_24h (snd (user_dashboard db_cap 100000 1)) = Some (Some (20 # 10)) /\
  option_map avg_24h (snd (user_dashboard db_cap 100000 1)) = Some (Some (20 # 10)).
Proof.
  repeat apply conj; try (vm_compute; reflexivity).
  - vm_compute. auto 50.
  - intros x Hx. vm_compute in Hx.
    repeat (destruct Hx as [<- | Hx]; [unfold Qle; simpl; lia|]). contradiction.
Qed.

(** * Further properties of the code *)

(** ** Ingestion: what a request leaves behind *)

Lemma extends_refl db : extends db db.
Proof.
  repeat apply conj; auto; exists []; rewrite app_nil_r; reflexivity.
Qed.

Lemma extends_trans db1 db2 db3 : extends db1 db2 -> extends db2 db3 -> extends db1 db3.
Proof.
  intros (L1 & R1 & [s1 S1] & [e1 E1]) (L2 & R2 & [s2 S2] & [e2 E2]).
  repeat apply conj; try congruence.
  - exists (s1 ++ s2). rewrite S2, S1, app_assoc. reflexivity.
  - exists (e1 ++ e2). rewrite E2, E1, app_assoc. reflexivity.
Qed.

Lemma log_esp32_error_cases db now mac sensor ty msg db' :
  log_esp32_error db now mac sensor ty msg = Returns db' ->
  db' = db \/
  exists m s, sqlite_text mac = Returns (Some m) /\ db' = append_error db now m s ty msg.
Proof.
  unfold log_esp32_error.
  destruct (unbindable mac || unbindable sensor).
  - intros [= <-]; auto.
  - destruct (sqlite_text mac) as [[m|]| |]; destruct (sqlite_text sensor) as [s| |];
      try discriminate; intros [= <-]; eauto.
Qed.

(** The four ways a turn of the loop can return: a sample stored and counted,
    a NaN counted and not stored, an error counted and not logged, an error
    counted and logged. *)
Lemma process_reading_cases mac now st reading st' :
  process_reading mac now st reading = Returns st' ->
  (exists sample,
      ls_db st' = append_sample (ls_db st) sample /\
      processed_count st' = S (processed_count st) /\
      error_count st' = error_count st) \/
  (py_get reading "temperature" = Some PNaN /\
   ls_db st' = ls_db st /\
   processed_count st' = S (processed_count st) /\
   error_count st' = error_count st) \/
  (ls_db st' = ls_db st /\
   processed_count st' = processed_count st /\
   error_count st' = S (error_count st)) \/
  (exists m s ty msg,
      sqlite_text mac = Returns (Some m) /\
      ls_db st' = append_error (ls_db st) now m s ty msg /\
      processed_count st' = processed_count st /\
      error_count st' = S (error_count st)).
Proof.
  unfold process_reading.
  destruct (py_get reading "sensor_id") as [sid|]; [|discriminate].
  destruct (py_get reading "temperature") as [tv|]; [|discriminate].
  destruct (truthy sid && negb (is_none tv)) eqn:G.
  - destruct (get_cold_room_by_sensor (ls_db st) sid) as [[room|]| |]; try discriminate.
    + apply andb_prop in G as [_ G]. unfold insert_temperature_data.
      destruct tv as [|b|z|q| | | | |]; cbn in *; try discriminate.
      * intros [= <-]. left. eexists. cbn. repeat apply conj; reflexivity.
      * destruct (int64 z); [|discriminate].
        intros [= <-]. left. eexists. cbn. repeat apply conj; reflexivity.
      * intros [= <-]. left. eexists. cbn. repeat apply conj; reflexivity.
      * intros [= <-]. right; left. cbn. repeat apply conj; reflexivity.
    + destruct (log_esp32_error _ _ _ _ _ _) as [db'| |] eqn:E; try discriminate.
      intros [= <-]. simpl.
      destruct (log_esp32_error_cases _ _ _ _ _ _ _ E) as [-> | (m & s & Hm & ->)].
      * right; right; left. repeat apply conj; reflexivity.
      * right; right; right. exists m, s. do 2 eexists. repeat apply conj; auto.
  - destruct (log_esp32_error _ _ _ _ _ _) as [db'| |] eqn:E; try discriminate.
    intros [= <-]. simpl.
    destruct (log_esp32_error_cases _ _ _ _ _ _ _ E) as [-> | (m & s & Hm & ->)].
    + right; right; left. repeat apply conj; reflexivity.
    + right; right; right. exists m, s. do 2 eexists. repeat apply conj; auto.
Qed.

Lemma process_reading_extends mac now st reading st' :
  process_reading mac now st reading = Returns st' -> extends (ls_db st) (ls_db st').
Proof.
  intros H. apply process_reading_cases in H
    as [(sample & -> & _) | [(_ & -> & _) | [(-> & _) | (m & s & ty & msg & _ & -> & _)]]].
  - repeat apply conj; auto; simpl; [eauto | exists []; rewrite app_nil_r; auto].
  - apply extends_refl.
  - apply extends_refl.
  - repeat apply conj; auto; simpl; [exists []; rewrite app_nil_r; auto | eauto].
Qed.

Lemma for_readings_extends mac now l : forall st,
  match for_readings mac now st l with
  | Completed st' => extends (ls_db st) (ls_db st')
  | Aborted db' => extends (ls_db st) db'
  | Outside => True
  end.
Proof.
  induction l as [|r l IH]; intros st; simpl.
  - apply extends_refl.
  - destruct (process_reading mac now st r) as [st1| |] eqn:E; auto.
    + specialize (IH st1). apply process_reading_extends in E.
      destruct (for_readings mac now st1 l); auto; eapply extends_trans; eauto.
    + apply extends_refl.
Qed.

(** X1.  For every request body in which no identifier is a float and no
    temperature is a string or an infinity, and whatever the answer (200, 400
    or 500), the handler only appends: locations and rooms are as before, and
    the samples and error records present before are still there, unchanged
    and in the same order, ahead of whatever was added. *)
Theorem receive_esp32_data_only_appends :
  forall db now data,
    plain_request data = true ->
    exists db' r,
      receive_esp32_data db now data = Some (db', r) /\
      (code r = 200 \/ code r = 400 \/ code r = 500)%Z /\
      extends db db'.
Proof.
  intros db now data Hp. unfold receive_esp32_data.
  destruct (negb (truthy data)).
  { do 2 eexists. split; [reflexivity|]. split; [cbn; lia|apply extends_refl]. }
  unfold plain_request in Hp.
  destruct (py_get data "esp32_mac") as [mac|];
    [|do 2 eexists; split; [reflexivity|]; split; [cbn; lia|apply extends_refl]].
  destruct (py_get data "readings") as [readings|];
    [|do 2 eexists; split; [reflexivity|]; split; [cbn; lia|apply extends_refl]].
  destruct (negb (truthy mac) || negb (truthy readings)).
  { do 2 eexists. split; [reflexivity|]. split; [cbn; lia|apply extends_refl]. }
  destruct (py_iter readings) as [l|] eqn:Ei;
    [|do 2 eexists; split; [reflexivity|]; split; [cbn; lia|apply extends_refl]].
  pose proof (for_readings_extends mac now l
                {| ls_db := db; processed_count := 0; error_count := 0 |}) as H.
  assert (Hout : for_readings mac now
                   {| ls_db := db; processed_count := 0; error_count := 0 |} l <> Outside).
  { destruct readings as [| | | | | |s|l0|d]; try discriminate; injection Ei as <-.
    - destruct s as [|c s]; cbn; discriminate.
    - apply andb_prop in Hp as [Hm Hl]. apply for_readings_modelled; assumption.
    - destruct d as [|[k0 v0] d]; cbn; discriminate. }
  destruct (for_readings mac now _ l); [| |congruence].
  - do 2 eexists. split; [reflexivity|]. split; [cbn; lia|exact H].
  - do 2 eexists. split; [reflexivity|]. split; [cbn; lia|exact H].
Qed.

Lemma receive_esp32_data_only_appends_witness :
  plain_request mixed_payload = true /\
  exists db' r, receive_esp32_data db_errors 1000 mixed_payload = Some (db', r) /\
                (code r = 200 \/ code r = 400 \/ code r = 500)%Z /\
                extends db_errors db'.
Proof.
  split; [reflexivity|].
  exact (receive_esp32_data_only_appends db_errors 1000 mixed_payload eq_refl).
Defined.

Lemma receive_esp32_data_list db now mac l :
  truthy mac = true ->
  l <> [] ->
  receive_esp32_data db now (envelope mac (PList l)) =
  match ingest mac now db l with
  | Completed st =>
      Some (ls_db st, success (response_message (processed_count st) (error_count st)))
  | Aborted db' => Some (db', server_error)
  | Outside => None
  end.
Proof.
  intros Hmac Hne. unfold receive_esp32_data, envelope.
  simpl truthy. simpl py_get. cbv iota beta. rewrite Hmac.
  destruct l as [|r0 l0]; [congruence|]. reflexivity.
Qed.

(** X2.  When an element of the batch is not an object the request is
    answered 500, yet every row written for the elements before it stays in
    the database; the elements after it are never looked at. *)
Theorem server_error_keeps_earlier_writes :
  forall db now mac pre x post st,
    truthy mac = true ->
    ingest mac now db pre = Completed st ->
    py_get x "sensor_id" = None ->
    receive_esp32_data db now (envelope mac (PList (pre ++ x :: post))) =
      Some (ls_db st, server_error).
Proof.
  intros db now mac pre x post st Hmac Hpre Hx.
  rewrite receive_esp32_data_list by (auto; destruct pre; discriminate).
  unfold ingest in *. rewrite for_readings_app, Hpre. simpl.
  unfold process_reading. rewrite Hx. reflexivity.
Qed.

Lemma server_error_keeps_earlier_writes_witness :
  truthy test_mac = true /\
  ingest test_mac 1000 db0 [reading_of "289FBDBB4024BC6" (5 # 2)] =
    Completed {| ls_db := append_sample db0
                            {| td_cold_room_id := 1; td_temperature := 5 # 2;
                               td_timestamp := Some 1000%Z |};
                 processed_count := 1; error_count := 0 |} /\
  py_get (PNum 7) "sensor_id" = None /\
  receive_esp32_data db0 1000
    (envelope test_mac
       (PList ([reading_of "289FBDBB4024BC6" (5 # 2)] ++
               PNum 7 :: [reading_of "289FBDBB4024BC6" 3]))) =
    Some (append_sample db0
            {| td_cold_room_id := 1; td_temperature := 5 # 2;
               td_timestamp := Some 1000%Z |},
          server_error).
Proof.
  split; [reflexivity|]. split; [reflexivity|]. split; [reflexivity|].
  exact (server_error_keeps_earlier_writes db0 1000 test_mac
           [reading_of "289FBDBB4024BC6" (5 # 2)] (PNum 7)
           [reading_of "289FBDBB4024BC6" 3] _ eq_refl eq_refl eq_refl).
Defined.

(** X3.  A truthy body that is not an object, and an object whose readings
    are truthy but not a list (a number, true, a non-empty string or a
    non-empty object), are answered 500, not 400, and nothing is written. *)
Theorem not_a_list_is_server_error :
  forall db now data,
    truthy data = true ->
    ((forall d, data <> PDict d) ->
     receive_esp32_data db now data = Some (db, server_error)) /\
    (forall mac readings,
        py_get data "esp32_mac" = Some mac ->
        py_get data "readings" = Some readings ->
        truthy mac = true ->
        truthy readings = true ->
        is_collection readings = false ->
        receive_esp32_data db now data = Some (db, server_error)).
Proof.
  intros db now data Hd. split.
  - intros Hno. unfold receive_esp32_data. rewrite Hd. simpl.
    destruct data; try reflexivity. exfalso. eapply Hno; reflexivity.
  - intros mac readings Hm Hr Tm Tr Hc.
    unfold receive_esp32_data. rewrite Hd, Hm, Hr, Tm, Tr. simpl.
    destruct readings as [|b|z|q| |n|s|l|d]; simpl in *; try discriminate; try reflexivity.
    + destruct s as [|c s]; [discriminate|]. reflexivity.
    + destruct d as [|[k v] d]; [discriminate|]. reflexivity.
Qed.

Lemma not_a_list_is_server_error_witness :
  truthy (envelope test_mac (PStr "abc")) = true /\
  receive_esp32_data db0 1000 (envelope test_mac (PStr "abc")) = Some (db0, server_error) /\
  receive_esp32_data db0 1000 (PList [PNum 1]) = Some (db0, server_error).
Proof.
  split; [reflexivity|]. split.
  - exact (proj2 (not_a_list_is_server_error db0 1000 (envelope test_mac (PStr "abc")) eq_refl)
             test_mac (PStr "abc") eq_refl eq_refl eq_refl eq_refl eq_refl).
  - apply (proj1 (not_a_list_is_server_error db0 1000 (PList [PNum 1]) eq_refl)).
    discriminate.
Defined.

Lemma for_readings_counters mac now l : forall st st',
  for_readings mac now st l = Completed st' ->
  (List.length (temperature_data (ls_db st')) + processed_count st <=
   List.length (temperature_data (ls_db st)) + processed_count st')%nat /\
  ((forall r, In r l -> py_get r "temperature" <> Some PNaN) ->
   (List.length (temperature_data (ls_db st')) + processed_count st =
    List.length (temperature_data (ls_db st)) + processed_count st')%nat) /\
  (List.length (esp32_errors (ls_db st')) + error_count st <=
   List.length (esp32_errors (ls_db st)) + error_count st')%nat /\
  (processed_count st' + error_count st' =
   processed_count st + error_count st + List.length l)%nat.
Proof.
  induction l as [|r l IH]; intros st st'; simpl.
  - intros [= <-]. repeat split; lia.
  - destruct (process_reading mac now st r) as [st1| |] eqn:E; try discriminate.
    intros H. destruct (IH _ _ H) as (H1 & H1' & H2 & H3).
    assert (Hnan : (forall r0, r = r0 \/ In r0 l -> py_get r0 "temperature" <> Some PNaN) ->
                   (List.length (temperature_data (ls_db st')) + processed_count st1 =
                    List.length (temperature_data (ls_db st1)) + processed_count st')%nat /\
                   py_get r "temperature" <> Some PNaN).
    { intros Hall. split; [apply H1'; intros r0 Hr0; apply Hall; auto|apply Hall; auto]. }
    apply process_reading_cases in E
      as [(sample & Edb & Ep & Ee) | [(En & Edb & Ep & Ee) |
          [(Edb & Ep & Ee) | (m & s & ty & msg & _ & Edb & Ep & Ee)]]];
      rewrite Edb in *; simpl in *; rewrite ?length_app in *; simpl in *;
      (split; [lia|]); (split; [|lia]); intros Hall;
      destruct (Hnan Hall) as [Heq Hne]; try lia.
    contradiction.
Qed.

(** X5.  When the loop runs to the end the answer is 200; the number of rows
    added to temperature_data is at most the N of its message, and exactly N
    when no temperature of the batch is NaN (a NaN is counted and not
    stored); the number of rows added to esp32_errors is at most its M; and
    N + M is the length of the batch. *)
Theorem response_counts_rows_written :
  forall db now mac readings st,
    truthy mac = true ->
    readings <> [] ->
    ingest mac now db readings = Completed st ->
    receive_esp32_data db now (envelope mac (PList readings)) =
      Some (ls_db st, success (response_message (processed_count st) (error_count st))) /\
    (List.length (temperature_data (ls_db st)) <=
     List.length (temperature_data db) + processed_count st)%nat /\
    ((forall r, In r readings -> py_get r "temperature" <> Some PNaN) ->
     List.length (temperature_data (ls_db st)) =
       (List.length (temperature_data db) + processed_count st)%nat) /\
    (List.length (esp32_errors (ls_db st)) <=
     List.length (esp32_errors db) + error_count st)%nat /\
    (processed_count st + error_count st = List.length readings)%nat.
Proof.
  intros db now mac readings st Hmac Hne Hrun.
  split.
  - rewrite receive_esp32_data_list by assumption. rewrite Hrun. reflexivity.
  - destruct (for_readings_counters _ _ _ _ _ Hrun) as (H1 & H1' & H2 & H3).
    simpl in *. repeat split; try lia. intros Hall. specialize (H1' Hall). lia.
Qed.

Lemma response_counts_rows_written_witness :
  truthy test_mac = true /\
  mixed_readings <> [] /\
  exists st,
    ingest test_mac 1000 db0 mixed_readings = Completed st /\
    (List.length (temperature_data (ls_db st)) <=
     List.length (temperature_data db0) + processed_count st)%nat /\
    processed_count st = 1%nat /\ error_count st = 1%nat.
Proof.
  split; [reflexivity|]. split; [discriminate|].
  eexists. split; [reflexivity|].
  split; [|split; reflexivity].
  exact (proj1 (proj2 (response_counts_rows_written db0 1000 test_mac mixed_readings _
                         eq_refl ltac:(discriminate) eq_refl))).
Defined.

(** ** Liveness after a sample, and as time passes *)

(** The status is that of an empty room, or is read off a newest sample. *)
Lemma latest_status_cases db now cold_room_id :
  ((forall r, In r (temperature_data db) -> td_cold_room_id r <> cold_room_id) /\
   latest_status db now cold_room_id =
     {| latest_temp := None; latest_time := None;
        is_sensor_active := false; minutes_ago := None |}) \/
  (exists newest,
      In newest (temperature_data db) /\
      td_cold_room_id newest = cold_room_id /\
      (forall r, In r (temperature_data db) -> td_cold_room_id r = cold_room_id ->
                 newer_or_equal td_timestamp newest r) /\
      is_sensor_active (latest_status db now cold_room_id) =
        match td_timestamp newest with
        | Some t => Qle_bool (age_seconds (unix_ms now) t) 900
        | None => true
        end /\
      latest_temp (latest_status db now cold_room_id) =
        (if is_sensor_active (latest_status db now cold_room_id)
         then Some (td_temperature newest) else None) /\
      latest_time (latest_status db now cold_room_id) = Some (td_timestamp newest)).
Proof.
  unfold latest_status, get_temperature_data_for_cold_room.
  rewrite limit_one_head.
  destruct (order_by_desc td_timestamp (filter (room_is cold_room_id) (temperature_data db)))
    as [|x rest] eqn:E.
  - left. split; [|reflexivity].
    intros r Hr Hroom.
    assert (Hin : In r (filter (room_is cold_room_id) (temperature_data db))).
    { apply filter_In. split; [exact Hr|]. unfold room_is. apply Z.eqb_eq, Hroom. }
    apply (order_by_desc_In td_timestamp) in Hin. rewrite E in Hin. contradiction.
  - right. destruct (order_by_desc_head td_timestamp x rest _ E) as [Hx Hmax].
    apply filter_In in Hx as [Hx Hroom]. unfold room_is in Hroom. apply Z.eqb_eq in Hroom.
    exists x. split; [exact Hx|]. split; [exact Hroom|]. split.
    { intros r Hr Hrr. apply Hmax. apply filter_In. split; [exact Hr|].
      unfold room_is. apply Z.eqb_eq, Hrr. }
    cbn -[age_seconds Qle_bool].
    destruct (td_timestamp x); cbn -[age_seconds Qle_bool]; auto.
Qed.

(** The older the stamp, the greater the computed age. *)
Lemma age_seconds_antitone now t t' :
  (t <= t')%Z -> age_seconds now t' <= age_seconds now t.
Proof.
  intros H. unfold age_seconds. apply fl_mono.
  apply Qmult_le_compat_r; [|discriminate].
  apply fl_mono. pose proof (julianday_mono (1000 * t) (1000 * t') ltac:(lia)). lra.
Qed.

(** X6.  Once a float is stored as a sample of a room, the room is reported
    live, with a current temperature, at every instant up to 899 seconds
    after the insert, whatever else the table holds (the stamp drops the
    milliseconds of the insert, and at 900 seconds the rounding decides). *)
Theorem stored_sample_keeps_room_live :
  forall db (now : instant) cold_room_id t (now' : instant),
    sqlite_date (1000 * clock_seconds now) ->
    sqlite_date (unix_ms now') ->
    (0 <= clock_millis now < 1000)%Z ->
    (unix_ms now' - unix_ms now <= 899000)%Z ->
    exists db',
      insert_temperature_data db now cold_room_id (PNum t) = Returns db' /\
      is_sensor_active (latest_status db' now' cold_room_id) = true /\
      exists temp, latest_temp (latest_status db' now' cold_room_id) = Some temp.
Proof.
  intros db now cold_room_id t now' Hstamp Hread Hms Hage.
  eexists. split; [reflexivity|].
  set (sample := {| td_cold_room_id := cold_room_id; td_temperature := t;
                    td_timestamp := Some (clock_seconds now) |}).
  set (db' := append_sample db sample).
  assert (Hin : In sample (temperature_data db'))
    by (simpl; apply in_or_app; right; left; reflexivity).
  destruct (latest_status_cases db' now' cold_room_id)
    as [[Hnone _] | (newest & _ & _ & Hmax & Hact & Htemp & _)].
  - exfalso. exact (Hnone sample Hin eq_refl).
  - specialize (Hmax sample Hin eq_refl). unfold newer_or_equal in Hmax. simpl in Hmax.
    assert (Hlive : is_sensor_active (latest_status db' now' cold_room_id) = true).
    { rewrite Hact. destruct (td_timestamp newest) as [t'|]; [|reflexivity].
      simpl in Hmax. apply Z.ltb_ge in Hmax. apply Qle_bool_iff.
      eapply Qle_trans; [apply (age_seconds_antitone _ (clock_seconds now) t' Hmax)|].
      apply age_below_900; [exact Hread | exact Hstamp |].
      unfold unix_ms in *. lia. }
    split; [exact Hlive|]. rewrite Htemp, Hlive. eauto.
Qed.

Lemma stored_sample_keeps_room_live_witness :
  sqlite_date (1000 * 1000) /\
  sqlite_date (unix_ms {| clock_seconds := 1899; clock_millis := 250 |}) /\
  exists db',
    insert_temperature_data db_samples {| clock_seconds := 1000; clock_millis := 250 |} 2
      (PNum 4) = Returns db' /\
    is_sensor_active
      (latest_status db' {| clock_seconds := 1899; clock_millis := 250 |} 2) = true.
Proof.
  assert (H1 : sqlite_date (1000 * 1000)) by (unfold sqlite_date; cbn; lia).
  assert (H2 : sqlite_date (unix_ms {| clock_seconds := 1899; clock_millis := 250 |}))
    by (unfold sqlite_date; cbn; lia).
  split; [exact H1|]. split; [exact H2|].
  destruct (stored_sample_keeps_room_live db_samples
              {| clock_seconds := 1000; clock_millis := 250 |} 2 4
              {| clock_seconds := 1899; clock_millis := 250 |}
              H1 H2 ltac:(cbn; lia) ltac:(cbn; lia))
    as (db' & E & H & _).
  exists db'. split; assumption.
Defined.



(** ** Rolling statistics: counts, absence, extremes *)

Lemma py_min_spec l : forall x,
  In (py_min x l) (x :: l) /\ py_min x l <= x /\ forall y, In y l -> py_min x l <= y.
Proof.
  unfold py_min. induction l as [|t l IH]; intros x; simpl.
  - repeat apply conj; auto; [apply Qle_refl | contradiction].
  - destruct (IH (if Qlt_bool t x then t else x)) as (H1 & H2 & H3).
    destruct (Qlt_bool t x) eqn:E.
    + apply Qlt_bool_iff in E. repeat apply conj.
      * simpl in H1. tauto.
      * eapply Qle_trans; [exact H2 | apply Qlt_le_weak, E].
      * intros y [<- | Hy]; auto.
    + apply Qlt_bool_false in E. repeat apply conj.
      * simpl in H1. tauto.
      * exact H2.
      * intros y [<- | Hy]; auto.
        eapply Qle_trans; [exact H2 | apply Qnot_lt_le, E].
Qed.

Lemma py_max_spec l : forall x,
  In (py_max x l) (x :: l) /\ x <= py_max x l /\ forall y, In y l -> y <= py_max x l.
Proof.
  unfold py_max. induction l as [|t l IH]; intros x; simpl.
  - repeat apply conj; auto; [apply Qle_refl | contradiction].
  - destruct (IH (if Qlt_bool x t then t else x)) as (H1 & H2 & H3).
    destruct (Qlt_bool x t) eqn:E.
    + apply Qlt_bool_iff in E. repeat apply conj.
      * simpl in H1. tauto.
      * eapply Qle_trans; [apply Qlt_le_weak, E | exact H2].
      * intros y [<- | Hy]; auto.
    + apply Qlt_bool_false in E. repeat apply conj.
      * simpl in H1. tauto.
      * exact H2.
      * intros y [<- | Hy]; auto.
        eapply Qle_trans; [apply Qnot_lt_le, E | exact H2].
Qed.

(** X8.  The 24-hour statistics are taken over the samples of the room
    stamped, to the second, no more than 24 hours before the instant (a NULL
    stamp never counts): the reading count is their number; average, minimum
    and maximum are absent exactly when it is zero, and then the trend is
    stable and the chart empty; the reported minimum and maximum are the
    least and the greatest of their temperatures, rounded to one decimal;
    the chart holds min(48, count) points. *)
Theorem stats_count_and_absence :
  forall db now cold_room_id,
    let s := get_24h_temperature_stats db now cold_room_id in
    let temperatures :=
      map td_temperature
        (filter (fun r =>
                   (td_cold_room_id r =? cold_room_id)%Z &&
                   match td_timestamp r with
                   | Some t => (clock_seconds now - 86400 <=? t)%Z
                   | None => false
                   end)
           (temperature_data db)) in
    readings_count s = List.length temperatures /\
    (readings_count s = 0%nat <-> avg_temp s = None) /\
    (avg_temp s = None <-> min_temp s = None) /\
    (avg_temp s = None <-> max_temp s = None) /\
    (forall m, min_temp s = Some m ->
       exists x, is_minimum x temperatures /\ m = py_round x 1) /\
    (forall m, max_temp s = Some m ->
       exists x, is_maximum x temperatures /\ m = py_round x 1) /\
    (readings_count s = 0%nat -> trend s = stable /\ last_24h_data s = []) /\
    List.length (last_24h_data s) = Nat.min 48 (readings_count s).
Proof.
  intros db now cold_room_id s temperatures.
  assert (Hin : forall x, In x (map td_temperature (window_24h db now cold_room_id)) <->
                          In x temperatures).
  { intros x. unfold temperatures, window_24h. rewrite !in_map_iff.
    split; intros (r & <- & Hr); exists r; (split; [reflexivity|]).
    - apply order_by_desc_In in Hr. exact Hr.
    - apply order_by_desc_In. exact Hr. }
  assert (Hlen : List.length (window_24h db now cold_room_id) = List.length temperatures).
  { unfold temperatures, window_24h. rewrite order_by_desc_length, length_map. reflexivity. }
  unfold s, get_24h_temperature_stats. rewrite <- Hlen. clear Hlen.
  destruct (window_24h db now cold_room_id) as [|r rows].
  - simpl. repeat apply conj; try reflexivity; try tauto; intros m; discriminate.
  - cbn [map readings_count avg_temp min_temp max_temp trend last_24h_data] in *.
    rewrite !length_map, length_firstn. cbn [List.length].
    destruct (py_min_spec (map td_temperature rows) (td_temperature r)) as (Hm0 & Hm1 & Hm2).
    destruct (py_max_spec (map td_temperature rows) (td_temperature r)) as (HM0 & HM1 & HM2).
    repeat apply conj; try (split; discriminate); try discriminate;
      rewrite ?length_map; try reflexivity.
    + intros m [= <-]. eexists. split; [|reflexivity]. split.
      * apply Hin. exact Hm0.
      * intros x Hx. apply Hin in Hx. destruct Hx as [<- | Hx]; auto.
    + intros m [= <-]. eexists. split; [|reflexivity]. split.
      * apply Hin. exact HM0.
      * intros x Hx. apply Hin in Hx. destruct Hx as [<- | Hx]; auto.
Qed.

(** ** Reading samples back *)

Lemma StronglySorted_firstn {A : Type} (R : A -> A -> Prop) n : forall l,
  StronglySorted R l -> StronglySorted R (firstn n l).
Proof.
  induction n as [|n IH]; intros l Hs; [constructor|].
  destruct l as [|x l]; [constructor|]. simpl.
  inversion Hs as [|? ? Hs' Hall]; subst. constructor; [apply IH, Hs'|].
  rewrite Forall_forall in *. intros y Hy. apply Hall. eapply In_firstn, Hy.
Qed.

(** X10.  Read back without a limit (or with limit 0), a room gives one row
    for each of its samples and no other, the newest first, each with its
    temperature, its stamp and the age computed at the read instant; a
    positive limit keeps the first that many rows of this listing, hence the
    newest. *)
Theorem read_rows_newest_first :
  forall db now cold_room_id limit,
    let rows := get_temperature_data_for_cold_room db now cold_room_id limit in
    let every := get_temperature_data_for_cold_room db now cold_room_id None in
    rows = match limit with
           | None | Some O => every
           | Some n => firstn n every
           end /\
    List.length every =
      List.length (filter (fun r => (td_cold_room_id r =? cold_room_id)%Z)
                     (temperature_data db)) /\
    StronglySorted (newer_or_equal timestamp) every /\
    StronglySorted (newer_or_equal timestamp) rows /\
    (forall row, In row every ->
       seconds_ago row = option_map (age_seconds (unix_ms now)) (timestamp row) /\
       exists r, In r (temperature_data db) /\ td_cold_room_id r = cold_room_id /\
                 temperature row = td_temperature r /\ timestamp row = td_timestamp r) /\
    (forall r, In r (temperature_data db) -> td_cold_room_id r = cold_room_id ->
       exists row, In row every /\
                   temperature row = td_temperature r /\ timestamp row = td_timestamp r).
Proof.
  intros db now cold_room_id limit rows every.
  unfold rows, every, get_temperature_data_for_cold_room.
  set (sorted := order_by_desc td_timestamp
                   (filter (room_is cold_room_id) (temperature_data db))).
  assert (Hsorted : StronglySorted (newer_or_equal td_timestamp) sorted)
    by apply order_by_desc_sorted.
  repeat apply conj.
  - destruct limit as [[|n]|]; try reflexivity.
    cbn [apply_limit]. rewrite firstn_map. reflexivity.
  - cbn [apply_limit]. rewrite length_map. unfold sorted.
    rewrite order_by_desc_length. reflexivity.
  - cbn [apply_limit]. eapply StronglySorted_map; [|exact Hsorted].
    intros x y H. exact H.
  - eapply StronglySorted_map; [|].
    2: { destruct limit as [[|n]|]; try exact Hsorted.
         apply StronglySorted_firstn, Hsorted. }
    intros x y H. exact H.
  - intros row Hrow. cbn [apply_limit] in Hrow.
    apply in_map_iff in Hrow as (r & <- & Hr). cbn -[age_seconds].
    split; [reflexivity|].
    apply order_by_desc_In in Hr.
    apply filter_In in Hr as [Hr Hroom]. unfold room_is in Hroom.
    apply Z.eqb_eq in Hroom. exists r. auto.
  - intros r Hr Hroom.
    assert (Hin : In r sorted).
    { apply order_by_desc_In. apply filter_In. split; [exact Hr|].
      unfold room_is. apply Z.eqb_eq, Hroom. }
    eexists. split; [cbn [apply_limit]; apply in_map_iff; exists r; split;
                     [reflexivity | exact Hin]|].
    cbn -[age_seconds]; auto.
Qed.

(** ** Export: counts and date bounds *)

Lemma accumulate_total k t g :
  fold_right Nat.add 0%nat (map (fun ka => acc_count (snd ka)) (accumulate k t g)) =
  S (fold_right Nat.add 0%nat (map (fun ka => acc_count (snd ka)) g)).
Proof.
  induction g as [|[k0 a0] g IH]; simpl.
  - reflexivity.
  - destruct (key_eqb k0 k); simpl; [reflexivity|]. rewrite IH. lia.
Qed.

Lemma group_by_total bucket rows :
  fold_right Nat.add 0%nat (map (fun ka => acc_count (snd ka)) (group_by bucket rows)) =
  List.length rows.
Proof.
  induction rows as [|r rows IH] using rev_ind.
  - reflexivity.
  - rewrite group_by_snoc, accumulate_total, IH, length_app. simpl. lia.
Qed.

Lemma total_perm l1 l2 :
  Permutation l1 l2 -> fold_right Nat.add 0%nat l1 = fold_right Nat.add 0%nat l2.
Proof.
  induction 1; simpl; lia.
Qed.

Lemma aggregated_total bucket rows :
  total_readings (aggregated bucket rows) = List.length rows.
Proof.
  unfold total_readings, aggregated. rewrite map_map. cbn [agg_readings].
  rewrite <- (group_by_total (fun r => option_map bucket (td_timestamp r)) rows).
  apply total_perm, Permutation_map, order_by_desc_perm.
Qed.

(** X11.  For the same room and date range, the reading counts of the hourly
    rows, and those of the daily rows, add up to the number of rows of the
    raw export: aggregation loses no sample and counts none twice. *)
Theorem aggregated_counts_add_up :
  forall db cold_room_id date_from date_to aggregation,
    aggregation = "hourly" \/ aggregation = "daily" ->
    exists rows raw,
      get_temperature_data_with_filters db cold_room_id date_from date_to aggregation =
        Some (Aggregate_rows rows) /\
      get_temperature_data_with_filters db cold_room_id date_from date_to "full" =
        Some (Full_rows raw) /\
      total_readings rows = List.length raw.
Proof.
  intros db cold_room_id date_from date_to aggregation Hagg.
  unfold get_temperature_data_with_filters.
  destruct Hagg as [-> | ->]; cbn [String.eqb Ascii.eqb Bool.eqb];
    eexists; eexists; (split; [reflexivity|]); (split; [reflexivity|]);
    rewrite aggregated_total, length_map, order_by_desc_length; reflexivity.
Qed.

Lemma aggregated_counts_add_up_witness :
  ("hourly" = "hourly" \/ "hourly" = "daily") /\
  exists rows raw,
    get_temperature_data_with_filters db_export 1 None None "hourly" =
      Some (Aggregate_rows rows) /\
    get_temperature_data_with_filters db_export 1 None None "full" = Some (Full_rows raw) /\
    total_readings rows = List.length raw.
Proof.
  split; [left; reflexivity|].
  exact (aggregated_counts_add_up db_export 1 None None "hourly" (or_introl eq_refl)).
Defined.

Lemma date_of_hour_bucket t : date_of (hour_bucket t) = date_of t.
Proof.
  unfold date_of, hour_bucket.
  pose proof (Z.div_mod t 3600 ltac:(lia)) as H1.
  pose proof (Z.mod_pos_bound t 3600 ltac:(lia)) as H2.
  apply (Z.div_unique t 86400 _ (t - 86400 * (t / 3600 * 3600 / 86400))).
  - left.
    pose proof (Z.div_mod (t / 3600 * 3600) 86400 ltac:(lia)) as H3.
    pose proof (Z.mod_pos_bound (t / 3600 * 3600) 86400 ltac:(lia)) as H4.
    assert (H5 : ((t / 3600 * 3600) mod 86400 <= 86400 - 3600)%Z).
    { assert (Hd : (3600 | (t / 3600 * 3600) mod 86400)%Z).
      { rewrite Z.mod_eq by lia. apply Z.divide_sub_r.
        - apply Z.divide_factor_r.
        - apply Z.divide_mul_l. exists 24%Z. reflexivity. }
      destruct Hd as [k Hk]. lia. }
    lia.
  - lia.
Qed.

Lemma date_of_day_bucket t : date_of (day_bucket t) = date_of t.
Proof.
  unfold date_of, day_bucket. apply Z.div_mul. lia.
Qed.

Lemma date_filter_in_range date_from date_to r :
  date_filter date_from date_to r = true ->
  in_date_range date_from date_to (td_timestamp r).
Proof.
  unfold date_filter, in_date_range. rewrite andb_true_iff. intros [H1 H2]. split.
  - intros d ->. destruct (td_timestamp r) as [t|]; [|discriminate].
    exists t. split; [reflexivity|]. apply Z.leb_le, H1.
  - intros d ->. destruct (td_timestamp r) as [t|]; [|discriminate].
    exists t. split; [reflexivity|]. apply Z.leb_le, H2.
Qed.

Lemma in_date_range_bucket bucket date_from date_to ts :
  (forall t, date_of (bucket t) = date_of t) ->
  in_date_range date_from date_to ts ->
  in_date_range date_from date_to (option_map bucket ts).
Proof.
  intros Hb [H1 H2]. split; intros d Hd.
  - destruct (H1 d Hd) as (t & -> & Ht). exists (bucket t). rewrite Hb. auto.
  - destruct (H2 d Hd) as (t & -> & Ht). exists (bucket t). rewrite Hb. auto.
Qed.

(** X12.  At every aggregation level the export stays within the date
    bounds that are given: each raw row is stamped, and each hourly or daily
    bucket starts, on a day from date_from to date_to. *)
Theorem export_within_date_bounds :
  forall db cold_room_id date_from date_to,
    (forall raw,
        get_temperature_data_with_filters db cold_room_id date_from date_to "full" =
          Some (Full_rows raw) ->
        forall row, In row raw -> in_date_range date_from date_to (full_timestamp row)) /\
    (forall aggregation rows,
        get_temperature_data_with_filters db cold_room_id date_from date_to aggregation =
          Some (Aggregate_rows rows) ->
        forall row, In row rows -> in_date_range date_from date_to (agg_timestamp row)).
Proof.
  intros db cold_room_id date_from date_to.
  assert (Hsel : forall r, In r (selected db cold_room_id date_from date_to) ->
                           in_date_range date_from date_to (td_timestamp r)).
  { intros r Hr. unfold selected in Hr. apply filter_In in Hr as [_ Hr].
    apply andb_prop in Hr as [_ Hr]. apply date_filter_in_range, Hr. }
  assert (Hagg : forall bucket,
             (forall t, date_of (bucket t) = date_of t) ->
             forall row,
               In row (aggregated bucket (selected db cold_room_id date_from date_to)) ->
               in_date_range date_from date_to (agg_timestamp row)).
  { intros bucket Hb row Hrow.
    destruct (aggregated_spec bucket (selected db cold_room_id date_from date_to))
      as (_ & _ & _ & Hmem).
    destruct (Hmem row Hrow) as (Hne & _).
    destruct (bucket_members bucket (agg_timestamp row)
                (selected db cold_room_id date_from date_to)) as [|r l] eqn:E;
      [exfalso; apply Hne; reflexivity|].
    assert (Hr : In r (bucket_members bucket (agg_timestamp row)
                         (selected db cold_room_id date_from date_to)))
      by (rewrite E; left; reflexivity).
    unfold bucket_members in Hr. apply filter_In in Hr as [Hr Hk].
    apply key_eqb_eq in Hk. rewrite <- Hk.
    apply in_date_range_bucket; auto. }
  split.
  - intros raw. unfold get_temperature_data_with_filters. cbn [String.eqb Ascii.eqb Bool.eqb].
    intros [= <-] row Hrow. apply in_map_iff in Hrow as (r & <- & Hr). simpl.
    apply order_by_desc_In in Hr. apply Hsel, Hr.
  - intros aggregation rows. unfold get_temperature_data_with_filters.
    destruct (String.eqb aggregation "full"); [discriminate|].
    destruct (String.eqb aggregation "hourly").
    + intros [= <-]. apply Hagg, date_of_hour_bucket.
    + destruct (String.eqb aggregation "daily"); [|discriminate].
      intros [= <-]. apply Hagg, date_of_day_bucket.
Qed.

Lemma export_within_date_bounds_witness :
  get_temperature_data_with_filters db_export 1 (Some 0%Z) (Some 0%Z) "daily" =
    Some (Aggregate_rows
            [ {| agg_timestamp := Some 0%Z; agg_temperature := (2 + 7 + 4) / 3;
                 agg_min_temp := 2; agg_max_temp := 7; agg_readings := 3 |} ]) /\
  in_date_range (Some 0%Z) (Some 0%Z) (Some 0%Z).
Proof.
  split; [reflexivity|].
  exact (proj2 (export_within_date_bounds db_export 1 (Some 0%Z) (Some 0%Z))
           "daily" _ eq_refl
           {| agg_timestamp := Some 0%Z; agg_temperature := (2 + 7 + 4) / 3;
              agg_min_temp := 2; agg_max_temp := 7; agg_readings := 3 |}
           (or_introl eq_refl)).
Defined.

(** ** The error log: listings *)

Lemma sql_limit_length {A : Type} limit (l : list A) :
  (0 <= limit)%Z -> (List.length (sql_limit limit l) <= Z.to_nat limit)%nat.
Proof.
  intros H. unfold sql_limit. destruct (limit <? 0)%Z eqn:E.
  - apply Z.ltb_lt in E. lia.
  - apply firstn_le_length.
Qed.

(** X13.  The errors listed for a room are unresolved, carry the sensor id
    the room has now, come newest first and, for a limit that is not
    negative, number at most the limit; a room that does not exist, or has no
    sensor id, lists none. *)
Theorem room_errors_listing :
  forall db cold_room_id limit,
    let rows := get_esp32_errors_for_cold_room db cold_room_id limit in
    (forall row, In row rows ->
       re_resolved row = false /\
       exists e c s,
         In e (esp32_errors db) /\ In c (cold_rooms db) /\
         room_id c = cold_room_id /\ room_sensor_id c = Some s /\ s <> "" /\
         err_sensor_id e = Some s /\ err_resolved e = false /\
         re_id row = err_id e /\ re_timestamp row = err_timestamp e) /\
    ((0 <= limit)%Z -> (List.length rows <= Z.to_nat limit)%nat) /\
    StronglySorted (newer_or_equal re_timestamp) rows /\
    ((forall c, In c (cold_rooms db) -> room_id c = cold_room_id ->
                room_sensor_id c = None \/ room_sensor_id c = Some "") ->
     rows = []).
Proof.
  intros db cold_room_id limit rows. unfold rows, get_esp32_errors_for_cold_room.
  destruct (find (fun c => (room_id c =? cold_room_id)%Z) (cold_rooms db)) as [c|] eqn:F.
  2: { split; [intros row []|]. split; [intros; simpl; lia|].
       split; [constructor | reflexivity]. }
  apply find_some in F as [Hc Hid]. apply Z.eqb_eq in Hid.
  destruct (room_sensor_id c) as [s|] eqn:Es.
  2: { split; [intros row []|]. split; [intros; simpl; lia|].
       split; [constructor | reflexivity]. }
  destruct (String.eqb s "") eqn:Ee.
  { split; [intros row []|]. split; [intros; simpl; lia|].
    split; [constructor | reflexivity]. }
  apply String.eqb_neq in Ee.
  repeat apply conj.
  - intros row Hrow. apply in_map_iff in Hrow as (e & <- & He).
    apply In_sql_limit in He. apply order_by_desc_In in He.
    apply filter_In in He as [He Hf]. apply andb_prop in Hf as [Hs Hr].
    apply negb_true_iff in Hr. simpl. split; [exact Hr|].
    exists e, c, s. unfold sensor_matches in Hs.
    destruct (err_sensor_id e) as [s'|]; [|discriminate].
    apply String.eqb_eq in Hs. subst s'. repeat apply conj; auto.
  - intros Hl. rewrite length_map. apply sql_limit_length, Hl.
  - eapply StronglySorted_map with (R := newer_or_equal err_timestamp).
    + intros x y H. exact H.
    + unfold sql_limit. destruct (limit <? 0)%Z.
      * apply order_by_desc_sorted.
      * apply StronglySorted_firstn, order_by_desc_sorted.
  - intros Hno. destruct (Hno c Hc Hid) as [H | H]; rewrite Es in H; congruence.
Qed.

Lemma room_errors_listing_witness :
  (0 <= 3)%Z /\
  (List.length (get_esp32_errors_for_cold_room db_errors 1 3) <= Z.to_nat 3)%nat /\
  map re_id (get_esp32_errors_for_cold_room db_errors 1 3) = [1%Z].
Proof.
  split; [lia|]. split; [|reflexivity].
  exact (proj1 (proj2 (room_errors_listing db_errors 1 3)) ltac:(lia)).
Defined.

Lemma filter_unique_sensor rooms s :
  NoDup (sensor_ids rooms) ->
  (List.length (filter (fun c => sensor_matches (Some s) (room_sensor_id c)) rooms) <= 1)%nat.
Proof.
  induction rooms as [|c rooms IH]; intros Hnd; [simpl; lia|].
  cbn [filter]. unfold sensor_ids in Hnd. cbn [flat_map] in Hnd.
  fold (sensor_ids rooms) in Hnd.
  destruct (room_sensor_id c) as [s'|] eqn:E; cbn [app] in Hnd.
  - inversion Hnd as [|? ? Hnot Hnd']; subst.
    change (sensor_matches (Some s) (Some s')) with (String.eqb s s').
    destruct (String.eqb s s') eqn:Es; [|apply IH, Hnd'].
    apply String.eqb_eq in Es. subst s'.
    assert (Hnone : filter (fun c0 => sensor_matches (Some s) (room_sensor_id c0)) rooms = []).
    { destruct (filter (fun c0 => sensor_matches (Some s) (room_sensor_id c0)) rooms)
        as [|c1 l] eqn:Ef; auto. exfalso.
      assert (H1 : In c1 (filter (fun c0 => sensor_matches (Some s) (room_sensor_id c0)) rooms))
        by (rewrite Ef; left; reflexivity).
      apply filter_In in H1 as [H1 H2]. apply Hnot.
      apply in_flat_map. exists c1. split; [exact H1|].
      destruct (room_sensor_id c1) as [s1|]; [|discriminate].
      simpl in H2. apply String.eqb_eq in H2. subst. left; reflexivity. }
    rewrite Hnone. simpl. lia.
  - change (sensor_matches (Some s) None) with false. cbv iota. apply IH, Hnd.
Qed.

Lemma filter_unique_location locs lid :
  NoDup (map loc_id locs) ->
  (List.length (filter (fun l => (lid =? loc_id l)%Z) locs) <= 1)%nat.
Proof.
  induction locs as [|l locs IH]; simpl; intros Hnd; [lia|].
  inversion Hnd as [|? ? Hnot Hnd']; subst.
  destruct (lid =? loc_id l)%Z eqn:E; [|apply IH, Hnd'].
  apply Z.eqb_eq in E. simpl.
  assert (Hnone : filter (fun l0 => (lid =? loc_id l0)%Z) locs = []).
  { destruct (filter _ locs) as [|l1 r] eqn:Ef; auto. exfalso.
    assert (H1 : In l1 (filter (fun l0 => (lid =? loc_id l0)%Z) locs))
      by (rewrite Ef; left; reflexivity).
    apply filter_In in H1 as [H1 H2]. apply Z.eqb_eq in H2.
    apply Hnot. rewrite <- E, H2. apply in_map, H1. }
  rewrite Hnone. simpl. lia.
Qed.

(** With the keys of the schema in force the two left joins add no row. *)
Lemma left_join_single db e :
  registry_keys_unique db -> exists names, left_join_names db e = [names].
Proof.
  intros (_ & Hs & Hl). unfold left_join_names.
  destruct (err_sensor_id e) as [s|] eqn:Es.
  - pose proof (filter_unique_sensor (cold_rooms db) s Hs) as Hlen.
    destruct (filter (fun c => sensor_matches (Some s) (room_sensor_id c)) (cold_rooms db))
      as [|c [|c' rest]]; simpl in Hlen; [eauto| |lia].
    simpl. rewrite app_nil_r.
    pose proof (filter_unique_location (locations db) (room_location_id c) Hl) as Hlen'.
    destruct (filter (fun l => (room_location_id c =? loc_id l)%Z) (locations db))
      as [|l [|l' rest]]; simpl in Hlen'; [eauto|eauto|lia].
  - assert (Hnone : filter (fun c => sensor_matches None (room_sensor_id c)) (cold_rooms db) = []).
    { clear. induction (cold_rooms db) as [|c l IH]; [reflexivity|].
      cbn [filter]. exact IH. }
    rewrite Hnone. eauto.
Qed.

Lemma joined_rows_fst db es :
  registry_keys_unique db ->
  map fst (flat_map (fun e => map (fun names => (e, names)) (left_join_names db e)) es) = es.
Proof.
  intros H. induction es as [|e es IH]; simpl; [reflexivity|].
  destruct (left_join_single db e H) as [names ->]. simpl. rewrite IH. reflexivity.
Qed.

Lemma map_fst_filter {A B : Type} (p : A -> bool) (l : list (A * B)) :
  map fst (filter (fun row => p (fst row)) l) = filter p (map fst l).
Proof.
  induction l as [|[a b] l IH]; simpl; [reflexivity|].
  destruct (p a); simpl; rewrite IH; reflexivity.
Qed.

(** X14.  With the keys of the schema in force (room ids, sensor ids and
    location ids distinct) the overview of unresolved errors has exactly one
    row for each unresolved error record, and none for a resolved one. *)
Theorem unresolved_overview_one_row_each :
  forall db,
    registry_keys_unique db ->
    Permutation (map ue_id (get_all_unresolved_errors db))
                (map err_id (filter (fun e => negb (err_resolved e)) (esp32_errors db))).
Proof.
  intros db H. unfold get_all_unresolved_errors. rewrite map_map. cbn [ue_id].
  rewrite <- (map_map fst err_id).
  eapply perm_trans.
  { apply Permutation_map, Permutation_map, order_by_desc_perm. }
  rewrite (map_fst_filter (fun e => negb (err_resolved e))), joined_rows_fst by exact H.
  apply Permutation_refl.
Qed.

Lemma registry_keys_unique_db_errors : registry_keys_unique db_errors.
Proof.
  repeat apply conj; simpl.
  - constructor; [intros [H | []]; discriminate|].
    constructor; [intros []|constructor].
  - constructor; [intros [H | []]; discriminate|].
    constructor; [intros []|constructor].
  - constructor; [intros []|constructor].
Qed.

Lemma unresolved_overview_one_row_each_witness :
  registry_keys_unique db_errors /\
  Permutation (map ue_id (get_all_unresolved_errors db_errors)) [1%Z; 2%Z].
Proof.
  split; [exact registry_keys_unique_db_errors|].
  exact (unresolved_overview_one_row_each db_errors registry_keys_unique_db_errors).
Defined.

(** ** The error log: what a resolve does to the listings *)

Lemma mark_resolved_id error_id e : err_id (mark_resolved error_id e) = err_id e.
Proof. unfold mark_resolved. destruct (err_id e =? error_id)%Z; reflexivity. Qed.

Lemma insert_desc_front {A : Type} (key : A -> option Z) x l :
  (forall z, In z l -> newer_or_equal key x z) -> insert_desc key x l = x :: l.
Proof.
  destruct l as [|y l]; [reflexivity|]. intros H. simpl.
  unfold newer_or_equal in H. rewrite (H y (or_introl eq_refl)). reflexivity.
Qed.

(** The sort is stable, so it commutes with a selection. *)
Lemma filter_insert_desc {A : Type} (key : A -> option Z) (p : A -> bool) x l :
  StronglySorted (newer_or_equal key) l ->
  filter p (insert_desc key x l) =
  if p x then insert_desc key x (filter p l) else filter p l.
Proof.
  induction 1 as [|y l Hs IH Hall]; simpl.
  - destruct (p x); reflexivity.
  - destruct (ts_ltb (key x) (key y)) eqn:E; simpl.
    + rewrite IH. destruct (p y), (p x); simpl; try rewrite E; reflexivity.
    + destruct (p x) eqn:Px; [|reflexivity].
      rewrite insert_desc_front; [reflexivity|].
      intros z Hz.
      assert (Hz' : In z (y :: l)).
      { destruct (p y); [|right; eapply filter_In; exact Hz].
        destruct Hz as [<- | Hz]; [left; reflexivity | right; eapply filter_In; exact Hz]. }
      destruct Hz' as [<- | Hz']; [exact E|].
      rewrite Forall_forall in Hall. unfold newer_or_equal in *.
      eapply ts_ge_trans; [exact E | apply Hall, Hz'].
Qed.

Lemma filter_order_by_desc {A : Type} (key : A -> option Z) (p : A -> bool) l :
  filter p (order_by_desc key l) = order_by_desc key (filter p l).
Proof.
  induction l as [|x l IH]; simpl; [reflexivity|].
  rewrite filter_insert_desc by apply order_by_desc_sorted.
  rewrite IH. destruct (p x); reflexivity.
Qed.

Lemma filter_map_comm {A B : Type} (f : A -> B) (q : B -> bool) l :
  filter q (map f l) = map f (filter (fun x => q (f x)) l).
Proof.
  induction l as [|x l IH]; simpl; [reflexivity|].
  destruct (q (f x)); simpl; rewrite IH; reflexivity.
Qed.

Lemma mark_resolved_sensor error_id e :
  err_sensor_id (mark_resolved error_id e) = err_sensor_id e.
Proof. unfold mark_resolved. destruct (err_id e =? error_id)%Z; reflexivity. Qed.

Lemma mark_resolved_unresolved error_id e :
  negb (err_resolved (mark_resolved error_id e)) =
  negb (err_resolved e) && negb (err_id e =? error_id)%Z.
Proof.
  unfold mark_resolved. destruct (err_id e =? error_id)%Z; simpl.
  - rewrite andb_false_r. reflexivity.
  - rewrite andb_true_r. reflexivity.
Qed.

Lemma mark_resolved_kept error_id e :
  negb (err_resolved (mark_resolved error_id e)) = true -> mark_resolved error_id e = e.
Proof.
  unfold mark_resolved. destruct (err_id e =? error_id)%Z; simpl; [discriminate|reflexivity].
Qed.

(** Selecting unresolved records after a resolve: the same as before, less
    the records of that id. *)
Lemma filter_resolved (keep : esp32_error -> bool) error_id es :
  (forall e, keep (mark_resolved error_id e) = keep e) ->
  filter (fun e => keep e && negb (err_resolved e)) (map (mark_resolved error_id) es) =
  filter (fun e => negb (err_id e =? error_id)%Z)
    (filter (fun e => keep e && negb (err_resolved e)) es).
Proof.
  intros Hk. induction es as [|e es IH]; simpl; [reflexivity|].
  rewrite Hk, mark_resolved_unresolved, IH.
  destruct (keep e); simpl; [|reflexivity].
  destruct (err_resolved e) eqn:R; simpl; [reflexivity|].
  destruct (err_id e =? error_id)%Z eqn:E; simpl.
  - reflexivity.
  - rewrite mark_resolved_other by (apply Z.eqb_neq, E). reflexivity.
Qed.

Lemma joined_rows_resolved db error_id es :
  filter (fun row => negb (err_resolved (fst row)))
    (flat_map (fun e => map (fun names => (e, names))
                          (left_join_names (fst (resolve_esp32_error db error_id)) e))
       (map (mark_resolved error_id) es)) =
  filter (fun row => negb (err_id (fst row) =? error_id)%Z)
    (filter (fun row => negb (err_resolved (fst row)))
       (flat_map (fun e => map (fun names => (e, names)) (left_join_names db e)) es)).
Proof.
  induction es as [|e es IH]; [reflexivity|].
  cbn [map flat_map]. rewrite !filter_app, IH. f_equal.
  assert (Hj : left_join_names (fst (resolve_esp32_error db error_id))
                 (mark_resolved error_id e) = left_join_names db e).
  { unfold left_join_names. simpl. rewrite mark_resolved_sensor. reflexivity. }
  rewrite Hj. clear.
  induction (left_join_names db e) as [|n ns IHn]; [reflexivity|].
  cbn [map filter fst]. rewrite mark_resolved_unresolved.
  destruct (err_resolved e) eqn:R; cbn [negb andb]; [exact IHn|].
  destruct (err_id e =? error_id)%Z eqn:E; cbn [negb andb filter fst].
  - rewrite E. cbn [negb]. exact IHn.
  - rewrite E. cbn [negb]. rewrite IHn.
    rewrite mark_resolved_other by (apply Z.eqb_neq, E). reflexivity.
Qed.

(** X15.  A resolve takes the records of that id, and nothing else, out of
    the overview of unresolved errors and out of the unlimited listing of any
    room; the rows that remain keep their order. *)
Theorem resolve_removes_only_that_id :
  forall db error_id,
    let db1 := fst (resolve_esp32_error db error_id) in
    get_all_unresolved_errors db1 =
      filter (fun u => negb (ue_id u =? error_id)%Z) (get_all_unresolved_errors db) /\
    (forall cold_room_id limit,
        (limit < 0)%Z ->
        get_esp32_errors_for_cold_room db1 cold_room_id limit =
          filter (fun u => negb (re_id u =? error_id)%Z)
            (get_esp32_errors_for_cold_room db cold_room_id limit)).
Proof.
  intros db error_id db1. split.
  - unfold get_all_unresolved_errors, db1.
    change (esp32_errors (fst (resolve_esp32_error db error_id)))
      with (map (mark_resolved error_id) (esp32_errors db)).
    rewrite joined_rows_resolved, <- filter_order_by_desc, filter_map_comm.
    reflexivity.
  - intros cold_room_id limit Hl. unfold get_esp32_errors_for_cold_room, db1.
    change (cold_rooms (fst (resolve_esp32_error db error_id))) with (cold_rooms db).
    change (esp32_errors (fst (resolve_esp32_error db error_id)))
      with (map (mark_resolved error_id) (esp32_errors db)).
    destruct (find (fun c => (room_id c =? cold_room_id)%Z) (cold_rooms db)) as [c|];
      [|reflexivity].
    destruct (room_sensor_id c) as [s|]; [|reflexivity].
    destruct (String.eqb s ""); [reflexivity|].
    unfold sql_limit. apply Z.ltb_lt in Hl. rewrite Hl.
    rewrite (filter_resolved (fun e => sensor_matches (err_sensor_id e) (Some s)))
      by (intros e; rewrite mark_resolved_sensor; reflexivity).
    rewrite <- filter_order_by_desc, filter_map_comm. reflexivity.
Qed.

Lemma resolve_removes_only_that_id_witness :
  (-1 < 0)%Z /\
  map ue_id (get_all_unresolved_errors (fst (resolve_esp32_error db_errors 1))) = [2%Z] /\
  get_esp32_errors_for_cold_room (fst (resolve_esp32_error db_errors 1)) 1 (-1) =
    filter (fun u => negb (re_id u =? 1)%Z) (get_esp32_errors_for_cold_room db_errors 1 (-1)).
Proof.
  split; [lia|]. split; [reflexivity|].
  exact (proj2 (resolve_removes_only_that_id db_errors 1) 1%Z (-1)%Z ltac:(lia)).
Defined.

Lemma mark_resolved_comm a b e :
  mark_resolved a (mark_resolved b e) = mark_resolved b (mark_resolved a e).
Proof.
  unfold mark_resolved.
  destruct (err_id e =? a)%Z eqn:Ea, (err_id e =? b)%Z eqn:Eb; simpl;
    rewrite ?Ea, ?Eb; reflexivity.
Qed.

(** X16.  Resolves commute, touch no table but the error log, keep every
    record's id, and never turn a resolved record back into an unresolved
    one. *)
Theorem resolves_commute :
  forall db a b,
    fst (resolve_esp32_error (fst (resolve_esp32_error db a)) b) =
      fst (resolve_esp32_error (fst (resolve_esp32_error db b)) a) /\
    let db1 := fst (resolve_esp32_error db a) in
    locations db1 = locations db /\
    cold_rooms db1 = cold_rooms db /\
    temperature_data db1 = temperature_data db /\
    map err_id (esp32_errors db1) = map err_id (esp32_errors db) /\
    (forall e, In e (esp32_errors db) -> err_resolved e = true -> In e (esp32_errors db1)).
Proof.
  intros db a b. split.
  - unfold resolve_esp32_error; simpl. f_equal. rewrite !map_map.
    apply map_ext. intros e. apply mark_resolved_comm.
  - repeat apply conj; try reflexivity.
    + simpl. rewrite map_map. apply map_ext, mark_resolved_id.
    + intros e He Hr. simpl. apply in_map_iff. exists e. split; [|exact He].
      unfold mark_resolved. destruct (err_id e =? a)%Z; [|reflexivity].
      destruct e; simpl in *; subst; reflexivity.
Qed.

(** ** The rooms table: keys, lookups, and what ingestion sees *)

Lemma In_sensor_ids s rooms :
  In s (sensor_ids rooms) <-> exists c, In c rooms /\ room_sensor_id c = Some s.
Proof.
  unfold sensor_ids. rewrite in_flat_map. split.
  - intros (c & Hc & Hs). exists c. split; [exact Hc|].
    destruct (room_sensor_id c) as [s'|]; [|contradiction].
    destruct Hs as [-> | []]. reflexivity.
  - intros (c & Hc & Hs). exists c. split; [exact Hc|]. rewrite Hs. left; reflexivity.
Qed.

Lemma sensor_ids_app l1 l2 : sensor_ids (l1 ++ l2) = sensor_ids l1 ++ sensor_ids l2.
Proof. unfold sensor_ids. apply flat_map_app. Qed.

Lemma option_string_eqb_eq a s : option_string_eqb a s = true <-> a = Some s.
Proof.
  destruct a as [x|]; simpl; [|split; discriminate].
  rewrite String.eqb_eq. split; congruence.
Qed.

(** Two rooms of a table with distinct sensor ids that carry the same sensor
    id are one room. *)
Lemma sensor_unique rooms c1 c2 s :
  NoDup (sensor_ids rooms) ->
  In c1 rooms -> In c2 rooms ->
  room_sensor_id c1 = Some s -> room_sensor_id c2 = Some s -> c1 = c2.
Proof.
  induction rooms as [|c rooms IH]; [contradiction|].
  intros Hnd H1 H2 S1 S2.
  change (c :: rooms) with ([c] ++ rooms) in Hnd. rewrite sensor_ids_app in Hnd.
  assert (Hrest : NoDup (sensor_ids rooms)) by (eapply NoDup_app_remove_l; exact Hnd).
  assert (Hhead : forall c', room_sensor_id c = Some s -> In c' rooms ->
                             room_sensor_id c' = Some s -> False).
  { intros c' Sc Hc' Sc'. unfold sensor_ids at 1 in Hnd. simpl in Hnd.
    rewrite Sc in Hnd. simpl in Hnd. inversion Hnd as [|? ? Hnot _]; subst.
    apply Hnot. apply In_sensor_ids. eauto. }
  destruct H1 as [<- | H1], H2 as [<- | H2]; auto.
  - exfalso. eapply Hhead; eauto.
  - exfalso. eapply Hhead; eauto.
Qed.

Lemma sensor_taken_false rooms except s :
  sensor_taken rooms except (Some s) = false <->
  forall c, In c rooms -> room_sensor_id c = Some s ->
            exists id, except = Some id /\ room_id c = id.
Proof.
  unfold sensor_taken. split.
  - intros H c Hc Hs.
    apply Bool.not_true_iff_false in H. rewrite existsb_exists in H.
    assert (Hall := H).
    destruct except as [id|].
    + exists id. split; [reflexivity|].
      destruct (room_id c =? id)%Z eqn:Eid; [apply Z.eqb_eq, Eid|].
      exfalso. apply Hall. exists c. split; [exact Hc|].
      rewrite Eid. simpl. rewrite andb_true_r. apply option_string_eqb_eq, Hs.
    + exfalso. apply Hall. exists c. split; [exact Hc|].
      simpl. rewrite andb_true_r. apply option_string_eqb_eq, Hs.
  - intros H. apply Bool.not_true_iff_false. rewrite existsb_exists.
    intros (c & Hc & Hb). apply andb_prop in Hb as [Hs Hn].
    apply option_string_eqb_eq in Hs.
    destruct (H c Hc Hs) as (id & -> & Hid).
    apply Z.eqb_eq in Hid. rewrite Hid in Hn. discriminate.
Qed.

Lemma sensor_taken_true rooms except s :
  sensor_taken rooms except (Some s) = true ->
  exists c, In c rooms /\ room_sensor_id c = Some s /\ except <> Some (room_id c).
Proof.
  unfold sensor_taken. rewrite existsb_exists. intros (c & Hc & Hb).
  apply andb_prop in Hb as [Hs Hn]. apply option_string_eqb_eq in Hs.
  exists c. repeat apply conj; auto.
  intros ->. rewrite Z.eqb_refl in Hn. discriminate.
Qed.

Lemma set_room_id id name sensor c : room_id (set_room id name sensor c) = room_id c.
Proof. unfold set_room. destruct (room_id c =? id)%Z; reflexivity. Qed.

Lemma find_map_set_room id name sensor rooms :
  find (fun c => (room_id c =? id)%Z) (map (set_room id name sensor) rooms) =
  option_map (set_room id name sensor) (find (fun c => (room_id c =? id)%Z) rooms).
Proof.
  induction rooms as [|c rooms IH]; [reflexivity|].
  cbn [map find]. rewrite set_room_id.
  destruct (room_id c =? id)%Z; [reflexivity | exact IH].
Qed.

Lemma find_other_set_room id name sensor i rooms :
  i <> id ->
  find (fun c => (room_id c =? i)%Z) (map (set_room id name sensor) rooms) =
  find (fun c => (room_id c =? i)%Z) rooms.
Proof.
  intros Hi. induction rooms as [|c rooms IH]; [reflexivity|].
  cbn [map find]. rewrite set_room_id.
  destruct (room_id c =? i)%Z eqn:E; [|exact IH].
  apply Z.eqb_eq in E. unfold set_room.
  assert (N : (room_id c =? id)%Z = false) by (apply Z.eqb_neq; congruence).
  rewrite N. reflexivity.
Qed.

Lemma In_sensor_ids_set_room id name sensor rooms s :
  In s (sensor_ids (map (set_room id name sensor) rooms)) ->
  sensor = Some s \/
  exists c, In c rooms /\ room_id c <> id /\ room_sensor_id c = Some s.
Proof.
  rewrite In_sensor_ids. intros (c' & Hc' & Hs).
  apply in_map_iff in Hc' as (c & <- & Hc). unfold set_room in Hs.
  destruct (room_id c =? id)%Z eqn:E; simpl in Hs; [left; exact Hs|].
  right. exists c. apply Z.eqb_neq in E. auto.
Qed.

Lemma set_room_sensor_ids id name sensor rooms :
  NoDup (map room_id rooms) ->
  NoDup (sensor_ids rooms) ->
  (forall s, sensor = Some s ->
             forall c, In c rooms -> room_sensor_id c = Some s -> room_id c = id) ->
  NoDup (sensor_ids (map (set_room id name sensor) rooms)).
Proof.
  induction rooms as [|c rooms IH]; intros Hid Hnd Hfree; [constructor|].
  cbn [map]. change (?x :: ?l) with ([x] ++ l).
  change (c :: rooms) with ([c] ++ rooms) in Hnd.
  rewrite sensor_ids_app in *.
  inversion Hid as [|? ? Hnotid Hid']; subst.
  assert (Hrest : NoDup (sensor_ids rooms)) by (eapply NoDup_app_remove_l; exact Hnd).
  assert (IH' : NoDup (sensor_ids (map (set_room id name sensor) rooms))).
  { apply IH; auto. intros s Hs c' Hc'. apply Hfree; auto. right; exact Hc'. }
  apply NoDup_app; auto.
  - unfold sensor_ids. simpl. destruct (room_sensor_id _); simpl;
      [constructor; [intros []|constructor] | constructor].
  - intros s Hs Hin.
    unfold sensor_ids in Hs. simpl in Hs. rewrite app_nil_r in Hs.
    unfold set_room in Hs. destruct (room_id c =? id)%Z eqn:E; simpl in Hs.
    + apply Z.eqb_eq in E.
      destruct sensor as [s0|]; [|contradiction]. destruct Hs as [-> | []].
      assert (Hno : forall c', In c' rooms -> room_id c' <> id).
      { intros c' Hc' Heq. apply Hnotid. rewrite E, <- Heq. apply in_map, Hc'. }
      assert (Hkeep : map (set_room id name (Some s)) rooms = rooms).
      { rewrite <- (map_id rooms) at 2. apply map_ext_in. intros c' Hc'.
        unfold set_room. specialize (Hno c' Hc').
        apply Z.eqb_neq in Hno. rewrite Hno. reflexivity. }
      rewrite Hkeep in Hin. apply In_sensor_ids in Hin as (c' & Hc' & Hsc').
      apply (Hno c' Hc'). eapply Hfree; eauto. right; exact Hc'.
    + destruct (room_sensor_id c) as [sc|] eqn:Sc; [|contradiction].
      destruct Hs as [-> | []]. apply Z.eqb_neq in E.
      apply In_sensor_ids_set_room in Hin.
      destruct Hin as [Hsn | (c' & Hc' & _ & Hsc')].
      * apply E. eapply Hfree; eauto. left; reflexivity.
      * unfold sensor_ids at 1 in Hnd. simpl in Hnd. rewrite Sc in Hnd. simpl in Hnd.
        inversion Hnd as [|? ? Hnot _]; subst. apply Hnot.
        apply In_sensor_ids. eauto.
Qed.

Lemma find_room_after_set db id name s c :
  registry_keys_unique db ->
  get_cold_room_by_id db id = Some c ->
  sensor_taken (cold_rooms db) (Some id) (Some s) = false ->
  find_room_by_sensor
    (with_cold_rooms db (map (set_room id name (Some s)) (cold_rooms db))) s =
  Some {| room_id := room_id c; room_name := name;
          room_location_id := room_location_id c; room_sensor_id := Some s |}.
Proof.
  intros (Hid & Hnd & _) Hc Hfree. unfold find_room_by_sensor, get_cold_room_by_id in *.
  cbn [cold_rooms with_cold_rooms].
  rewrite sensor_taken_false in Hfree.
  induction (cold_rooms db) as [|c0 rooms IH]; [discriminate|].
  cbn [map find] in *.
  inversion Hid as [|? ? Hnotid Hid']; subst.
  assert (Hnd' : NoDup (sensor_ids rooms)).
  { change (c0 :: rooms) with ([c0] ++ rooms) in Hnd.
    rewrite sensor_ids_app in Hnd. eapply NoDup_app_remove_l; exact Hnd. }
  destruct (room_id c0 =? id)%Z eqn:E.
  - injection Hc as <-. unfold set_room. rewrite E.
    cbn [room_sensor_id option_string_eqb]. rewrite String.eqb_refl. reflexivity.
  - unfold set_room at 1 2. rewrite E.
    destruct (option_string_eqb (room_sensor_id c0) s) eqn:Es.
    + exfalso. apply option_string_eqb_eq in Es.
      destruct (Hfree c0 (or_introl eq_refl) Es) as (i & [= <-] & Hi).
      apply Z.eqb_neq in E. contradiction.
    + apply IH; auto. intros c' Hc'. apply Hfree. right; exact Hc'.
Qed.

Lemma existsb_get db id :
  existsb (fun c => (room_id c =? id)%Z) (cold_rooms db) = true ->
  exists c, get_cold_room_by_id db id = Some c.
Proof.
  intros Ex. unfold get_cold_room_by_id.
  destruct (find _ (cold_rooms db)) as [c|] eqn:G; [eauto|].
  apply existsb_exists in Ex as (c1 & H1 & H2).
  pose proof (find_none _ _ G c1 H1) as H3. simpl in H3. congruence.
Qed.

(** X17.  Updating a room keeps the keys of the table distinct and leaves
    every other table and every other room alone.  It fails, changing
    nothing, only when the room exists and another room holds the sensor id;
    an id no room has succeeds without effect.  After a success the room
    reads back with its new name and sensor id, and a lookup by that sensor
    id finds this room. *)
Theorem update_cold_room_keeps_keys :
  forall db cold_room_id name sensor_id,
    registry_keys_unique db ->
    let db' := fst (update_cold_room db cold_room_id name sensor_id) in
    let ok := snd (update_cold_room db cold_room_id name sensor_id) in
    registry_keys_unique db' /\
    locations db' = locations db /\
    temperature_data db' = temperature_data db /\
    esp32_errors db' = esp32_errors db /\
    (forall i, i <> cold_room_id -> get_cold_room_by_id db' i = get_cold_room_by_id db i) /\
    (ok = false ->
     db' = db /\
     exists c other s,
       get_cold_room_by_id db cold_room_id = Some c /\ In other (cold_rooms db) /\
       room_id other <> cold_room_id /\ sensor_id = Some s /\
       room_sensor_id other = Some s) /\
    (get_cold_room_by_id db cold_room_id = None -> ok = true /\ db' = db) /\
    (ok = true ->
     forall c, get_cold_room_by_id db cold_room_id = Some c ->
       get_cold_room_by_id db' cold_room_id =
         Some {| room_id := room_id c; room_name := name;
                 room_location_id := room_location_id c; room_sensor_id := sensor_id |} /\
       forall s, sensor_id = Some s ->
                 find_room_by_sensor db' s = get_cold_room_by_id db' cold_room_id).
Proof.
  intros db id name sensor Hk db' ok. unfold db', ok, update_cold_room.
  destruct (existsb (fun c => (room_id c =? id)%Z) (cold_rooms db)) eqn:Ex;
    cbn [andb].
  - destruct (sensor_taken (cold_rooms db) (Some id) sensor) eqn:Et; cbn [fst snd].
    + (* refused *)
      repeat apply conj; auto; try apply Hk; try discriminate.
      * intros _. split; [reflexivity|].
        destruct sensor as [s|]; [|discriminate].
        apply sensor_taken_true in Et as (other & Ho & Hs & Hne).
        destruct (existsb_get db id Ex) as [c G].
        exists c, other, s. repeat apply conj; auto. congruence.
      * intros G. destruct (existsb_get db id Ex) as [c G']. congruence.
    + (* applied *)
      destruct Hk as (Hid & Hnd & Hl).
      assert (Hfree : forall s, sensor = Some s ->
                 forall c, In c (cold_rooms db) -> room_sensor_id c = Some s ->
                           room_id c = id).
      { intros s -> c Hc Hs. rewrite sensor_taken_false in Et.
        destruct (Et c Hc Hs) as (i & [= <-] & Hi). exact Hi. }
      repeat apply conj; auto; try discriminate.
      * cbn [cold_rooms with_cold_rooms]. rewrite map_map.
        rewrite (map_ext _ room_id (set_room_id id name sensor)). exact Hid.
      * apply set_room_sensor_ids; auto.
      * intros i Hi. unfold get_cold_room_by_id. cbn [cold_rooms with_cold_rooms].
        apply find_other_set_room, Hi.
      * intros G. destruct (existsb_get db id Ex) as [c G']. congruence.
      * intros _ c G.
        assert (Hget : get_cold_room_by_id
                         (with_cold_rooms db (map (set_room id name sensor) (cold_rooms db))) id =
                       Some {| room_id := room_id c; room_name := name;
                               room_location_id := room_location_id c;
                               room_sensor_id := sensor |}).
        { unfold get_cold_room_by_id in *. cbn [cold_rooms with_cold_rooms].
          rewrite find_map_set_room, G. cbn [option_map]. unfold set_room.
          apply find_some in G as [_ G]. simpl in G. rewrite G. reflexivity. }
        split; [exact Hget|].
        intros s ->. rewrite Hget.
        apply find_room_after_set; auto. repeat apply conj; auto.
  - (* no such room: nothing to update *)
    cbn [fst snd].
    assert (Hno : forall c, In c (cold_rooms db) -> (room_id c =? id)%Z = false).
    { intros c Hc. destruct (room_id c =? id)%Z eqn:E; auto.
      assert (Ht : existsb (fun c => (room_id c =? id)%Z) (cold_rooms db) = true)
        by (apply existsb_exists; eauto).
      congruence. }
    assert (Hkeep : map (set_room id name sensor) (cold_rooms db) = cold_rooms db).
    { rewrite <- (map_id (cold_rooms db)) at 2. apply map_ext_in. intros c Hc.
      unfold set_room. rewrite (Hno c Hc). reflexivity. }
    assert (Hdb : with_cold_rooms db (map (set_room id name sensor) (cold_rooms db)) = db).
    { unfold with_cold_rooms. rewrite Hkeep. destruct db; reflexivity. }
    rewrite Hdb. repeat apply conj; auto; try apply Hk; try discriminate.
    intros _ c G. exfalso. unfold get_cold_room_by_id in G.
    apply find_some in G as [G1 G2]. simpl in G2. rewrite (Hno c G1) in G2. discriminate.
Qed.

Lemma update_cold_room_keeps_keys_witness :
  registry_keys_unique db_errors /\
  registry_keys_unique (fst (update_cold_room db_errors 1 "Dock" (Some "28CCDDEE00112233"))) /\
  snd (update_cold_room db_errors 1 "Dock" (Some "28BBCCDDEE001122")) = false.
Proof.
  split; [exact registry_keys_unique_db_errors|]. split; [|reflexivity].
  exact (proj1 (update_cold_room_keeps_keys db_errors 1 "Dock" (Some "28CCDDEE00112233")
                  registry_keys_unique_db_errors)).
Defined.

Lemma find_snoc {A : Type} (f : A -> bool) l x :
  find f (l ++ [x]) =
  match find f l with
  | Some y => Some y
  | None => if f x then Some x else None
  end.
Proof.
  induction l as [|y l IH]; simpl; [reflexivity|].
  destruct (f y); [reflexivity | exact IH].
Qed.

(** X18.  Adding a room with a fresh id keeps the keys of the table
    distinct and changes no lookup of an existing id.  It is refused,
    changing nothing, exactly when a room already holds the sensor id;
    otherwise the new room reads back by its id and, when it has a sensor id,
    by that sensor id. *)
Theorem add_cold_room_keeps_keys :
  forall db new_id name location_id sensor_id,
    registry_keys_unique db ->
    ~ In new_id (map room_id (cold_rooms db)) ->
    let db' := fst (add_cold_room db new_id name location_id sensor_id) in
    let r := snd (add_cold_room db new_id name location_id sensor_id) in
    let room := {| room_id := new_id; room_name := name;
                   room_location_id := location_id; room_sensor_id := sensor_id |} in
    registry_keys_unique db' /\
    (forall i, i <> new_id -> get_cold_room_by_id db' i = get_cold_room_by_id db i) /\
    (r = None <->
     exists c s, In c (cold_rooms db) /\ sensor_id = Some s /\ room_sensor_id c = Some s) /\
    (r = None -> db' = db) /\
    (r <> None ->
     r = Some new_id /\
     get_cold_room_by_id db' new_id = Some room /\
     forall s, sensor_id = Some s -> find_room_by_sensor db' s = Some room).
Proof.
  intros db new_id name loc sensor (Hid & Hnd & Hl) Hfresh db' r room.
  unfold db', r, add_cold_room.
  destruct (sensor_taken (cold_rooms db) None sensor) eqn:Et; cbn [fst snd].
  - split; [repeat apply conj; assumption|]. split; [reflexivity|].
    split; [|split; [reflexivity | intros H; contradiction]].
    split; [intros _|reflexivity].
    destruct sensor as [s|]; [|discriminate].
    apply sensor_taken_true in Et as (c & Hc & Hs & _). eauto.
  - assert (Hfree : forall c s, In c (cold_rooms db) -> sensor = Some s ->
                                room_sensor_id c <> Some s).
    { intros c s Hc -> Hs. rewrite sensor_taken_false in Et.
      destruct (Et c Hc Hs) as (i & Hi & _). discriminate. }
    split; [|split; [|split; [|split]]].
    + repeat apply conj; cbn [cold_rooms with_cold_rooms locations].
      * rewrite map_app. apply NoDup_app; auto.
        -- simpl. constructor; [intros []|constructor].
        -- intros a Ha [<- | []]. contradiction.
      * rewrite sensor_ids_app. apply NoDup_app; auto.
        -- unfold sensor_ids. simpl. destruct sensor; simpl;
             [constructor; [intros []|constructor] | constructor].
        -- intros s Hs Hin. unfold sensor_ids in Hin. simpl in Hin.
           destruct sensor as [s0|]; [|contradiction]. destruct Hin as [-> | []].
           apply In_sensor_ids in Hs as (c & Hc & Hsc). eapply Hfree; eauto.
      * exact Hl.
    + intros i Hi. unfold get_cold_room_by_id. cbn [cold_rooms with_cold_rooms].
      rewrite find_snoc. destruct (find _ (cold_rooms db)); [reflexivity|].
      cbn [room_id]. assert (E : (new_id =? i)%Z = false) by (apply Z.eqb_neq; congruence).
      rewrite E. reflexivity.
    + split; [discriminate|]. intros (c & s & Hc & Hs & Hsc). exfalso.
      eapply Hfree; eauto.
    + discriminate.
    + intros _. split; [reflexivity|]. split.
      * unfold get_cold_room_by_id. cbn [cold_rooms with_cold_rooms]. rewrite find_snoc.
        destruct (find _ (cold_rooms db)) as [c|] eqn:G.
        -- exfalso. apply find_some in G as [G1 G2]. apply Z.eqb_eq in G2.
           apply Hfresh. rewrite <- G2. apply in_map, G1.
        -- cbn [room_id]. rewrite Z.eqb_refl. reflexivity.
      * intros s ->. unfold find_room_by_sensor. cbn [cold_rooms with_cold_rooms].
        rewrite find_snoc.
        destruct (find _ (cold_rooms db)) as [c|] eqn:G.
        -- exfalso. apply find_some in G as [G1 G2].
           apply option_string_eqb_eq in G2. eapply Hfree; eauto.
        -- cbn [room_sensor_id option_string_eqb]. rewrite String.eqb_refl. reflexivity.
Qed.

Lemma add_cold_room_keeps_keys_witness :
  registry_keys_unique db_errors /\
  ~ In 3%Z (map room_id (cold_rooms db_errors)) /\
  registry_keys_unique
    (fst (add_cold_room db_errors 3 "Room C" 1 (Some "28CCDDEE00112233"))) /\
  snd (add_cold_room db_errors 3 "Room C" 1 (Some "289FBDBB4024BC6")) = None.
Proof.
  assert (H : ~ In 3%Z (map room_id (cold_rooms db_errors))).
  { simpl. intros [H | [H | []]]; discriminate. }
  split; [exact registry_keys_unique_db_errors|]. split; [exact H|]. split; [|reflexivity].
  exact (proj1 (add_cold_room_keeps_keys db_errors 3 "Room C" 1 (Some "28CCDDEE00112233")
                  registry_keys_unique_db_errors H)).
Defined.

Lemma NoDup_app_disjoint {A : Type} (l1 l2 : list A) x :
  NoDup (l1 ++ l2) -> In x l1 -> In x l2 -> False.
Proof.
  induction l1 as [|y l1 IH]; [contradiction|].
  simpl. intros Hnd [<- | H1] H2.
  - inversion Hnd as [|? ? Hnot _]; subst. apply Hnot, in_or_app. right; exact H2.
  - inversion Hnd; subst. auto.
Qed.

Lemma sensor_ids_filter (p : cold_room -> bool) rooms :
  NoDup (sensor_ids rooms) -> NoDup (sensor_ids (filter p rooms)).
Proof.
  induction rooms as [|c rooms IH]; intros Hnd; [constructor|].
  change (c :: rooms) with ([c] ++ rooms) in Hnd. rewrite sensor_ids_app in Hnd.
  assert (Hrest : NoDup (sensor_ids rooms)) by (eapply NoDup_app_remove_l; exact Hnd).
  cbn [filter]. destruct (p c); [|apply IH, Hrest].
  change (c :: filter p rooms) with ([c] ++ filter p rooms). rewrite sensor_ids_app.
  apply NoDup_app; auto.
  - eapply NoDup_app_remove_r; exact Hnd.
  - intros s Hs Hin. apply In_sensor_ids in Hin as (c' & Hc' & Hsc').
    apply filter_In in Hc' as [Hc' _].
    assert (Hin' : In s (sensor_ids rooms)) by (apply In_sensor_ids; eauto).
    eapply NoDup_app_disjoint; eauto.
Qed.

(** X19.  Deleting a room keeps the keys of the table distinct, leaves the
    other rooms, the locations and the error log alone, and after it neither
    the id nor the sensor id of the room resolves.  The samples of the room
    go with it when foreign keys are enforced, and all samples stay when they
    are not. *)
Theorem delete_cold_room_unregisters :
  forall foreign_keys db cold_room_id,
    registry_keys_unique db ->
    let db' := delete_cold_room foreign_keys db cold_room_id in
    registry_keys_unique db' /\
    locations db' = locations db /\
    esp32_errors db' = esp32_errors db /\
    get_cold_room_by_id db' cold_room_id = None /\
    (forall i, i <> cold_room_id -> get_cold_room_by_id db' i = get_cold_room_by_id db i) /\
    (forall c s, get_cold_room_by_id db cold_room_id = Some c ->
                 room_sensor_id c = Some s -> find_room_by_sensor db' s = None) /\
    (foreign_keys = false -> temperature_data db' = temperature_data db) /\
    (foreign_keys = true ->
     forall r, In r (temperature_data db') <->
               In r (temperature_data db) /\ td_cold_room_id r <> cold_room_id).
Proof.
  intros fk db id (Hid & Hnd & Hl) db'. unfold db', delete_cold_room.
  repeat apply conj; cbn [cold_rooms locations esp32_errors temperature_data]; auto.
  - clear -Hid. induction (cold_rooms db) as [|c rooms IH]; [constructor|].
    inversion Hid as [|? ? Hnot Hid']; subst. cbn [filter].
    destruct (negb (room_id c =? id)%Z); [|apply IH, Hid'].
    cbn [map]. constructor; [|apply IH, Hid'].
    intros Hin. apply Hnot. apply in_map_iff in Hin as (c' & E & Hc').
    apply filter_In in Hc' as [Hc' _]. rewrite <- E. apply in_map, Hc'.
  - apply sensor_ids_filter, Hnd.
  - unfold get_cold_room_by_id. cbn [cold_rooms].
    destruct (find _ (filter _ (cold_rooms db))) as [c|] eqn:G; [|reflexivity].
    apply find_some in G as [G1 G2]. apply filter_In in G1 as [_ G1].
    rewrite G2 in G1. discriminate.
  - intros i Hi. unfold get_cold_room_by_id. cbn [cold_rooms].
    induction (cold_rooms db) as [|c rooms IH]; [reflexivity|].
    cbn [filter find]. destruct (room_id c =? id)%Z eqn:E; cbn [negb].
    + apply Z.eqb_eq in E.
      assert (N : (room_id c =? i)%Z = false) by (apply Z.eqb_neq; congruence).
      rewrite N. apply IH. inversion Hid; auto.
      all: change (c :: rooms) with ([c] ++ rooms) in Hnd; rewrite sensor_ids_app in Hnd;
        eapply NoDup_app_remove_l; exact Hnd.
    + cbn [find]. destruct (room_id c =? i)%Z; [reflexivity|].
      apply IH. inversion Hid; auto.
      all: change (c :: rooms) with ([c] ++ rooms) in Hnd; rewrite sensor_ids_app in Hnd;
        eapply NoDup_app_remove_l; exact Hnd.
  - intros c s G Hs. unfold get_cold_room_by_id in G. apply find_some in G as [G1 G2].
    apply Z.eqb_eq in G2. unfold find_room_by_sensor. cbn [cold_rooms].
    destruct (find _ (filter _ (cold_rooms db))) as [c'|] eqn:F; [|reflexivity].
    exfalso. apply find_some in F as [F1 F2]. apply filter_In in F1 as [F1 F3].
    apply option_string_eqb_eq in F2.
    assert (E : c' = c) by (eapply sensor_unique; eauto).
    subst c'. apply Z.eqb_eq in G2. rewrite G2 in F3. discriminate.
  - intros ->. reflexivity.
  - intros -> r. rewrite filter_In. unfold room_is. rewrite negb_true_iff, Z.eqb_neq.
    reflexivity.
Qed.

Lemma delete_cold_room_unregisters_witness :
  registry_keys_unique db_samples /\
  get_cold_room_by_id (delete_cold_room false db_samples 1) 1 = None /\
  find_room_by_sensor (delete_cold_room false db_samples 1) "289FBDBB4024BC6" = None /\
  temperature_data (delete_cold_room false db_samples 1) = temperature_data db_samples.
Proof.
  assert (H : registry_keys_unique db_samples) by exact registry_keys_unique_db_errors.
  split; [exact H|]. split; [|split; reflexivity].
  exact (proj1 (proj2 (proj2 (proj2 (delete_cold_room_unregisters false db_samples 1 H))))).
Defined.

(** ** Registration and ingestion together *)

Lemma truthy_PStr m : m <> "" -> truthy (PStr m) = true.
Proof. intros H. simpl. apply String.eqb_neq in H. rewrite H. reflexivity. Qed.

Lemma single_reading_accepted db now m s t room :
  m <> "" -> s <> "" ->
  find_room_by_sensor db s = Some room ->
  receive_esp32_data db now (envelope (PStr m) (PList [reading_of s t])) =
  Some (append_sample db {| td_cold_room_id := room_id room; td_temperature := t;
                            td_timestamp := Some (clock_seconds now) |},
        success "Processed 1 readings.").
Proof.
  intros Hm Hs Hf.
  rewrite receive_esp32_data_list by (auto using truthy_PStr; discriminate).
  unfold ingest. cbn [for_readings].
  rewrite (process_reading_accepted (PStr m) now (start db) (reading_of s t) s (PNum t) t room)
    by (auto; reflexivity).
  reflexivity.
Qed.

Lemma single_reading_unregistered db now m s t :
  m <> "" -> s <> "" ->
  find_room_by_sensor db s = None ->
  receive_esp32_data db now (envelope (PStr m) (PList [reading_of s t])) =
  Some (append_error db now m (Some s) UNREGISTERED_SENSOR (Unregistered_sensor_id (PStr s)),
        success "Processed 0 readings. 1 errors logged.").
Proof.
  intros Hm Hs Hf.
  rewrite receive_esp32_data_list by (auto using truthy_PStr; discriminate).
  unfold ingest. cbn [for_readings]. unfold process_reading, reading_of.
  cbn [py_get assoc String.eqb Ascii.eqb Bool.eqb]. cbn [truthy is_none negb andb].
  apply String.eqb_neq in Hs. rewrite Hs. cbn [negb andb].
  unfold get_cold_room_by_sensor. cbn [sqlite_text start ls_db]. rewrite Hf.
  reflexivity.
Qed.

(** X20.  A reading, with a float for temperature, of a sensor no room
    carries is logged as UNREGISTERED_SENSOR and counted as an error; once a
    room has been given that sensor id by a successful update, the same
    reading is stored as a sample of that room. *)
Theorem registered_sensor_is_accepted :
  forall db cold_room_id name s m t now c,
    registry_keys_unique db ->
    get_cold_room_by_id db cold_room_id = Some c ->
    s <> "" -> m <> "" ->
    find_room_by_sensor db s = None ->
    receive_esp32_data db now (envelope (PStr m) (PList [reading_of s t])) =
      Some (append_error db now m (Some s) UNREGISTERED_SENSOR
              (Unregistered_sensor_id (PStr s)),
            success "Processed 0 readings. 1 errors logged.") /\
    snd (update_cold_room db cold_room_id name (Some s)) = true /\
    let db' := fst (update_cold_room db cold_room_id name (Some s)) in
    receive_esp32_data db' now (envelope (PStr m) (PList [reading_of s t])) =
      Some (append_sample db' {| td_cold_room_id := cold_room_id; td_temperature := t;
                                 td_timestamp := Some (clock_seconds now) |},
            success "Processed 1 readings.").
Proof.
  intros db id name s m t now c Hk Hc Hs Hm Hnone.
  split; [apply single_reading_unregistered; auto|].
  assert (Hfree : sensor_taken (cold_rooms db) (Some id) (Some s) = false).
  { apply sensor_taken_false. intros c' Hc' Hs'. exfalso.
    unfold find_room_by_sensor in Hnone.
    pose proof (find_none _ _ Hnone c' Hc') as H. simpl in H.
    rewrite (proj2 (option_string_eqb_eq _ _) Hs') in H. discriminate. }
  unfold update_cold_room. rewrite Hfree, andb_false_r. cbn [fst snd].
  split; [reflexivity|].
  rewrite (single_reading_accepted _ now m s t
             {| room_id := room_id c; room_name := name;
                room_location_id := room_location_id c; room_sensor_id := Some s |})
    by (auto; apply find_room_after_set; auto).
  unfold get_cold_room_by_id in Hc. apply find_some in Hc as [_ Hc].
  apply Z.eqb_eq in Hc. cbn [room_id]. rewrite Hc. reflexivity.
Qed.

Lemma registered_sensor_is_accepted_witness :
  registry_keys_unique db0 /\
  get_cold_room_by_id db0 2 = Some room_b /\
  find_room_by_sensor db0 "28CCDDEE00112233" = None /\
  receive_esp32_data (fst (update_cold_room db0 2 "Room B" (Some "28CCDDEE00112233"))) 1000
    (envelope (PStr "AA:BB:CC:DD:EE:FF") (PList [reading_of "28CCDDEE00112233" 3])) =
  Some (append_sample (fst (update_cold_room db0 2 "Room B" (Some "28CCDDEE00112233")))
          {| td_cold_room_id := 2; td_temperature := 3; td_timestamp := Some 1000%Z |},
        success "Processed 1 readings.").
Proof.
  assert (H : registry_keys_unique db0) by exact registry_keys_unique_db_errors.
  split; [exact H|]. split; [reflexivity|]. split; [reflexivity|].
  exact (proj2 (proj2 (registered_sensor_is_accepted db0 2 "Room B" "28CCDDEE00112233"
                         "AA:BB:CC:DD:EE:FF" 3 1000 room_b H eq_refl
                         ltac:(discriminate) ltac:(discriminate) eq_refl))).
Defined.

(** X21.  Error records are tied to a room by the sensor id alone: when a
    room is given a sensor id, every unresolved record already logged under
    that id is listed for the room. *)
Theorem errors_follow_the_sensor_id :
  forall db cold_room_id name s c e,
    get_cold_room_by_id db cold_room_id = Some c ->
    s <> "" ->
    snd (update_cold_room db cold_room_id name (Some s)) = true ->
    In e (esp32_errors db) ->
    err_sensor_id e = Some s ->
    err_resolved e = false ->
    In (err_id e)
       (map re_id
          (get_esp32_errors_for_cold_room
             (fst (update_cold_room db cold_room_id name (Some s))) cold_room_id (-1))).
Proof.
  intros db id name s c e Hc Hs Hok He Hse Hr.
  unfold update_cold_room in *.
  destruct (existsb _ (cold_rooms db) && sensor_taken _ _ _); [discriminate|].
  cbn [fst]. unfold get_esp32_errors_for_cold_room.
  cbn [cold_rooms with_cold_rooms esp32_errors].
  unfold get_cold_room_by_id in Hc. rewrite find_map_set_room, Hc. cbn [option_map].
  apply find_some in Hc as [_ Hid]. unfold set_room. simpl in Hid. rewrite Hid.
  cbn [room_sensor_id]. apply String.eqb_neq in Hs. rewrite Hs.
  apply in_map_iff.
  exists {| re_id := err_id e; re_esp32_mac := err_esp32_mac e;
            re_error_type := err_type e; re_error_message := err_message e;
            re_timestamp := err_timestamp e; re_resolved := err_resolved e |}.
  split; [reflexivity|].
  apply in_map_iff. exists e. split; [reflexivity|].
  unfold sql_limit. cbn [Z.ltb Z.compare]. apply order_by_desc_In, filter_In.
  split; [exact He|]. rewrite Hse, Hr. simpl. rewrite String.eqb_refl. reflexivity.
Qed.

Lemma errors_follow_the_sensor_id_witness :
  get_cold_room_by_id db_errors 2 = Some room_b /\
  In 2%Z (map re_id
            (get_esp32_errors_for_cold_room
               (fst (update_cold_room db_errors 2 "Room B" (Some "28CCDDEE00112233"))) 2 (-1))).
Proof.
  split; [reflexivity|].
  refine (errors_follow_the_sensor_id db_errors 2 "Room B" "28CCDDEE00112233" room_b
            {| err_id := 2; err_esp32_mac := "AA:BB:CC:DD:EE:FF";
               err_sensor_id := Some "28CCDDEE00112233";
               err_type := UNREGISTERED_SENSOR;
               err_message := Unregistered_sensor_id (PStr "28CCDDEE00112233");
               err_timestamp := Some 200%Z; err_resolved := false |}
            eq_refl ltac:(discriminate) eq_refl _ eq_refl eq_refl).
  right; left; reflexivity.
Defined.

Lemma find_room_after_delete foreign_keys db id c s :
  registry_keys_unique db ->
  get_cold_room_by_id db id = Some c ->
  room_sensor_id c = Some s ->
  find_room_by_sensor (delete_cold_room foreign_keys db id) s = None.
Proof.
  intros (_ & Hnd & _) G Hs. unfold get_cold_room_by_id in G. apply find_some in G as [G1 G2].
  unfold find_room_by_sensor, delete_cold_room. cbn [cold_rooms].
  destruct (find _ (filter _ (cold_rooms db))) as [c'|] eqn:F; [|reflexivity].
  exfalso. apply find_some in F as [F1 F2]. apply filter_In in F1 as [F1 F3].
  apply option_string_eqb_eq in F2.
  assert (E : c' = c) by (eapply sensor_unique; eauto).
  subst c'. simpl in G2. rewrite G2 in F3. discriminate.
Qed.

(** X22.  After a room is deleted a reading of its sensor is no longer
    stored: it is logged as UNREGISTERED_SENSOR and counted as an error,
    whether or not foreign keys are enforced. *)
Theorem deleted_room_rejects_readings :
  forall foreign_keys db cold_room_id c s m t now,
    registry_keys_unique db ->
    get_cold_room_by_id db cold_room_id = Some c ->
    room_sensor_id c = Some s ->
    s <> "" -> m <> "" ->
    let db' := delete_cold_room foreign_keys db cold_room_id in
    receive_esp32_data db' now (envelope (PStr m) (PList [reading_of s t])) =
      Some (append_error db' now m (Some s) UNREGISTERED_SENSOR
              (Unregistered_sensor_id (PStr s)),
            success "Processed 0 readings. 1 errors logged.").
Proof.
  intros fk db id c s m t now Hk Hc Hsc Hs Hm db'.
  apply single_reading_unregistered; auto.
  eapply find_room_after_delete; eauto.
Qed.

Lemma deleted_room_rejects_readings_witness :
  registry_keys_unique db0 /\
  get_cold_room_by_id db0 1 = Some room_a /\
  receive_esp32_data (delete_cold_room true db0 1) 1000
    (envelope (PStr "AA:BB:CC:DD:EE:FF") (PList [reading_of "289FBDBB4024BC6" 3])) =
  Some (append_error (delete_cold_room true db0 1) 1000 "AA:BB:CC:DD:EE:FF"
          (Some "289FBDBB4024BC6") UNREGISTERED_SENSOR
          (Unregistered_sensor_id (PStr "289FBDBB4024BC6")),
        success "Processed 0 readings. 1 errors logged.").
Proof.
  assert (H : registry_keys_unique db0) by exact registry_keys_unique_db_errors.
  split; [exact H|]. split; [reflexivity|].
  exact (deleted_room_rejects_readings true db0 1 room_a "289FBDBB4024BC6"
           "AA:BB:CC:DD:EE:FF" 3 1000 H eq_refl eq_refl
           ltac:(discriminate) ltac:(discriminate)).
Defined.

(** ** Access to the data of a room *)

Lemma truthy_id_Some v : truthy_id v = true -> exists i, v = Some i /\ i <> 0%Z.
Proof.
  destruct v as [i|]; simpl; [|discriminate].
  intros H. exists i. split; [reflexivity|].
  apply negb_true_iff, Z.eqb_neq in H. exact H.
Qed.

Lemma truthy_id_nonzero i : i <> 0%Z -> truthy_id (Some i) = true.
Proof. intros H. simpl. apply negb_true_iff, Z.eqb_neq, H. Qed.

(** What the decorator has checked when it lets a non-admin through. *)
Lemma granted_non_admin db u cid lid :
  location_user_required db u cid lid = Granted ->
  is_admin u = false ->
  exists l,
    user_location_id u = Some l /\ l <> 0%Z /\
    (forall id, cid = Some id -> id <> 0%Z ->
       exists room, get_cold_room_by_id db id = Some room /\ room_location_id room = l) /\
    (forall k, lid = Some k -> k <> 0%Z -> k = l).
Proof.
  unfold location_user_required. intros H Hadm. rewrite Hadm in H.
  destruct (truthy_id (user_location_id u)) eqn:Tl; [|discriminate].
  cbn [negb] in H.
  destruct (truthy_id_Some _ Tl) as (l & Hl & Hl0). exists l.
  split; [exact Hl|]. split; [exact Hl0|].
  destruct (truthy_id cid && _) eqn:C1; [discriminate|].
  destruct (truthy_id lid && _) eqn:C2; [discriminate|].
  split.
  - intros id -> Hid. rewrite (truthy_id_nonzero id Hid) in C1. cbn [andb] in C1.
    destruct (get_cold_room_by_id db id) as [room|]; [|discriminate].
    exists room. split; [reflexivity|].
    apply negb_false_iff, key_eqb_eq in C1. congruence.
  - intros k -> Hk. rewrite (truthy_id_nonzero k Hk) in C2. cbn [andb] in C2.
    apply negb_false_iff, key_eqb_eq in C2. congruence.
Qed.

(** X23.  Admins pass the guard; a user without a location never does; and
    when any other user passes it (and so whenever such a user is served the
    plain CSV download) the room asked for exists and lies in the user's own
    location.  The guard tests the room only for a non-zero id. *)
Theorem room_access_only_within_location :
  forall db now u cold_room_id,
    cold_room_id <> 0%Z ->
    (is_admin u = true ->
     forall lid, location_user_required db u (Some cold_room_id) lid = Granted) /\
    (is_admin u = false -> truthy_id (user_location_id u) = false ->
     forall lid, location_user_required db u (Some cold_room_id) lid <> Granted) /\
    (is_admin u = false ->
     forall lid, location_user_required db u (Some cold_room_id) lid = Granted ->
       exists room l,
         get_cold_room_by_id db cold_room_id = Some room /\
         user_location_id u = Some l /\ room_location_id room = l) /\
    (is_admin u = false ->
     forall rows, download_cold_room_csv db now u cold_room_id = Served rows ->
       exists room l,
         get_cold_room_by_id db cold_room_id = Some room /\
         user_location_id u = Some l /\ room_location_id room = l).
Proof.
  intros db now u id Hid. repeat apply conj.
  - intros Hadm lid. unfold location_user_required. rewrite Hadm. reflexivity.
  - intros Hadm Hloc lid. unfold location_user_required. rewrite Hadm, Hloc. discriminate.
  - intros Hadm lid Hg.
    destruct (granted_non_admin _ _ _ _ Hg Hadm) as (l & Hl & _ & Hroom & _).
    destruct (Hroom id eq_refl Hid) as (room & Hr & Hrl). eauto.
  - intros Hadm rows. unfold download_cold_room_csv.
    destruct (location_user_required db u (Some id) None) eqn:Hg; [|discriminate].
    intros _.
    destruct (granted_non_admin _ _ _ _ Hg Hadm) as (l & Hl & _ & Hroom & _).
    destruct (Hroom id eq_refl Hid) as (room & Hr & Hrl). eauto.
Qed.

Lemma room_access_only_within_location_witness :
  1%Z <> 0%Z /\
  is_admin plant_user = false /\
  location_user_required db0 plant_user (Some 1%Z) None = Granted /\
  exists room l,
    get_cold_room_by_id db0 1 = Some room /\
    user_location_id plant_user = Some l /\ room_location_id room = l.
Proof.
  split; [discriminate|]. split; [reflexivity|]. split; [reflexivity|].
  exact (proj1 (proj2 (proj2 (room_access_only_within_location db0 1000%Z plant_user 1%Z
                                ltac:(discriminate))))
           eq_refl None eq_refl).
Defined.

(** X24.  The plain CSV download never serves a file: it redirects when the
    guard refuses or the room does not exist, and otherwise fails, send_file
    refusing the text-mode buffer it is handed (the export route hands over
    bytes and is served). *)
Theorem download_never_serves :
  forall db now u cold_room_id,
    (forall rows, download_cold_room_csv db now u cold_room_id <> Served rows) /\
    (download_cold_room_csv db now u cold_room_id = Failed <->
     location_user_required db u (Some cold_room_id) None = Granted /\
     exists room, get_cold_room_by_id db cold_room_id = Some room) /\
    (forall content : list (list csv_cell), send_file true content = Served content).
Proof.
  intros db now u id. unfold download_cold_room_csv, send_file.
  destruct (location_user_required db u (Some id) None) as [|flash];
    [destruct (get_cold_room_by_id db id) as [room|]|].
  - repeat split; try discriminate; eauto.
  - repeat split; try discriminate. intros [_ [room H]]; discriminate.
  - repeat split; try discriminate. intros [H _]; discriminate.
Qed.

(** ** The dashboard: live figures and room status *)

Lemma latest_temp_active db now cold_room_id :
  match latest_temp (latest_status db now cold_room_id) with
  | Some _ => is_sensor_active (latest_status db now cold_room_id) = true
  | None => is_sensor_active (latest_status db now cold_room_id) = false
  end.
Proof.
  unfold latest_status.
  destruct (get_temperature_data_for_cold_room db now cold_room_id (Some 1%nat))
    as [|latest rest]; [reflexivity|].
  simpl. destruct (is_active latest); reflexivity.
Qed.

Lemma dashboard_loop_active db now rooms : forall acc,
  all_active_temps (fold_left (dashboard_room db now) rooms acc) =
  all_active_temps acc ++ live_temperatures db now rooms.
Proof.
  induction rooms as [|room rooms IH]; intros acc; simpl.
  - rewrite app_nil_r. reflexivity.
  - rewrite IH. unfold live_temperatures. cbn [flat_map].
    rewrite app_assoc. f_equal.
    unfold dashboard_room, latest_status. cbn [all_active_temps].
    destruct (get_temperature_data_for_cold_room db now (room_id room) (Some 1%nat))
      as [|latest rest]; cbn [latest_temp].
    + rewrite app_nil_r. reflexivity.
    + destruct (is_active latest); [reflexivity | rewrite app_nil_r; reflexivity].
Qed.

Lemma live_temperatures_length db now rooms :
  List.length (live_temperatures db now rooms) =
  List.length
    (filter (fun room => is_sensor_active (latest_status db now (room_id room))) rooms).
Proof.
  unfold live_temperatures. induction rooms as [|room rooms IH]; [reflexivity|].
  cbn [flat_map filter]. rewrite length_app, IH.
  pose proof (latest_temp_active db now (room_id room)) as H.
  destruct (latest_temp (latest_status db now (room_id room))); rewrite H; reflexivity.
Qed.

(** X25.  For a user whose location is set and whose location row exists,
    the combined figures are shown: the live temperature is the rounded mean
    of the current temperatures of the rooms that are live; the online count
    is the number of those rooms, never more than the total count, which is
    the number of rooms of the location; and the live temperature is absent
    exactly when no room is live.  Without a location id, or when the
    location row is gone, no room and no combined figures are shown, whatever
    rooms still carry that location id. *)
Theorem combined_live_figures :
  forall db now location_id,
    let rooms := get_cold_rooms_by_location db location_id in
    let live := live_temperatures db now rooms in
    (location_known db location_id ->
     exists stats,
       snd (user_dashboard db now location_id) = Some stats /\
       live_temp stats = rounded_mean live /\
       online_count stats = List.length live /\
       total_count stats = List.length rooms /\
       (online_count stats <= total_count stats)%nat /\
       (live_temp stats = None <-> online_count stats = 0%nat)) /\
    (location_id = 0%Z \/ (forall l, In l (locations db) -> loc_id l <> location_id) ->
     user_dashboard db now location_id = ([], None)).
Proof.
  intros db now location_id rooms live. split; [|apply user_dashboard_hidden].
  intros Hk. rewrite (user_dashboard_shown db now location_id Hk).
  eexists. split; [reflexivity|].
  cbn [combined_stats live_temp online_count total_count].
  fold rooms.
  destruct (dashboard_loop db now rooms no_rooms_yet) as [Hdata _].
  rewrite (dashboard_loop_active db now rooms no_rooms_yet), Hdata.
  cbn [no_rooms_yet room_data all_active_temps app].
  fold live.
  assert (Hon : List.length
                  (filter (fun room : room_entry => is_sensor_active (entry_latest room))
                     (map (entry_of db now) rooms)) = List.length live).
  { unfold live. rewrite live_temperatures_length. clear.
    induction rooms as [|room l IH]; [reflexivity|]. cbn [map filter entry_of entry_latest].
    destruct (is_sensor_active (latest_status db now (room_id room))); simpl; rewrite IH;
      reflexivity. }
  rewrite Hon, length_map.
  split; [reflexivity|]. split; [reflexivity|]. split; [reflexivity|]. split.
  - unfold live. rewrite live_temperatures_length. apply filter_length_le.
  - unfold rounded_mean. destruct live; simpl; split; try reflexivity; discriminate.
Qed.

Lemma combined_live_figures_witness :
  location_known db_samples 1 /\
  exists stats,
    snd (user_dashboard db_samples 2000 1) = Some stats /\
    online_count stats = List.length (live_temperatures db_samples 2000 (cold_rooms db_samples)).
Proof.
  assert (H : location_known db_samples 1).
  { split; [discriminate|]. eexists. split; [left; reflexivity|reflexivity]. }
  split; [exact H|].
  destruct (proj1 (combined_live_figures db_samples 2000 1) H)
    as (stats & E & _ & Hon & _).
  exists stats. split; [exact E|exact Hon].
Defined.

(** X26.  For a user whose location is set and whose location row exists, the
    dashboard has one entry for each room of the location, in table order; an
    entry is offline exactly when its room is not live, normal exactly when
    the room is live with a current temperature from -5 to 5 degrees (bounds
    included), and alert otherwise. *)
Theorem dashboard_room_status :
  forall db now location_id,
    location_known db location_id ->
    let entries := fst (user_dashboard db now location_id) in
    map entry_room entries = get_cold_rooms_by_location db location_id /\
    forall e, In e entries ->
      entry_latest e = latest_status db now (room_id (entry_room e)) /\
      entry_stats e = get_24h_temperature_stats db now (room_id (entry_room e)) /\
      (temp_status e = offline <-> is_sensor_active (entry_latest e) = false) /\
      (temp_status e = normal <->
       exists t, latest_temp (entry_latest e) = Some t /\ -5 <= t /\ t <= 5) /\
      (temp_status e = alert <->
       exists t, latest_temp (entry_latest e) = Some t /\ ~ (-5 <= t /\ t <= 5)).
Proof.
  intros db now location_id Hk entries. unfold entries.
  rewrite (user_dashboard_shown db now location_id Hk). cbn [fst].
  destruct (dashboard_loop db now (get_cold_rooms_by_location db location_id)
              no_rooms_yet) as [-> _].
  cbn [no_rooms_yet room_data app]. split.
  - rewrite map_map. cbn [entry_of entry_room]. apply map_id.
  - intros e He. apply in_map_iff in He as (room & <- & _).
    cbn [entry_of entry_room entry_latest entry_stats temp_status].
    split; [reflexivity|]. split; [reflexivity|].
    pose proof (latest_temp_active db now (room_id room)) as Hact.
    destruct (latest_temp (latest_status db now (room_id room))) as [t|].
    + rewrite Hact.
      destruct (Qle_bool (-5) t) eqn:L1; destruct (Qle_bool t 5) eqn:L2; cbn [andb];
        (split; [split; discriminate|]); split; split;
        try discriminate; try reflexivity;
        try (intros (t' & [= <-] & H1 & H2);
             apply Qle_bool_iff in H1; apply Qle_bool_iff in H2; congruence);
        try (intros _; exists t; split; [reflexivity|]);
        try (split; apply Qle_bool_iff; assumption);
        try (intros [H1 H2]; apply Qle_bool_iff in H1; apply Qle_bool_iff in H2; congruence);
        try (intros (t' & [= <-] & H); exfalso; apply H;
             split; apply Qle_bool_iff; assumption).
    + rewrite Hact. split; [split; reflexivity|].
      split; split; try discriminate; intros (t' & H & _); discriminate.
Qed.

Lemma dashboard_room_status_witness :
  location_known db_samples 1 /\
  map entry_room (fst (user_dashboard db_samples 2000 1)) = [room_a; room_b].
Proof.
  assert (H : location_known db_samples 1).
  { split; [discriminate|]. eexists. split; [left; reflexivity|reflexivity]. }
  split; [exact H|].
  exact (proj1 (dashboard_room_status db_samples 2000 1 H)).
Defined.
